(** * Galaxy colour distribution test (DESCQA): a shallow embedding

    The development follows [validation_code/ColorDistributionTest.py].
    Magnitudes, histogram densities and statistics are IEEE binary64 numbers,
    as in NumPy; they are modelled by Rocq's primitive floats, so every
    definition below evaluates.  Python exceptions are values of [exn], the
    files written under [base_output_dir] are a finite map from paths to the
    strings written so far, and a method that writes files and may raise is a
    computation in the monad [M].

    The library calls are those of Python 3 with NumPy 1.11, the last NumPy
    series that accepts the float slice bound of line 349. *)

From Stdlib Require Import ZArith List Bool Lia String Ascii.
From Stdlib Require Import Floats.PrimFloat Numbers.Cyclic.Int63.Uint63.
From stdpp Require Import base option list sorting gmap strings pretty.

Local Open Scope string_scope.

(** ** Python exceptions and results *)

Inductive exn : Type :=
| KeyError
| IndexError
| ValueError
| TypeError
| IOError.

Inductive result (A : Type) : Type :=
| Ok (a : A)
| Raise (e : exn).

Arguments Ok {A} a.
Arguments Raise {A} e.

Definition rbind {A B : Type} (r : result A) (k : A -> result B) : result B :=
  match r with
  | Ok a => k a
  | Raise e => Raise e
  end.

Declare Scope result_scope.
Delimit Scope result_scope with res.
Notation "'let!' x := e 'in' k" := (rbind e (fun x => k))
  (at level 10, x name, e at level 100, k at level 200) : result_scope.

(** ** Floating point helpers *)

Definition float_of_Z (z : Z) : float :=
  match z with
  | Zneg _ => PrimFloat.opp (PrimFloat.of_uint63 (Uint63.of_Z (Z.opp z)))
  | _ => PrimFloat.of_uint63 (Uint63.of_Z z)
  end.

Definition float_of_nat (n : nat) : float := float_of_Z (Z.of_nat n).

(** ** The part of NumPy and of Python's sequences the test uses *)

Module np.

(** [np.zeros(n)] *)
Definition zeros (n : nat) : list float := replicate n 0%float.

(** [a[i]] for a non-negative index. *)
Definition getitem {A : Type} (a : list A) (i : nat) : result A :=
  match a !! i with
  | Some v => Ok v
  | None => Raise IndexError
  end.

(** [a[i] = v] for a non-negative index: Python raises out of range,
    where stdpp's insert would do nothing. *)
Definition setitem {A : Type} (a : list A) (i : nat) (v : A) : result (list A) :=
  if (i <? length a)%nat then Ok (<[i := v]> a) else Raise IndexError.

(** Element-wise binary operation with NumPy's broadcasting rule for
    one-dimensional operands: equal lengths, or one operand of length 1. *)
Definition broadcast {A B C : Type} (f : A -> B -> C)
    (xs : list A) (ys : list B) : result (list C) :=
  if (length xs =? length ys)%nat then Ok (zip_with f xs ys)
  else match xs, ys with
       | [x], _ => Ok (map (f x) ys)
       | _, [y] => Ok (map (fun x => f x y) xs)
       | _, _ => Raise ValueError
       end.

(** [m1 & m2] on boolean arrays. *)
Definition logical_and (m1 m2 : list bool) : result (list bool) :=
  broadcast andb m1 m2.

(** [a > c] and [a < c] against a scalar. *)
Definition greater (a : list float) (c : float) : list bool :=
  map (fun x => PrimFloat.ltb c x) a.
Definition less (a : list float) (c : float) : list bool :=
  map (fun x => PrimFloat.ltb x c) a.

(** The elements of [a] at the true positions of [mask]. *)
Fixpoint compress {A : Type} (mask : list bool) (a : list A) : list A :=
  match mask, a with
  | true :: m, x :: a' => x :: compress m a'
  | false :: m, _ :: a' => compress m a'
  | _, _ => []
  end.

(** [np.sum(mask)] on a boolean array: the number of true entries. *)
Fixpoint sum_bool (mask : list bool) : nat :=
  match mask with
  | [] => 0
  | b :: m => (if b then 1 else 0) + sum_bool m
  end.

(** [a[mask]]: the entries of [a] at the true positions of [mask].  A true
    position beyond the end of [a] is an [IndexError]; a mask of another
    length is otherwise accepted (with a deprecation warning). *)
Definition bool_index {A : Type} (a : list A) (mask : list bool) : result (list A) :=
  if (sum_bool (drop (length a) mask) =? 0)%nat then Ok (compress mask a)
  else Raise IndexError.

(** [np.sum] on an integer array. *)
Definition sum_int (a : list Z) : Z := foldr Z.add 0%Z a.

(** [np.linspace(start, stop, num)] with the default [endpoint=True]:
    [num] samples, the last one set to [stop]. *)
Definition linspace (start stop : float) (num : nat) : list float :=
  let div := float_of_nat (num - 1) in
  let y := map float_of_nat (seq 0 num) in
  let delta := PrimFloat.sub stop start in
  let y :=
    if (0 <? num - 1)%nat then
      let step := PrimFloat.div delta div in
      if PrimFloat.eqb step 0%float
      then map (fun v => PrimFloat.mul (PrimFloat.div v div) delta) y
      else map (fun v => PrimFloat.mul v step) y
    else map (fun v => PrimFloat.mul v delta) y in
  let y := map (fun v => PrimFloat.add v start) y in
  if (1 <? num)%nat then <[num - 1 := stop]> y else y.

(** [np.diff] on an integer array. *)
Fixpoint diff (a : list Z) : list Z :=
  match a with
  | x :: (y :: _) as t => (y - x)%Z :: diff t
  | _ => []
  end.

(** The order [np.sort] and [searchsorted] use: NaN is above every number. *)
Definition sort_lt (x e : float) : bool :=
  if PrimFloat.is_nan e then negb (PrimFloat.is_nan x) else PrimFloat.ltb x e.
Definition sort_le (x e : float) : bool :=
  if PrimFloat.is_nan e then true else PrimFloat.leb x e.

Definition count_if (p : float -> bool) (a : list float) : Z :=
  Z.of_nat (length (List.filter p a)).

(** [sorted(a).searchsorted(e, 'left')] and [(..., 'right')]. *)
Definition searchsorted_left (a : list float) (e : float) : Z :=
  count_if (fun x => sort_lt x e) a.
Definition searchsorted_right (a : list float) (e : float) : Z :=
  count_if (fun x => sort_le x e) a.

(** Successive edges that decrease. *)
Fixpoint decreases (bins : list float) : bool :=
  match bins with
  | x :: (y :: _) as t => PrimFloat.ltb y x || decreases t
  | _ => false
  end.

(** The cumulative counts [np.histogram] takes differences of: entries
    below each edge, and for the last edge entries below or equal to it. *)
Fixpoint cumulative (a : list float) (bins : list float) : list Z :=
  match bins with
  | [] => []
  | [e] => [searchsorted_right a e]
  | e :: t => searchsorted_left a e :: cumulative a t
  end.

(** [np.histogram(a, bins=edges)[0]] for an array of edges: bin [i] counts
    [edges[i] <= x < edges[i+1]], the last bin including its right edge.
    Edges that decrease raise [ValueError]; with no edge at all the last
    edge cannot be read. *)
Definition histogram (a : list float) (bins : list float) : result (list Z) :=
  if decreases bins then Raise ValueError
  else match a, bins with
       | _ :: _, [] => Raise IndexError
       | _, _ => Ok (diff (cumulative a bins))
       end.

End np.

(** ** CDFBuilder: lines 175-178 and 205-208 of [run_validation_test]

    [cdf = np.zeros(len(hist)); cdf[0] = hist[0];
     for cdf_index in range(1, len(hist)):
         cdf[cdf_index] = cdf[cdf_index-1] + hist[cdf_index]] *)

Local Open Scope result_scope.

Definition cdf_step (hist : list float) (acc : result (list float)) (cdf_index : nat)
  : result (list float) :=
  let! cdf := acc in
  let! prev := np.getitem cdf (cdf_index - 1) in
  let! h := np.getitem hist cdf_index in
  np.setitem cdf cdf_index (PrimFloat.add prev h).

Definition build_cdf (hist : list float) : result (list float) :=
  let cdf := np.zeros (length hist) in
  let! h0 := np.getitem hist 0 in
  let! cdf := np.setitem cdf 0 h0 in
  fold_left (cdf_step hist) (seq 1 (length hist - 1)) (Ok cdf).

(** ** Python strings and dictionaries *)

Definition newline : string := String (ascii_of_nat 10) EmptyString.

(** [s[i]] for a non-negative index: a one-character string. *)
Definition str_getitem (s : string) (i : nat) : result string :=
  match String.get i s with
  | Some c => Ok (String c EmptyString)
  | None => Raise IndexError
  end.

(** [d[k]] on a dictionary. *)
Definition dict_getitem {V : Type} (d : gmap string V) (k : string) : result V :=
  match d !! k with
  | Some v => Ok v
  | None => Raise KeyError
  end.

Definition ends_with_sep (p : string) : bool :=
  match String.get (String.length p - 1) p with
  | Some c => bool_decide (c = "/"%char)
  | None => false
  end.

(** [os.path.join(a, b)] on POSIX paths. *)
Definition path_join (a b : string) : string :=
  if String.prefix "/" b then b
  else if bool_decide (a = "") || ends_with_sep a then a +:+ b
  else a +:+ "/" +:+ b.

(** ** Output files and the monad of the test methods *)

Record outputs : Type := {
  files : gmap string (list string);   (* text files: path -> strings written, in order *)
  figures : list string                (* paths of the figures saved, in order *)
}.

Definition M (A : Type) : Type := outputs -> outputs * result A.

Definition ret {A : Type} (a : A) : M A := fun o => (o, Ok a).
Definition raise {A : Type} (e : exn) : M A := fun o => (o, Raise e).
Definition lift {A : Type} (r : result A) : M A := fun o => (o, r).

Definition bind {A B : Type} (m : M A) (k : A -> M B) : M B :=
  fun o => match m o with
           | (o', Ok a) => k a o'
           | (o', Raise e) => (o', Raise e)
           end.

Declare Scope monad_scope.
Delimit Scope monad_scope with M.
Notation "'let*' x := e 'in' k" := (bind e (fun x => k))
  (at level 10, x name, e at level 100, k at level 200) : monad_scope.
Notation "'let*' ' pat := e 'in' k" := (bind e (fun x => match x with pat => k end))
  (at level 10, pat pattern, e at level 100, k at level 200) : monad_scope.

(** [with open(fn, 'a') as f: f.write(msg)] *)
Definition append_file (fn msg : string) : M unit :=
  fun o => ({| files := <[fn := (default [] (files o !! fn) ++ [msg])%list]> (files o);
               figures := figures o |}, Ok tt).

(** [fig.savefig(fn)]: the file at [fn] is created or replaced by the image,
    so it holds none of the strings written to it before, and [fn] joins the
    figures saved. *)
Definition savefig (fn : string) : M unit :=
  fun o => ({| files := delete fn (files o);
               figures := (figures o ++ [fn])%list |}, Ok tt).

(** ** Module constants (lines 13-18) *)

Definition catalog_output_file : string := "catalog.txt".
Definition validation_output_file : string := "validation.txt".
Definition summary_output_file : string := "summary.txt".
Definition log_file : string := "log.txt".
Definition plot_pdf_file : string := "plot_pdf.png".
Definition plot_cdf_file : string := "plot_cdf.png".

(** ** The collaborators of the test *)

(** A labelled dataset [{'x': ..., 'y': ...}] handed to a distance function. *)
Abbreviation dataset := (gmap string (list float)).

(** What the test imports or is given: the distance statistics of
    [CalcStats], [np.loadtxt] on the validation data directory, and Python's
    [%] formatting of floats.  [loadtxt] gives the rows of the 2-D array
    [np.loadtxt] returns for a file of at least two rows and two columns, or
    the exception it raises; a file of a single row or a single column, which
    [np.loadtxt] returns as a 1-D array, is not covered. *)
Class Collaborators : Type := {
  L2Diff : dataset -> dataset -> float * bool;
  L1Diff : dataset -> dataset -> float * bool;
  KS_test : dataset -> dataset -> float * bool;
  loadtxt : string -> result (list (list float));
  format_f : nat -> float -> string;     (* ['%1.<p>f' % x] *)
  format_G : float -> string             (* ['%G' % x] *)
}.

(** The galaxy catalog reader: its declared quantities and
    [get_quantities(name, {'zlo': zlo, 'zhi': zhi})]. *)
Record galaxy_catalog : Type := {
  quantities : gset string;
  get_quantities : string -> float -> float -> list float
}.

Inductive status : Type := PASSED | FAILED | SKIPPED.

(** [TestResult(status, message)] *)
Record TestResult : Type := {
  result_status : status;
  result_message : string
}.

(** A bin specification [(minimum color, maximum color, N)]. *)
Abbreviation bin_spec := (float * float * nat)%type.

(** The attributes [__init__] sets (lines 76-137). *)
Record ColorDistributionTest : Type := {
  base_data_dir : string;
  _data_dir : string;
  _data_name : string;
  colors : list string;
  color_bin_args : list bin_spec;
  limiting_band : option string;
  limiting_mag : option float;
  zlo_mock : float;
  zhi_mock : float;
  zlo_obs : float;
  zhi_obs : float;
  translate : gmap string string;
  plot_pdf_q : bool
}.

(** The bin specification of the mandatory CDF pass (line 202). *)
Definition cdf_bin_args : bin_spec := (PrimFloat.opp 1%float, 4%float, 2000%nat).

(** ** The methods of [ColorDistributionTest] *)

Section Methods.

Context `{Collaborators}.
Local Open Scope monad_scope.

(** [load_validation_data] (lines 353-363): [binctr, hist = np.loadtxt(path)]
    unpacks exactly two rows. *)
Definition load_validation_data (self : ColorDistributionTest) (filename : string)
  : M (list float * list float) :=
  let path := path_join (path_join (base_data_dir self) (_data_dir self)) filename in
  let* rows := lift (loadtxt path) in
  match rows with
  | [binctr; hist] => ret (binctr, hist)
  | _ => raise ValueError
  end.

(** The mask of lines 325 and 330, [&] associating to the left.  With a
    limiting band but no limiting magnitude the comparison against [None]
    is a [TypeError]. *)
Definition validity_mask (self : ColorDistributionTest) (galaxy_catalog : galaxy_catalog)
    (mag1 mag2 : list float) : result (list bool) :=
  (match limiting_band self with
   | Some band =>
       let! limiting_band_name := dict_getitem (translate self) band in
       let mag_lim :=
         get_quantities galaxy_catalog limiting_band_name (zlo_mock self) (zhi_mock self) in
       match limiting_mag self with
       | None => Raise TypeError
       | Some lim =>
           let! m := np.logical_and (np.less mag_lim lim) (np.greater mag1 0%float) in
           let! m := np.logical_and m (np.less mag1 50%float) in
           let! m := np.logical_and m (np.greater mag2 0%float) in
           np.logical_and m (np.less mag2 50%float)
       end
   | None =>
       let! m := np.logical_and (np.greater mag1 0%float) (np.less mag1 50%float) in
       let! m := np.logical_and m (np.greater mag2 0%float) in
       np.logical_and m (np.less mag2 50%float)
   end)%res.

(** QuantityFilter, lines 308-341 of [color_distribution]: the two
    magnitude arrays of the redshift window under one mask, or [None] after
    a log entry when nothing is retrieved or nothing is retained.
    [self.band1] and [self.band2], which the runner assigns just before
    each call (lines 169-170), are passed as arguments. *)
Definition quantity_filter (self : ColorDistributionTest) (galaxy_catalog : galaxy_catalog)
    (band1 band2 : string) (base_output_dir : string)
  : M (option (list bool * list float * list float)) :=
  let mag1 := get_quantities galaxy_catalog band1 (zlo_mock self) (zhi_mock self) in
  let mag2 := get_quantities galaxy_catalog band2 (zlo_mock self) (zhi_mock self) in
  if (length mag1 =? 0)%nat then
    let msg := "No object in the redshift range!" +:+ newline in
    let fn := path_join base_output_dir log_file in
    let* _ := append_file fn msg in
    ret None
  else
    let* mask := lift (validity_mask self galaxy_catalog mag1 mag2) in
    let* mag1 := lift (np.bool_index mag1 mask) in
    let* mag2 := lift (np.bool_index mag2 mask) in
    if (np.sum_bool mask =? 0)%nat then
      let msg := "No object in the magnitude range!" +:+ newline in
      let fn := path_join base_output_dir log_file in
      let* _ := append_file fn msg in
      ret None
    else ret (Some (mask, mag1, mag2)).

(** ColorHistogramBuilder, lines 345-349 of [color_distribution].  The
    float slice bound [Nbins = len(bins)-1.0] is truncated to the integer
    [len(bins)-1] (for no edge at all, [bins[:-1]] is empty as well); the two
    slices have the same length, so their sum never fails to broadcast. *)
Definition color_histogram (mag1 mag2 : list float) (bin_args : bin_spec)
  : result (list float * list float) :=
  (let '(lo, hi, num) := bin_args in
   let! color := np.broadcast PrimFloat.sub mag1 mag2 in
   let bins := np.linspace lo hi num in
   let! hist := np.histogram color bins in
   let total := float_of_Z (np.sum_int hist) in
   let hist := map (fun c => PrimFloat.div (float_of_Z c) total) hist in
   let Nbins := (length bins - 1)%nat in
   let! s := np.broadcast PrimFloat.add (drop 1 bins) (take Nbins bins) in
   let binctr := map (fun v => PrimFloat.div v 2%float) s in
   Ok (binctr, hist))%res.

(** [color_distribution] (lines 298-351): [(None, None)] or
    [(binctr, hist)]. *)
Definition color_distribution (self : ColorDistributionTest)
    (galaxy_catalog : galaxy_catalog) (band1 band2 : string)
    (bin_args : bin_spec) (base_output_dir : string)
  : M (option (list float) * option (list float)) :=
  let* filtered := quantity_filter self galaxy_catalog band1 band2 base_output_dir in
  match filtered with
  | None => ret (None, None)
  | Some (_, mag1, mag2) =>
      let* '(binctr, hist) := lift (color_histogram mag1 mag2 bin_args) in
      ret (Some binctr, Some hist)
  end.

(** *** [run_validation_test] (lines 139-295) *)

(** The variables the colour loop carries. *)
Record loop_vars : Type := {
  no_cdf_q : bool;
  no_pdf_q : bool
}.

(** One iteration either falls through to the next colour or returns from
    the method. *)
Inductive control : Type :=
| Continue (v : loop_vars)
| Return (r : TestResult).

(** Lines 226-241: the three statistics, each multiplied by
    [np.sqrt(len(d1))], [d1] being the dictionary [{'x': mbinctr, 'y': mcdf}]. *)
Definition scaled_statistics (mbinctr mcdf obinctr ocdf : list float)
  : (float * bool) * (float * bool) * (float * bool) :=
  let d1 : dataset := {[ "x" := mbinctr; "y" := mcdf ]} in
  let d2 : dataset := {[ "x" := obinctr; "y" := ocdf ]} in
  let '(L2, L2_success) := L2Diff d1 d2 in
  let L2 := PrimFloat.mul L2 (PrimFloat.sqrt (float_of_nat (size d1))) in
  let d1 : dataset := {[ "x" := mbinctr; "y" := mcdf ]} in
  let d2 : dataset := {[ "x" := obinctr; "y" := ocdf ]} in
  let '(L1, L1_success) := L1Diff d1 d2 in
  let L1 := PrimFloat.mul L1 (PrimFloat.sqrt (float_of_nat (size d1))) in
  let d1 : dataset := {[ "x" := mbinctr; "y" := mcdf ]} in
  let d2 : dataset := {[ "x" := obinctr; "y" := ocdf ]} in
  let '(KS, KS_success) := KS_test d1 d2 in
  let KS := PrimFloat.mul KS (PrimFloat.sqrt (float_of_nat (size d1))) in
  ((L2, L2_success), (L1, L1_success), (KS, KS_success)).

(** [color+" SUCCESS: %s = %G\n" %(name, value)] and its FAILED twin. *)
Definition success_line (color name : string) (value : float) : string :=
  color +:+ " SUCCESS: " +:+ name +:+ " = " +:+ format_G value +:+ newline.
Definition failed_line (color name : string) (value : float) : string :=
  color +:+ " FAILED: " +:+ name +:+ " = " +:+ format_G value +:+ newline.

(** Lines 243-258: the three writes to the summary file. *)
Definition write_summary (base_output_dir color : string)
    (stats : (float * bool) * (float * bool) * (float * bool)) : M unit :=
  let '((L2, L2_success), (L1, L1_success), (KS, KS_success)) := stats in
  let filename := path_join base_output_dir summary_output_file in
  let* _ := append_file filename
    (if L2_success then success_line color "L2Diff" L2
     else failed_line color "L2Diff" L2) in
  let* _ := append_file filename
    (if L1_success then success_line color "L1Diff" L1
     else failed_line color "L1Diff" L2) in
  append_file filename
    (if KS_success then success_line color "K-S" KS
     else failed_line color "K-S" KS).

(** The name of the validation file of the CDF pass (line 173). *)
Definition cdf_filename (self : ColorDistributionTest) (color : string) : string :=
  _data_name self +:+ "_" +:+ color +:+ "_z_" +:+ format_f 3 (zlo_obs self)
    +:+ "_" +:+ format_f 3 (zhi_obs self) +:+ "_pdf.txt".

(** The name of the validation file of the PDF pass (line 265). *)
Definition pdf_filename (self : ColorDistributionTest) (color : string)
    (bin_args : bin_spec) : string :=
  let '(lo, hi, num) := bin_args in
  _data_name self +:+ "_" +:+ color +:+ "_z_" +:+ format_f 3 (zlo_obs self)
    +:+ "_" +:+ format_f 3 (zhi_obs self) +:+ "_bins_" +:+ format_f 2 lo
    +:+ "_" +:+ format_f 2 hi +:+ "_" +:+ pretty num +:+ ".txt".

(** The warning of line 191. *)
Definition missing_quantity_msg (band1 band2 : string) : string :=
  "galaxy catalog does not have `" +:+ band1 +:+ "` and/or `" +:+ band2
    +:+ "` quantity, skipping the rest of the validation test." +:+ newline.

(** Lines 260-283: the optional PDF pass of one colour. *)
Definition pdf_pass (self : ColorDistributionTest) (galaxy_catalog : galaxy_catalog)
    (band1 band2 : string) (base_output_dir color : string) (index : nat)
    (v : loop_vars) : M control :=
  let* bin_args := lift (np.getitem (color_bin_args self) index) in
  let filename := pdf_filename self color bin_args in
  let* '(obinctr, ohist) := load_validation_data self filename in
  let* '(mbinctr, mhist) :=
    color_distribution self galaxy_catalog band1 band2 bin_args base_output_dir in
  match mbinctr with
  | None => ret (Return {| result_status := SKIPPED; result_message := "" |})
  | Some _ => ret (Continue {| no_cdf_q := no_cdf_q v; no_pdf_q := false |})
  end.

(** Lines 199-283: the mandatory CDF pass of one colour, followed by the
    PDF pass when it is enabled.  The calls that only draw on the axes
    (lines 214-223 and 277-283) are left out. *)
Definition cdf_pass (self : ColorDistributionTest) (galaxy_catalog : galaxy_catalog)
    (band1 band2 : string) (base_output_dir color : string) (index : nat)
    (obinctr ocdf : list float) (v : loop_vars) : M control :=
  let* '(mbinctr, mhist) :=
    color_distribution self galaxy_catalog band1 band2 cdf_bin_args
      base_output_dir in
  match mbinctr with
  | None => ret (Return {| result_status := SKIPPED; result_message := "" |})
  | Some mbinctr =>
      let* mhist := match mhist with
                    | Some h => ret h
                    | None => raise TypeError     (* [len(None)] *)
                    end in
      let* mcdf := lift (build_cdf mhist) in
      let v := {| no_cdf_q := false; no_pdf_q := no_pdf_q v |} in
      let stats := scaled_statistics mbinctr mcdf obinctr ocdf in
      let* _ := write_summary base_output_dir color stats in
      if plot_pdf_q self
      then pdf_pass self galaxy_catalog band1 band2 base_output_dir color index v
      else ret (Continue v)
  end.

(** Lines 166-283: the body of the colour loop.  The assignments to
    [self.band1], [self.band2] and [self.validation_data] are left out: the
    bands are passed on as arguments and nothing reads the third. *)
Definition loop_body (self : ColorDistributionTest) (galaxy_catalog : galaxy_catalog)
    (catalog_name base_output_dir : string) (v : loop_vars) (index : nat)
  : M control :=
  let* color := lift (np.getitem (colors self) index) in
  let* c0 := lift (str_getitem color 0) in
  let* band1 := lift (dict_getitem (translate self) c0) in
  let* c2 := lift (str_getitem color 2) in
  let* band2 := lift (dict_getitem (translate self) c2) in
  let filename := cdf_filename self color in
  let* '(obinctr, ohist) := load_validation_data self filename in
  let* ocdf := lift (build_cdf ohist) in
  if negb (forallb (fun k => bool_decide (k ∈ quantities galaxy_catalog)) [band1; band2])
  then
    let msg := missing_quantity_msg band1 band2 in
    let fn := path_join base_output_dir log_file in
    let* _ := append_file fn msg in
    ret (Continue v)
  else
    cdf_pass self galaxy_catalog band1 band2 base_output_dir color index
      obinctr ocdf v.

(** The [for] loop of line 164 over the indices it visits. *)
Fixpoint color_loop (self : ColorDistributionTest) (galaxy_catalog : galaxy_catalog)
    (catalog_name base_output_dir : string) (indices : list nat) (v : loop_vars)
  : M control :=
  match indices with
  | [] => ret (Continue v)
  | index :: rest =>
      let* c := loop_body self galaxy_catalog catalog_name base_output_dir v index in
      match c with
      | Return r => ret (Return r)
      | Continue v' =>
          color_loop self galaxy_catalog catalog_name base_output_dir rest v'
      end
  end.

(** [int(np.ceil(len(self.colors)/2.))] *)
Definition nsubplots (self : ColorDistributionTest) : nat :=
  Nat.div2 (S (length (colors self))).

(** [plt.subplots(nsubplots, 2, ...)]: a grid needs at least one row. *)
Definition plt_subplots (nrows : nat) : M unit :=
  if (nrows =? 0)%nat then raise ValueError else ret tt.

(** The indices [zip(ax_cdf.flat, ax_pdf.flat, range(len(self.colors)))]
    yields: one per colour while the [2*nsubplots] axes last. *)
Definition loop_indices (self : ColorDistributionTest) : list nat :=
  seq 0 (Nat.min (2 * nsubplots self) (length (colors self))).

Definition run_validation_test (self : ColorDistributionTest)
    (galaxy_catalog : galaxy_catalog) (catalog_name base_output_dir : string)
  : M TestResult :=
  let* _ := plt_subplots (nsubplots self) in
  let* _ := plt_subplots (nsubplots self) in
  let v := {| no_cdf_q := true; no_pdf_q := true |} in
  let* c := color_loop self galaxy_catalog catalog_name base_output_dir
              (loop_indices self) v in
  match c with
  | Return r => ret r
  | Continue v =>
      let* _ := if negb (no_cdf_q v)
                then savefig (path_join base_output_dir plot_cdf_file)
                else ret tt in
      let* _ := if plot_pdf_q self && negb (no_pdf_q v)
                then savefig (path_join base_output_dir plot_pdf_file)
                else ret tt in
      let msg := "" in
      ret {| result_status := if negb (no_cdf_q v) then PASSED else FAILED;
             result_message := msg |}
  end.

End Methods.

(** ** The constructor of [ColorDistributionTest] (lines 25-137) *)

(** A tuple of [color_bin_args] as the constructor sees it: any number of
    entries, of which it reads the count only.  A tuple of three entries is
    [(minimum color, maximum color, N)]; integer bounds are given by their
    float value. *)
Inductive color_bin : Type :=
| Tuple0
| Tuple1 (a : float)
| Tuple2 (a b : float)
| Tuple3 (lo hi : float) (num : nat)
| TupleN (a b c d : float) (rest : list float).

(** [len(color_bin)] *)
Definition tuple_len (t : color_bin) : nat :=
  match t with
  | Tuple0 => 0
  | Tuple1 _ => 1
  | Tuple2 _ _ => 2
  | Tuple3 _ _ _ => 3
  | TupleN _ _ _ _ rest => 4 + length rest
  end.

(** The keyword arguments the constructor reads, each absent or present. *)
Record kwargs : Type := {
  kw_data_dir : option string;
  kw_data_name : option string;
  kw_colors : option (list string);
  kw_color_bin_args : option (list color_bin);
  kw_limiting_band : option string;
  kw_limiting_mag : option float;
  kw_zlo : option float;
  kw_zhi : option float;
  kw_translate : option (gmap string string)
}.

(** [kwargs[key]], and [kwargs[key]] guarded by [if key in kwargs ... else
    raise ValueError(...)]. *)
Definition kw_getitem {A : Type} (v : option A) : result A :=
  match v with
  | Some a => Ok a
  | None => Raise KeyError
  end.

Definition kw_required {A : Type} (v : option A) : result A :=
  match v with
  | Some a => Ok a
  | None => Raise ValueError
  end.

(** The test of line 89: [len(color)!=3 or color[1]!='-']. *)
Definition bad_color (color : string) : bool :=
  negb (String.length color =? 3)%nat
  || negb (bool_decide (String.get 1 color = Some "-"%char)).

(** Lines 88-90. *)
Fixpoint check_colors (colors : list string) : result unit :=
  match colors with
  | [] => Ok tt
  | color :: rest => if bad_color color then Raise ValueError else check_colors rest
  end.

(** Lines 96-98: every tuple has three entries; they are kept as the
    triples the histogram builder and the file name read. *)
Fixpoint check_bins (color_bin_args : list color_bin) : result (list bin_spec) :=
  match color_bin_args with
  | [] => Ok []
  | color_bin :: rest =>
      if negb (tuple_len color_bin =? 3)%nat then Raise ValueError
      else match color_bin with
           | Tuple3 lo hi num =>
               let! bins := check_bins rest in Ok ((lo, hi, num) :: bins)
           | _ => Raise ValueError
           end
  end.

Section Constructor.

(** The constructor of the base class [ValidationTest], which sets
    [self.base_data_dir] from the keyword arguments or raises. *)
Variable super_init : kwargs -> result string.

(** [__init__(self, test_q=False, plot_pdf_q=False, **kwargs)].  Without
    [color_bin_args] the attribute stays unset; it is read only when
    [plot_pdf_q] holds, and then the constructor has required it. *)
Definition init (test_q plot_pdf_q : bool) (kw : kwargs) : result ColorDistributionTest :=
  let! base := super_init kw in
  let! data_dir := kw_getitem (kw_data_dir kw) in
  let! data_name := kw_getitem (kw_data_name kw) in
  let! colors := kw_required (kw_colors kw) in
  let! _ := check_colors colors in
  let! bins :=
    match kw_color_bin_args kw with
    | Some color_bin_args =>
        if negb (length color_bin_args =? length colors)%nat then Raise ValueError
        else check_bins color_bin_args
    | None => if plot_pdf_q then Raise ValueError else Ok []
    end in
  let limiting_band := kw_limiting_band kw in
  let limiting_mag := kw_limiting_mag kw in
  let! redshift :=
    if test_q then
      let! zlo := kw_getitem (kw_zlo kw) in
      let! zhi := kw_getitem (kw_zhi kw) in
      Ok (0%float, 1%float, zlo, zhi)
    else
      let! zlo := kw_required (kw_zlo kw) in
      let! zhi := kw_required (kw_zhi kw) in
      Ok (zlo, zhi, zlo, zhi) in
  let '(zlo_mock, zhi_mock, zlo_obs, zhi_obs) := redshift in
  let! translate := kw_required (kw_translate kw) in
  Ok {| base_data_dir := base;
        _data_dir := data_dir;
        _data_name := data_name;
        colors := colors;
        color_bin_args := bins;
        limiting_band := limiting_band;
        limiting_mag := limiting_mag;
        zlo_mock := zlo_mock;
        zhi_mock := zhi_mock;
        zlo_obs := zlo_obs;
        zhi_obs := zhi_obs;
        translate := translate;
        plot_pdf_q := plot_pdf_q |}.

End Constructor.

(** ** [validation_code/ListAvailableQuantities.py] *)

(** The order of Python strings, by code unit. *)
Definition str_le (a b : string) : Prop := String.leb a b = true.

#[global] Instance str_le_dec : RelDecision str_le.
Proof. intros a b. unfold str_le. apply bool_eq_dec. Defined.

Module ListAvailableQuantities.

(** What the test asks the catalog reader. *)
Record reader : Type := {
  list_all_quantities : list string;
  list_all_native_quantities : list string
}.

(** [TestResult(score, passed=...)] *)
Record TestResult : Type := {
  score : Z;
  passed : bool
}.

(** [open(filename, 'w')]: the file is created or emptied. *)
Definition open_w (filename : string) : M unit :=
  fun o => ({| files := <[filename := []]> (files o); figures := figures o |}, Ok tt).

(** Lines 16-18: [f.write(str(q)); f.write('\n')] for each quantity. *)
Fixpoint write_quantities (filename : string) (quantities : list string) : M unit :=
  match quantities with
  | [] => ret tt
  | q :: rest =>
      (let* _ := append_file filename q in
       let* _ := append_file filename newline in
       write_quantities filename rest)%M
  end.

(** [_save_quantities] (lines 11-18); [quantities.sort()] is the sorted
    rearrangement of the list. *)
Definition _save_quantities (catalog_name : string) (quantities : list string)
    (filename : string) : M unit :=
  (let quantities := merge_sort str_le quantities in
   let* _ := open_w filename in
   let* _ := append_file filename ("# " +:+ catalog_name +:+ newline) in
   write_quantities filename quantities)%M.

(** [run_validation_test] (lines 20-23). *)
Definition run_validation_test (galaxy_catalog : reader)
    (catalog_name base_output_dir : string) : M TestResult :=
  (let* _ := _save_quantities catalog_name (list_all_quantities galaxy_catalog)
               (path_join base_output_dir "quantities.txt") in
   let* _ := _save_quantities catalog_name (list_all_native_quantities galaxy_catalog)
               (path_join base_output_dir "native_quantities.txt") in
   ret {| score := 0; passed := true |})%M.

End ListAvailableQuantities.

(** ** Concrete catalogs and configurations *)

Module Examples.

Local Open Scope float_scope.

Definition sqrt2 : float := PrimFloat.sqrt (float_of_nat 2).

(** Distance functions with fixed answers: L2 = 1 (failed), L1 = 3
    (failed), KS = 0.5 (passed). *)
Definition l2_stub (d1 d2 : dataset) : float * bool := (1, false).
Definition l1_stub (d1 d2 : dataset) : float * bool := (3, false).
Definition ks_stub (d1 d2 : dataset) : float * bool := (0.5, true).

(** The validation file of every colour: bin centers and densities. *)
Definition reference_rows : list (list float) := [[0; 1; 2]; [0.25; 0.5; 0.25]].

(** [%G] on the values the examples print, and a tag elsewhere. *)
Definition g_table (x : float) : string :=
  if PrimFloat.eqb x (1 * sqrt2) then "1.41421"
  else if PrimFloat.eqb x (3 * sqrt2) then "4.24264"
  else if PrimFloat.eqb x (0.5 * sqrt2) then "0.707107"
  else "?".

(** [%1.3f] and [%1.2f] on the redshift bounds and bin bounds used. *)
Definition f_table (p : nat) (x : float) : string :=
  if PrimFloat.eqb x 0 then (if (p =? 3)%nat then "0.000" else "0.00")
  else if PrimFloat.eqb x 1 then (if (p =? 3)%nat then "1.000" else "1.00")
  else if PrimFloat.eqb x (-1) then (if (p =? 3)%nat then "-1.000" else "-1.00")
  else if PrimFloat.eqb x 4 then (if (p =? 3)%nat then "4.000" else "4.00")
  else "?".

Definition collaborators : Collaborators := {|
  L2Diff := l2_stub;
  L1Diff := l1_stub;
  KS_test := ks_stub;
  loadtxt := fun _ => Ok reference_rows;
  format_f := f_table;
  format_G := g_table
|}.

Definition bands : gmap string string :=
  {[ "u" := "SDSS_u"; "g" := "SDSS_g"; "r" := "SDSS_r"; "i" := "SDSS_i" ]}.

(** A test on the colours u-g and g-r, without magnitude limit. *)
Definition test : ColorDistributionTest := {|
  base_data_dir := "/data";
  _data_dir := "SDSS";
  _data_name := "SDSS";
  colors := ["u-g"; "g-r"];
  color_bin_args := [(-1, 4, 5%nat); (-1, 4, 5%nat)];
  limiting_band := None;
  limiting_mag := None;
  zlo_mock := 0;
  zhi_mock := 1;
  zlo_obs := 0;
  zhi_obs := 1;
  translate := bands;
  plot_pdf_q := false
|}.

(** The same test with the cut r < 2.5. *)
Definition limited_test : ColorDistributionTest := {|
  base_data_dir := "/data";
  _data_dir := "SDSS";
  _data_name := "SDSS";
  colors := ["u-g"; "g-r"];
  color_bin_args := [(-1, 4, 5%nat); (-1, 4, 5%nat)];
  limiting_band := Some "r";
  limiting_mag := Some 2.5;
  zlo_mock := 0;
  zhi_mock := 1;
  zlo_obs := 0;
  zhi_obs := 1;
  translate := bands;
  plot_pdf_q := false
|}.

(** Five galaxies; the last two carry magnitudes outside (0, 50) in u. *)
Definition catalog_data (name : string) (zlo zhi : float) : list float :=
  if String.eqb name "SDSS_u" then [1.5; 2; 3; 50; -1]
  else if String.eqb name "SDSS_g" then [1; 1; 2; 0.5; 0.25]
  else if String.eqb name "SDSS_r" then [0.5; 0.5; 3; 1; 1]
  else [1; 1; 1; 1; 1].

(** A catalog that declares u, g and r. *)
Definition catalog : galaxy_catalog := {|
  quantities := {[ "SDSS_u"; "SDSS_g"; "SDSS_r" ]};
  get_quantities := catalog_data
|}.

(** A catalog that declares g and r only. *)
Definition catalog_without_u : galaxy_catalog := {|
  quantities := {[ "SDSS_g"; "SDSS_r" ]};
  get_quantities := catalog_data
|}.

(** The arrays of Scenario A: u = [1, 2, 3, 50, -1], g = [0.5, 1, 2, 0.4, 0.2]
    (the last two of g rounded to binary64). *)
Definition scenario_catalog : galaxy_catalog := {|
  quantities := {[ "SDSS_u"; "SDSS_g" ]};
  get_quantities := fun name _ _ =>
    if String.eqb name "SDSS_u" then [1; 2; 3; 50; -1]
    else [0.5; 1; 2; 0x1.999999999999ap-2; 0x1.999999999999ap-3]
|}.

(** A catalog whose r magnitudes are all the sentinel 0. *)
Definition dark_catalog : galaxy_catalog := {|
  quantities := {[ "SDSS_u"; "SDSS_g"; "SDSS_r" ]};
  get_quantities := fun name zlo zhi =>
    if String.eqb name "SDSS_r" then [0; 0; 0; 0; 0] else catalog_data name zlo zhi
|}.

(** A catalog with no galaxy in the redshift window. *)
Definition empty_catalog : galaxy_catalog := {|
  quantities := {[ "SDSS_u"; "SDSS_g"; "SDSS_r" ]};
  get_quantities := fun _ _ _ => []
|}.

(** One galaxy with valid magnitudes u = 40 and g = 1: its colour u-g = 39
    lies outside every bin range the test uses. *)
Definition red_catalog : galaxy_catalog := {|
  quantities := {[ "SDSS_u"; "SDSS_g" ]};
  get_quantities := fun name _ _ =>
    if String.eqb name "SDSS_u" then [40] else [1]
|}.

(** A catalog that declares none of the bands and retrieves no galaxy. *)
Definition undeclared_catalog : galaxy_catalog := {|
  quantities := ∅;
  get_quantities := fun _ _ _ => []
|}.

Definition no_outputs : outputs := {| files := ∅; figures := [] |}.

(** Collaborators whose validation files are missing. *)
Definition missing_reference : Collaborators := {|
  L2Diff := l2_stub;
  L1Diff := l1_stub;
  KS_test := ks_stub;
  loadtxt := fun _ => Raise IOError;
  format_f := f_table;
  format_G := g_table
|}.

(** Collaborators whose validation files hold three rows of two columns. *)
Definition long_reference : Collaborators := {|
  L2Diff := l2_stub;
  L1Diff := l1_stub;
  KS_test := ks_stub;
  loadtxt := fun _ => Ok [[0; 0.25]; [1; 0.5]; [2; 0.25]]%float;
  format_f := f_table;
  format_G := g_table
|}.

(** The example test with a translation table that does not know g. *)
Definition test_without_g : ColorDistributionTest := {|
  base_data_dir := "/data";
  _data_dir := "SDSS";
  _data_name := "SDSS";
  colors := ["u-g"; "g-r"];
  color_bin_args := [];
  limiting_band := None;
  limiting_mag := None;
  zlo_mock := 0;
  zhi_mock := 1;
  zlo_obs := 0;
  zhi_obs := 1;
  translate := {[ "u" := "SDSS_u"; "r" := "SDSS_r" ]};
  plot_pdf_q := false
|}.

(** Keyword arguments of a constructor call with PDF bins. *)
Definition keywords : kwargs := {|
  kw_data_dir := Some "SDSS";
  kw_data_name := Some "SDSS";
  kw_colors := Some ["u-g"; "g-r"];
  kw_color_bin_args := Some [Tuple3 (-1) 4 5; Tuple3 (-1) 4 5];
  kw_limiting_band := Some "r";
  kw_limiting_mag := None;
  kw_zlo := Some 0.25;
  kw_zhi := Some 0.5;
  kw_translate := Some bands
|}.

(** A base class constructor that finds the data under /data. *)
Definition base_init (kw : kwargs) : result string := Ok "/data".

(** The test the constructor builds from [keywords] in test mode with PDFs. *)
Definition constructed : ColorDistributionTest := {|
  base_data_dir := "/data";
  _data_dir := "SDSS";
  _data_name := "SDSS";
  colors := ["u-g"; "g-r"];
  color_bin_args := [(-1, 4, 5%nat); (-1, 4, 5%nat)];
  limiting_band := Some "r";
  limiting_mag := None;
  zlo_mock := 0;
  zhi_mock := 1;
  zlo_obs := 0.25;
  zhi_obs := 0.5;
  translate := bands;
  plot_pdf_q := true
|}.

(** The same keyword arguments without [zlo]. *)
Definition keywords_without_zlo : kwargs := {|
  kw_data_dir := Some "SDSS";
  kw_data_name := Some "SDSS";
  kw_colors := Some ["u-g"; "g-r"];
  kw_color_bin_args := Some [Tuple3 (-1) 4 5; Tuple3 (-1) 4 5];
  kw_limiting_band := Some "r";
  kw_limiting_mag := None;
  kw_zlo := None;
  kw_zhi := Some 0.5;
  kw_translate := Some bands
|}.

(** A reader listing its quantities in no particular order. *)
Definition reader : ListAvailableQuantities.reader := {|
  ListAvailableQuantities.list_all_quantities := ["stellar_mass"; "SDSS_u"; "redshift"];
  ListAvailableQuantities.list_all_native_quantities := ["z"; "Mstar"]
|}.

(** Output files left by an earlier test. *)
Definition old_outputs : outputs := {|
  files := {[ "/out/quantities.txt" := ["stale"]; "/out/log.txt" := ["old entry"] ]};
  figures := ["/out/old.png"]
|}.

End Examples.

(** ** Predicates of the statements *)

(** What the loop of lines 177-178 has established after index [k]. *)
Definition cdf_upto (hist cdf : list float) (k : nat) : Prop :=
  length cdf = length hist /\
  cdf !! 0%nat = hist !! 0%nat /\
  forall i : nat, (1 <= i <= k)%nat ->
    exists p x : float,
      cdf !! (i - 1)%nat = Some p /\ hist !! i = Some x /\
      cdf !! i = Some (PrimFloat.add p x).

(** A magnitude that is neither a sentinel nor unphysical: [0 < x < 50]. *)
Definition in_range (x : float) : Prop :=
  PrimFloat.ltb 0%float x = true /\ PrimFloat.ltb x 50%float = true.

(** The alignment invariant of the per-galaxy arrays: in the redshift window
    of the mock catalog the two bands, and the limiting band when one is
    configured, have one entry per galaxy. *)
Definition aligned (self : ColorDistributionTest) (galaxy_catalog : galaxy_catalog)
    (band1 band2 : string) : Prop :=
  let n := length (get_quantities galaxy_catalog band1 (zlo_mock self) (zhi_mock self)) in
  length (get_quantities galaxy_catalog band2 (zlo_mock self) (zhi_mock self)) = n /\
  forall band name : string,
    limiting_band self = Some band ->
    translate self !! band = Some name ->
    length (get_quantities galaxy_catalog name (zlo_mock self) (zhi_mock self)) = n.

(** The colour at [index] names two bands the translation table knows. *)
Definition color_bands (self : ColorDistributionTest) (index : nat)
    (color band1 band2 : string) : Prop :=
  colors self !! index = Some color /\
  (exists c0, str_getitem color 0 = Ok c0 /\ translate self !! c0 = Some band1) /\
  (exists c2, str_getitem color 2 = Ok c2 /\ translate self !! c2 = Some band2).

(** The colour at [index] produces a catalog histogram in the mandatory CDF
    pass: the catalog declares both its bands and [color_distribution]
    returns arrays for them. *)
Definition produces_histogram (self : ColorDistributionTest)
    (galaxy_catalog : galaxy_catalog) (base_output_dir : string) (index : nat) : Prop :=
  exists (color band1 band2 : string) (o o' : outputs) (mbinctr mhist : list float),
    color_bands self index color band1 band2 /\
    band1 ∈ quantities galaxy_catalog /\ band2 ∈ quantities galaxy_catalog /\
    color_distribution self galaxy_catalog band1 band2 cdf_bin_args base_output_dir o
      = (o', Ok (Some mbinctr, Some mhist)).

(** The outputs after one more string is appended to the log file. *)
Definition logged (base_output_dir msg : string) (o : outputs) : outputs :=
  {| files := <[path_join base_output_dir log_file :=
                 (default [] (files o !! path_join base_output_dir log_file) ++ [msg])%list]>
              (files o);
     figures := figures o |}.

(** The validation file of a colour's CDF pass holds the two rows [obinctr]
    and [ohist]. *)
Definition reference_data `{Collaborators} (self : ColorDistributionTest)
    (color : string) (obinctr ohist : list float) : Prop :=
  loadtxt (path_join (path_join (base_data_dir self) (_data_dir self))
             (cdf_filename self color))
  = Ok [obinctr; ohist].

(** Two computations that return the same value or raise the same exception,
    whatever the output files hold. *)
Definition same_result {A : Type} (m1 m2 : M A) : Prop :=
  forall o1 o2 : outputs, (m1 o1).2 = (m2 o2).2.

(** The loop variables at line 160-161. *)
Definition initial_vars : loop_vars := {| no_cdf_q := true; no_pdf_q := true |}.

(** The result [TestResult('SKIPPED', '')]. *)
Definition skipped : TestResult := {| result_status := SKIPPED; result_message := "" |}.

(** The log entry of lines 312 and 335 for the retrieved array [mag1]. *)
Definition no_data_msg (mag1 : list float) : string :=
  if (length mag1 =? 0)%nat then "No object in the redshift range!" +:+ newline
  else "No object in the magnitude range!" +:+ newline.

(** The no-data condition of lines 311 and 334 for two bands: nothing is
    retrieved for the first, or the validity mask retains no galaxy. *)
Definition no_data (self : ColorDistributionTest) (galaxy_catalog : galaxy_catalog)
    (band1 band2 : string) : Prop :=
  let mag1 := get_quantities galaxy_catalog band1 (zlo_mock self) (zhi_mock self) in
  let mag2 := get_quantities galaxy_catalog band2 (zlo_mock self) (zhi_mock self) in
  mag1 = [] \/
  exists mask : list bool,
    validity_mask self galaxy_catalog mag1 mag2 = Ok mask /\ np.sum_bool mask = 0%nat.

(** Some configured colour whose two bands the catalog declares meets the
    no-data condition: a run that reaches it signals the condition. *)
Definition no_data_signalled (self : ColorDistributionTest)
    (galaxy_catalog : galaxy_catalog) : Prop :=
  exists (index : nat) (color band1 band2 : string),
    color_bands self index color band1 band2 /\
    band1 ∈ quantities galaxy_catalog /\ band2 ∈ quantities galaxy_catalog /\
    no_data self galaxy_catalog band1 band2.

(** The strings written so far to the summary file and to the log file. *)
Definition summary_of (base_output_dir : string) (o : outputs) : list string :=
  default [] (files o !! path_join base_output_dir summary_output_file).

Definition log_of (base_output_dir : string) (o : outputs) : list string :=
  default [] (files o !! path_join base_output_dir log_file).

(** The outputs after [lines] are appended to the summary file. *)
Definition summarised (base_output_dir : string) (lines : list string) (o : outputs)
  : outputs :=
  {| files := <[path_join base_output_dir summary_output_file :=
                 (default [] (files o !! path_join base_output_dir summary_output_file)
                  ++ lines)%list]>
              (files o);
     figures := figures o |}.

(** From [o] to [o'] every file other than the two figure files, and the
    list of figures, only grew at the end, and no file but the log, the
    summary and the two figure files changed. *)
Definition only_appends (base_output_dir : string) (o o' : outputs) : Prop :=
  (forall path : string,
     path <> path_join base_output_dir plot_cdf_file ->
     path <> path_join base_output_dir plot_pdf_file ->
     default [] (files o !! path) `prefix_of` default [] (files o' !! path)) /\
  figures o `prefix_of` figures o' /\
  (forall path : string,
     path <> path_join base_output_dir log_file ->
     path <> path_join base_output_dir summary_output_file ->
     path <> path_join base_output_dir plot_cdf_file ->
     path <> path_join base_output_dir plot_pdf_file ->
     files o' !! path = files o !! path).

(** The catalog declares both translated bands of the colour at [index]
    (the test of line 189). *)
Definition declares (self : ColorDistributionTest) (galaxy_catalog : galaxy_catalog)
    (index : nat) : bool :=
  match colors self !! index with
  | Some color =>
      match str_getitem color 0, str_getitem color 2 with
      | Ok c0, Ok c2 =>
          match translate self !! c0, translate self !! c2 with
          | Some band1, Some band2 =>
              bool_decide (band1 ∈ quantities galaxy_catalog)
              && bool_decide (band2 ∈ quantities galaxy_catalog)
          | _, _ => false
          end
      | _, _ => false
      end
  | None => false
  end.

(** The number of configured colours whose bands the catalog declares. *)
Definition declared_colors (self : ColorDistributionTest)
    (galaxy_catalog : galaxy_catalog) : nat :=
  length (List.filter (declares self galaxy_catalog) (seq 0 (length (colors self)))).

(** The figures a run saves, by its outcome (lines 286-291). *)
Definition saved_figures (self : ColorDistributionTest) (base_output_dir : string)
    (s : status) : list string :=
  match s with
  | PASSED =>
      path_join base_output_dir plot_cdf_file ::
      (if plot_pdf_q self then [path_join base_output_dir plot_pdf_file] else [])
  | _ => []
  end.

(** A computation that leaves the text files grown, whatever it returns
    or raises. *)
Definition appending {A : Type} (base_output_dir : string) (m : M A) : Prop :=
  forall o : outputs, only_appends base_output_dir o (m o).1.

(** Reading a validation file raises [e] (line 361): [np.loadtxt] raises
    it, or [np.loadtxt] returns an array of three rows or more, of two
    columns or more, which does not unpack into two ([ValueError]). *)
Definition unreadable_reference (rows : result (list (list float))) (e : exn) : Prop :=
  rows = Raise e \/
  exists (table : list (list float)) (columns : nat),
    rows = Ok table /\
    (3 <= length table)%nat /\
    (2 <= columns)%nat /\
    Forall (fun row => length row = columns) table /\
    e = ValueError.

(** A colour in the format "X-Y" (line 89). *)
Definition well_formed_color (color : string) : Prop :=
  String.length color = 3%nat /\ String.get 1 color = Some "-"%char.

(** The keyword arguments the constructor accepts: the base class accepts
    them, the data directory and name are given, the colours are given and
    well formed, the bin tuples, when given, are one triple per colour and
    are given when PDFs are plotted, and the redshift bounds and the
    translation table are given. *)
Definition valid_kwargs (super_init : kwargs -> result string) (plot_pdf_q : bool)
    (kw : kwargs) : Prop :=
  (exists base : string, super_init kw = Ok base) /\
  is_Some (kw_data_dir kw) /\
  is_Some (kw_data_name kw) /\
  (exists colors : list string,
     kw_colors kw = Some colors /\
     Forall well_formed_color colors /\
     match kw_color_bin_args kw with
     | Some color_bin_args =>
         length color_bin_args = length colors /\
         Forall (fun t => tuple_len t = 3%nat) color_bin_args
     | None => plot_pdf_q = false
     end) /\
  is_Some (kw_zlo kw) /\
  is_Some (kw_zhi kw) /\
  is_Some (kw_translate kw).

(** The strings [_save_quantities] writes: the header, then every name
    followed by a newline. *)
Definition quantity_lines (catalog_name : string) (quantities : list string)
  : list string :=
  ("# " +:+ catalog_name +:+ newline)
    :: flat_map (fun q => [q; newline]) quantities.

(** * Properties *)

(** ** Results and array primitives *)

Lemma getitem_Ok {A : Type} (a : list A) (i : nat) (v : A) :
  np.getitem a i = Ok v <-> a !! i = Some v.
Proof.
  unfold np.getitem. destruct (a !! i); split; intros E; congruence.
Qed.

Lemma setitem_Ok {A : Type} (a : list A) (i : nat) (v : A) :
  (i < length a)%nat -> np.setitem a i v = Ok (<[i := v]> a).
Proof.
  intros Hi. unfold np.setitem.
  destruct (Nat.ltb_spec i (length a)); [reflexivity | lia].
Qed.

Lemma length_zeros (n : nat) : length (np.zeros n) = n.
Proof. apply length_replicate. Qed.

(** ** CDFBuilder *)

Lemma cdf_step_upto (hist cdf : list float) (k : nat) :
  (S k < length hist)%nat ->
  cdf_upto hist cdf k ->
  exists cdf', cdf_step hist (Ok cdf) (S k) = Ok cdf' /\ cdf_upto hist cdf' (S k).
Proof.
  intros Hk (Hlen & H0 & Hrec).
  destruct (lookup_lt_is_Some_2 cdf k) as [p Hp]; [lia |].
  destruct (lookup_lt_is_Some_2 hist (S k)) as [x Hx]; [lia |].
  exists (<[S k := PrimFloat.add p x]> cdf). split.
  - unfold cdf_step. cbn [rbind]. replace (S k - 1)%nat with k by lia.
    rewrite (proj2 (getitem_Ok cdf k p) Hp).
    rewrite (proj2 (getitem_Ok hist (S k) x) Hx). cbn [rbind].
    apply setitem_Ok. lia.
  - split; [| split].
    + rewrite length_insert. exact Hlen.
    + rewrite list_lookup_insert_ne by lia. exact H0.
    + intros i Hi. destruct (decide (i = S k)) as [-> | Hne].
      * exists p, x. replace (S k - 1)%nat with k by lia.
        rewrite list_lookup_insert_ne by lia.
        rewrite list_lookup_insert_eq by lia. auto.
      * destruct (Hrec i) as (p' & x' & Hp' & Hx' & Hi'); [lia |].
        exists p', x'. rewrite !list_lookup_insert_ne by lia. auto.
Qed.

Lemma cdf_loop_upto (hist : list float) (k : nat) (cdf : list float) :
  (k < length hist)%nat ->
  cdf_upto hist cdf 0 ->
  exists cdf', fold_left (cdf_step hist) (seq 1 k) (Ok cdf) = Ok cdf' /\
               cdf_upto hist cdf' k.
Proof.
  induction k as [| k IH]; intros Hk Hinv.
  - exists cdf. split; [reflexivity | exact Hinv].
  - destruct IH as (c & Hc & Hinvc); [lia | exact Hinv |].
    destruct (cdf_step_upto hist c k Hk Hinvc) as (c' & Hstep & Hinv').
    exists c'. split; [| exact Hinv'].
    rewrite seq_S, fold_left_app, Hc. cbn [fold_left plus]. exact Hstep.
Qed.

(** C8. For a histogram [h] of length N >= 1 the CDF construction of lines
    175-178 and 205-208 returns an array of length N with [cdf[0] = h[0]] and
    [cdf[i] = cdf[i-1] + h[i]] for every [1 <= i < N]; the entries of [h]
    enter unscaled. *)
Theorem build_cdf_prefix_sum (h : list float) :
  (1 <= length h)%nat ->
  exists cdf : list float,
    build_cdf h = Ok cdf /\
    length cdf = length h /\
    cdf !! 0%nat = h !! 0%nat /\
    forall i : nat, (1 <= i < length h)%nat ->
      exists p x : float,
        cdf !! (i - 1)%nat = Some p /\ h !! i = Some x /\
        cdf !! i = Some (PrimFloat.add p x).
Proof.
  intros HN. unfold build_cdf.
  destruct h as [| h0 t]; [cbn in HN; lia |].
  cbn [np.getitem lookup list_lookup rbind].
  rewrite setitem_Ok by (rewrite length_zeros; cbn; lia). cbn [rbind].
  destruct (cdf_loop_upto (h0 :: t) (length (h0 :: t) - 1)
              (<[0%nat := h0]> (np.zeros (length (h0 :: t))))) as (cdf & Hrun & Hinv).
  - cbn. lia.
  - split; [| split].
    + rewrite length_insert. apply length_zeros.
    + reflexivity.
    + intros i Hi. lia.
  - exists cdf. destruct Hinv as (Hlen & H0 & Hrec).
    split; [exact Hrun |]. split; [exact Hlen |]. split; [exact H0 |].
    intros i Hi. apply Hrec. lia.
Qed.

(** The construction on a three-bin histogram. *)
Lemma build_cdf_prefix_sum_witness :
  exists cdf : list float,
    build_cdf [0.25; 0.5; 0.25]%float = Ok cdf /\
    length cdf = 3%nat /\
    cdf !! 0%nat = Some 0.25%float /\
    forall i : nat, (1 <= i < 3)%nat ->
      exists p x : float,
        cdf !! (i - 1)%nat = Some p /\ [0.25; 0.5; 0.25]%float !! i = Some x /\
        cdf !! i = Some (PrimFloat.add p x).
Proof.
  apply (build_cdf_prefix_sum [0.25; 0.5; 0.25]%float). cbn. lia.
Defined.

(** ** Running a computation of [M] *)

Lemma bind_Ok {A B : Type} (m : M A) (k : A -> M B) (o o' : outputs) (b : B) :
  bind m k o = (o', Ok b) ->
  exists (a : A) (o1 : outputs), m o = (o1, Ok a) /\ k a o1 = (o', Ok b).
Proof.
  unfold bind. destruct (m o) as [o1 [a | e]]; intros E.
  - exists a, o1. auto.
  - inversion E.
Qed.

Lemma bind_run {A B : Type} (m : M A) (k : A -> M B) (o o1 : outputs) (a : A) :
  m o = (o1, Ok a) -> bind m k o = k a o1.
Proof. intros E. unfold bind. rewrite E. reflexivity. Qed.

Lemma lift_Ok {A : Type} (r : result A) (o o' : outputs) (a : A) :
  lift r o = (o', Ok a) -> r = Ok a /\ o' = o.
Proof. unfold lift. intros E. inversion E. auto. Qed.

Lemma ret_Ok {A : Type} (a b : A) (o o' : outputs) :
  ret a o = (o', Ok b) -> b = a /\ o' = o.
Proof. unfold ret. intros E. inversion E. auto. Qed.

Lemma rbind_Ok {A B : Type} (r : result A) (k : A -> result B) (b : B) :
  rbind r k = Ok b -> exists a : A, r = Ok a /\ k a = Ok b.
Proof.
  destruct r as [a | e]; cbn; intros E; [exists a; auto | inversion E].
Qed.

(** ** Lengths of the NumPy arrays *)

Lemma length_linspace (start stop : float) (num : nat) :
  length (np.linspace start stop num) = num.
Proof.
  unfold np.linspace.
  repeat match goal with
         | |- context [if ?c then _ else _] => destruct c
         end;
  rewrite ?length_insert, !length_map, length_seq; reflexivity.
Qed.

Lemma length_cumulative (a bins : list float) :
  length (np.cumulative a bins) = length bins.
Proof.
  induction bins as [| e t IH]; [reflexivity |].
  destruct t as [| e' t']; [reflexivity |].
  change (S (length (np.cumulative a (e' :: t'))) = S (length (e' :: t'))).
  now rewrite IH.
Qed.

Lemma length_diff (a : list Z) : length (np.diff a) = (length a - 1)%nat.
Proof.
  induction a as [| x t IH]; [reflexivity |].
  destruct t as [| y t']; [reflexivity |].
  change (S (length (np.diff (y :: t'))) = (length (x :: y :: t') - 1)%nat).
  rewrite IH. cbn [length]. lia.
Qed.

Lemma length_histogram (a bins : list float) (hist : list Z) :
  np.histogram a bins = Ok hist -> length hist = (length bins - 1)%nat.
Proof.
  unfold np.histogram. destruct (np.decreases bins); [discriminate |].
  intros E.
  assert (hist = np.diff (np.cumulative a bins)) as ->
    by (destruct a, bins; inversion E; reflexivity).
  now rewrite length_diff, length_cumulative.
Qed.

Lemma broadcast_aligned {A B C : Type} (f : A -> B -> C) (xs : list A) (ys : list B) :
  length xs = length ys -> np.broadcast f xs ys = Ok (zip_with f xs ys).
Proof.
  intros E. unfold np.broadcast. rewrite E, Nat.eqb_refl. reflexivity.
Qed.

(** Lines 345-349 on a bin specification [(lo, hi, num)]: [num] edges, hence
    [num - 1] bins and as many centers. *)
Lemma color_histogram_lengths (mag1 mag2 : list float) (lo hi : float) (num : nat)
    (binctr hist : list float) :
  color_histogram mag1 mag2 (lo, hi, num) = Ok (binctr, hist) ->
  length binctr = (num - 1)%nat /\ length hist = (num - 1)%nat.
Proof.
  unfold color_histogram. intros E.
  apply rbind_Ok in E as (color & _ & E).
  apply rbind_Ok in E as (counts & Hh & E).
  apply length_histogram in Hh. rewrite length_linspace in Hh.
  rewrite broadcast_aligned in E.
  - cbn [rbind] in E. inversion E; subst.
    rewrite !length_map, length_zip_with, length_drop, length_take,
      !length_linspace, Hh.
    split; lia.
  - rewrite length_drop, length_take, !length_linspace. lia.
Qed.

(** ** ColorHistogramBuilder and the sentinel of [color_distribution] *)

Lemma color_distribution_Ok (self : ColorDistributionTest) (galaxy_catalog : galaxy_catalog)
    (band1 band2 : string) (bin_args : bin_spec) (base_output_dir : string)
    (o o' : outputs) (r : option (list float) * option (list float)) :
  color_distribution self galaxy_catalog band1 band2 bin_args base_output_dir o = (o', Ok r) ->
  (quantity_filter self galaxy_catalog band1 band2 base_output_dir o = (o', Ok None) /\
   r = (None, None)) \/
  (exists (mask : list bool) (mag1 mag2 binctr hist : list float),
     quantity_filter self galaxy_catalog band1 band2 base_output_dir o
       = (o', Ok (Some (mask, mag1, mag2))) /\
     color_histogram mag1 mag2 bin_args = Ok (binctr, hist) /\
     r = (Some binctr, Some hist)).
Proof.
  unfold color_distribution. intros E.
  apply bind_Ok in E as (filtered & o1 & Hf & E).
  destruct filtered as [[[mask mag1] mag2] |].
  - right. apply bind_Ok in E as ([binctr hist] & o2 & Hh & E).
    apply lift_Ok in Hh as [Hh ->]. apply ret_Ok in E as [-> ->].
    exists mask, mag1, mag2, binctr, hist. auto.
  - left. apply ret_Ok in E as [-> ->]. auto.
Qed.

(** C5. For a bin specification [(lo, hi, count)] the histogram builder
    bins over the [count] edges [np.linspace(lo, hi, count)] and returns
    [count - 1] bin centers and a histogram of [count - 1] entries: one bin
    fewer than the [count] bins (over [count + 1] edges) of the specification
    and of the docstring's "N bins". *)
Theorem color_distribution_bin_count (self : ColorDistributionTest)
    (galaxy_catalog : galaxy_catalog) (band1 band2 : string) (lo hi : float) (count : nat)
    (base_output_dir : string) (o o' : outputs) (binctr hist : list float) :
  color_distribution self galaxy_catalog band1 band2 (lo, hi, count) base_output_dir o
    = (o', Ok (Some binctr, Some hist)) ->
  length (np.linspace lo hi count) = count /\
  length binctr = (count - 1)%nat /\
  length hist = (count - 1)%nat.
Proof.
  intros E. split; [apply length_linspace |].
  apply color_distribution_Ok in E as [[_ E] | (mask & m1 & m2 & b & h & _ & Hh & E)].
  - discriminate.
  - inversion E; subst. eapply color_histogram_lengths. exact Hh.
Qed.

(** The colour u-g of the example catalog over [(-1, 4, 5)]: four bins. *)
Lemma color_distribution_bin_count_witness :
  color_distribution Examples.test Examples.catalog "SDSS_u" "SDSS_g"
      (PrimFloat.opp 1%float, 4%float, 5%nat) "/out" Examples.no_outputs
    = (Examples.no_outputs,
       Ok (Some [-0.375; 0.875; 2.125; 3.375]%float, Some [0; 1; 0; 0]%float)) /\
  length (np.linspace (PrimFloat.opp 1%float) 4%float 5) = 5%nat /\
  length [-0.375; 0.875; 2.125; 3.375]%float = 4%nat /\
  length [0; 1; 0; 0]%float = 4%nat.
Proof.
  split; [vm_compute; reflexivity |].
  apply (color_distribution_bin_count Examples.test Examples.catalog "SDSS_u" "SDSS_g"
           (PrimFloat.opp 1%float) 4%float 5%nat "/out"
           Examples.no_outputs Examples.no_outputs
           [-0.375; 0.875; 2.125; 3.375]%float [0; 1; 0; 0]%float).
  vm_compute; reflexivity.
Defined.

(** C10. Whenever [color_distribution] returns, it returns [(None, None)]
    or two arrays of equal length; its first component is [None] exactly
    when its second is. *)
Theorem color_distribution_sentinel (self : ColorDistributionTest)
    (galaxy_catalog : galaxy_catalog) (band1 band2 : string) (bin_args : bin_spec)
    (base_output_dir : string) (o o' : outputs)
    (r : option (list float) * option (list float)) :
  color_distribution self galaxy_catalog band1 band2 bin_args base_output_dir o = (o', Ok r) ->
  (r = (None, None) \/
   exists binctr hist : list float,
     r = (Some binctr, Some hist) /\ length binctr = length hist) /\
  (r.1 = None <-> r.2 = None).
Proof.
  intros E.
  apply color_distribution_Ok in E as [[_ ->] | (mask & m1 & m2 & b & h & _ & Hh & ->)].
  - split; [left; reflexivity | split; reflexivity].
  - destruct bin_args as [[lo hi] num].
    apply color_histogram_lengths in Hh as [Hb Hh].
    split.
    + right. exists b, h. split; [reflexivity | congruence].
    + cbn. split; discriminate.
Qed.

(** Both shapes of the result: arrays for the example catalog, the sentinel
    for the catalog without galaxies. *)
Lemma color_distribution_sentinel_witness :
  ((Some [-0.375; 0.875; 2.125; 3.375]%float, Some [0; 1; 0; 0]%float) = (None, None) \/
   exists binctr hist : list float,
     (Some [-0.375; 0.875; 2.125; 3.375]%float, Some [0; 1; 0; 0]%float)
       = (Some binctr, Some hist) /\ length binctr = length hist) /\
  (Some [-0.375; 0.875; 2.125; 3.375]%float = None <-> Some [0; 1; 0; 0]%float = None).
Proof.
  apply (color_distribution_sentinel Examples.test Examples.catalog "SDSS_u" "SDSS_g"
           (PrimFloat.opp 1%float, 4%float, 5%nat) "/out"
           Examples.no_outputs Examples.no_outputs
           (Some [-0.375; 0.875; 2.125; 3.375]%float, Some [0; 1; 0; 0]%float)).
  vm_compute; reflexivity.
Defined.

(** C6. A single galaxy with u = 40 and g = 1 passes the zero-mask guard of
    lines 334-341 (the mask selects it), yet its colour 39 falls in no bin of
    [-1, 4]: the histogram of the mandatory CDF pass is 0/0 in every bin.
    The same happens over the bins [(-1, 4, 5)]. *)
Theorem normalization_divides_by_zero :
  (exists o' : outputs,
     quantity_filter Examples.test Examples.red_catalog "SDSS_u" "SDSS_g" "/out"
         Examples.no_outputs
       = (o', Ok (Some ([true], [40]%float, [1]%float)))) /\
  np.sum_bool [true] = 1%nat /\
  (exists (o' : outputs) (binctr hist : list float),
     color_distribution Examples.test Examples.red_catalog "SDSS_u" "SDSS_g"
         cdf_bin_args "/out" Examples.no_outputs
       = (o', Ok (Some binctr, Some hist)) /\
     length hist = 1999%nat /\
     forallb PrimFloat.is_nan hist = true) /\
  (color_distribution Examples.test Examples.red_catalog "SDSS_u" "SDSS_g"
       (PrimFloat.opp 1%float, 4%float, 5%nat) "/out" Examples.no_outputs).2
    = Ok (Some [-0.375; 0.875; 2.125; 3.375]%float, Some [nan; nan; nan; nan]%float).
Proof.
  split; [eexists; vm_compute; reflexivity |].
  split; [reflexivity |].
  split; [| vm_compute; reflexivity].
  destruct (color_distribution Examples.test Examples.red_catalog "SDSS_u" "SDSS_g"
              cdf_bin_args "/out" Examples.no_outputs) as [o' r] eqn:E.
  vm_compute in E. inversion E; subst.
  eexists _, _, _. split; [reflexivity |].
  split; vm_compute; reflexivity.
Qed.

(** ** QuantityFilter *)

Lemma lookup_greater_true (a : list float) (c : float) (j : nat) :
  np.greater a c !! j = Some true ->
  exists x : float, a !! j = Some x /\ PrimFloat.ltb c x = true.
Proof.
  unfold np.greater. revert j.
  induction a as [| y t IH]; intros [| j] E; try discriminate.
  - exists y. inversion E. auto.
  - apply IH. exact E.
Qed.

Lemma lookup_less_true (a : list float) (c : float) (j : nat) :
  np.less a c !! j = Some true ->
  exists x : float, a !! j = Some x /\ PrimFloat.ltb x c = true.
Proof.
  unfold np.less. revert j.
  induction a as [| y t IH]; intros [| j] E; try discriminate.
  - exists y. inversion E. auto.
  - apply IH. exact E.
Qed.

Lemma length_greater (a : list float) (c : float) : length (np.greater a c) = length a.
Proof. apply length_map. Qed.

Lemma length_less (a : list float) (c : float) : length (np.less a c) = length a.
Proof. apply length_map. Qed.

Lemma logical_and_aligned (m1 m2 : list bool) :
  length m1 = length m2 -> np.logical_and m1 m2 = Ok (zip_with andb m1 m2).
Proof. apply broadcast_aligned. Qed.

Lemma lookup_and_true (m1 m2 : list bool) (j : nat) :
  zip_with andb m1 m2 !! j = Some true ->
  m1 !! j = Some true /\ m2 !! j = Some true.
Proof.
  intros E. apply lookup_zip_with_Some in E as (x & y & Hxy & Hx & Hy).
  symmetry in Hxy. apply andb_true_iff in Hxy as [-> ->]. auto.
Qed.

Lemma length_compress {A : Type} (mask : list bool) (a : list A) :
  length a = length mask -> length (np.compress mask a) = np.sum_bool mask.
Proof.
  revert a. induction mask as [| b m IH]; intros [| x a] E; try discriminate.
  - reflexivity.
  - injection E as E. destruct b; cbn; rewrite IH by exact E; reflexivity.
Qed.

Lemma Forall_compress {A : Type} (P : A -> Prop) (mask : list bool) (a : list A) :
  (forall (j : nat) (x : A), mask !! j = Some true -> a !! j = Some x -> P x) ->
  Forall P (np.compress mask a).
Proof.
  revert a. induction mask as [| b m IH]; intros a HP.
  - destruct a; constructor.
  - destruct a as [| x a]; [destruct b; constructor |].
    assert (Forall P (np.compress m a)) as Ht
      by (apply IH; intros j y Hm Ha; apply (HP (S j) y); assumption).
    destruct b; cbn [np.compress]; [| exact Ht].
    constructor; [| exact Ht]. apply (HP 0%nat x); reflexivity.
Qed.

Ltac mask_length :=
  rewrite ?length_zip_with, ?length_less, ?length_greater; lia.

Ltac and_step :=
  rewrite logical_and_aligned by mask_length; cbn [rbind].

(** The mask of lines 325 and 330 on aligned arrays: it has their length and
    is true only where every comparison holds. *)
Lemma validity_mask_aligned (self : ColorDistributionTest) (galaxy_catalog : galaxy_catalog)
    (mag1 mag2 : list float) (mask : list bool) :
  length mag2 = length mag1 ->
  (forall band name : string,
     limiting_band self = Some band -> translate self !! band = Some name ->
     length (get_quantities galaxy_catalog name (zlo_mock self) (zhi_mock self))
       = length mag1) ->
  validity_mask self galaxy_catalog mag1 mag2 = Ok mask ->
  length mask = length mag1 /\
  forall j : nat, mask !! j = Some true ->
    (exists x1 : float, mag1 !! j = Some x1 /\ in_range x1) /\
    (exists x2 : float, mag2 !! j = Some x2 /\ in_range x2) /\
    (forall (band : string) (lim : float),
       limiting_band self = Some band -> limiting_mag self = Some lim ->
       exists (name : string) (xl : float),
         translate self !! band = Some name /\
         get_quantities galaxy_catalog name (zlo_mock self) (zhi_mock self) !! j = Some xl /\
         PrimFloat.ltb xl lim = true).
Proof.
  intros H2 Hlim. unfold validity_mask.
  destruct (limiting_band self) as [band |] eqn:Hband.
  - unfold dict_getitem.
    destruct (translate self !! band) as [name |] eqn:Hname; [| discriminate].
    cbn [rbind]. specialize (Hlim band name eq_refl Hname).
    destruct (limiting_mag self) as [lim |] eqn:Hmag; [| discriminate].
    do 4 and_step.
    intros E. injection E as <-.
    split; [mask_length |].
    intros j Hj.
    apply lookup_and_true in Hj as [Hj Hl2].
    apply lookup_and_true in Hj as [Hj Hg2].
    apply lookup_and_true in Hj as [Hj Hl1].
    apply lookup_and_true in Hj as [Hml Hg1].
    apply lookup_greater_true in Hg1 as (x1 & Hx1 & Hg1).
    apply lookup_less_true in Hl1 as (x1' & Hx1' & Hl1).
    apply lookup_greater_true in Hg2 as (x2 & Hx2 & Hg2).
    apply lookup_less_true in Hl2 as (x2' & Hx2' & Hl2).
    apply lookup_less_true in Hml as (xl & Hxl & Hml).
    assert (x1' = x1) as -> by congruence.
    assert (x2' = x2) as -> by congruence.
    split; [exists x1; unfold in_range; auto |].
    split; [exists x2; unfold in_range; auto |].
    intros band' lim' Eb El. inversion Eb; inversion El; subst.
    exists name, xl. auto.
  - do 3 and_step.
    intros E. injection E as <-.
    split; [mask_length |].
    intros j Hj.
    apply lookup_and_true in Hj as [Hj Hl2].
    apply lookup_and_true in Hj as [Hj Hg2].
    apply lookup_and_true in Hj as [Hg1 Hl1].
    apply lookup_greater_true in Hg1 as (x1 & Hx1 & Hg1).
    apply lookup_less_true in Hl1 as (x1' & Hx1' & Hl1).
    apply lookup_greater_true in Hg2 as (x2 & Hx2 & Hg2).
    apply lookup_less_true in Hl2 as (x2' & Hx2' & Hl2).
    assert (x1' = x1) as -> by congruence.
    assert (x2' = x2) as -> by congruence.
    split; [exists x1; unfold in_range; auto |].
    split; [exists x2; unfold in_range; auto |].
    intros band' lim' Eb. discriminate.
Qed.

Lemma bool_index_Ok {A : Type} (a : list A) (mask : list bool) (r : list A) :
  np.bool_index a mask = Ok r -> r = np.compress mask a.
Proof.
  unfold np.bool_index. destruct (np.sum_bool (drop (length a) mask) =? 0)%nat;
    intros E; now inversion E.
Qed.

Lemma bool_index_aligned {A : Type} (a : list A) (mask : list bool) :
  length a = length mask -> np.bool_index a mask = Ok (np.compress mask a).
Proof.
  intros E. unfold np.bool_index. rewrite E, drop_all. reflexivity.
Qed.

(** What a successful pass through lines 308-341 went through. *)
Lemma quantity_filter_Some (self : ColorDistributionTest) (galaxy_catalog : galaxy_catalog)
    (band1 band2 base_output_dir : string) (o o' : outputs)
    (mask : list bool) (m1 m2 : list float) :
  quantity_filter self galaxy_catalog band1 band2 base_output_dir o
    = (o', Ok (Some (mask, m1, m2))) ->
  let mag1 := get_quantities galaxy_catalog band1 (zlo_mock self) (zhi_mock self) in
  let mag2 := get_quantities galaxy_catalog band2 (zlo_mock self) (zhi_mock self) in
  o' = o /\
  validity_mask self galaxy_catalog mag1 mag2 = Ok mask /\
  np.bool_index mag1 mask = Ok m1 /\
  np.bool_index mag2 mask = Ok m2 /\
  np.sum_bool mask <> 0%nat.
Proof.
  intros E mag1 mag2. unfold quantity_filter in E. fold mag1 mag2 in E.
  destruct (length mag1 =? 0)%nat.
  - apply bind_Ok in E as (u & o1 & _ & E). apply ret_Ok in E as [E _]. discriminate.
  - apply bind_Ok in E as (mk & o1 & Hm & E). apply lift_Ok in Hm as [Hm ->].
    apply bind_Ok in E as (a1 & o1 & H1 & E). apply lift_Ok in H1 as [H1 ->].
    apply bind_Ok in E as (a2 & o1 & H2 & E). apply lift_Ok in H2 as [H2 ->].
    destruct (Nat.eqb_spec (np.sum_bool mk) 0).
    + apply bind_Ok in E as (u & o1 & _ & E). apply ret_Ok in E as [E _]. discriminate.
    + apply ret_Ok in E as [E ->]. inversion E; subst. auto.
Qed.

(** C7. On aligned arrays the quantity filter applies one mask to [mag1] and
    [mag2]: the outputs are the entries of the two arrays at the true
    positions of that mask, so both have as many entries as the mask has true
    ones; every retained magnitude lies strictly between 0 and 50, and with a
    limiting band every retained galaxy has [mag_lim < limiting_mag]. *)
Theorem quantity_filter_mask (self : ColorDistributionTest) (galaxy_catalog : galaxy_catalog)
    (band1 band2 base_output_dir : string) (o o' : outputs)
    (mask : list bool) (m1 m2 : list float) :
  aligned self galaxy_catalog band1 band2 ->
  quantity_filter self galaxy_catalog band1 band2 base_output_dir o
    = (o', Ok (Some (mask, m1, m2))) ->
  let mag1 := get_quantities galaxy_catalog band1 (zlo_mock self) (zhi_mock self) in
  let mag2 := get_quantities galaxy_catalog band2 (zlo_mock self) (zhi_mock self) in
  m1 = np.compress mask mag1 /\
  m2 = np.compress mask mag2 /\
  length mask = length mag1 /\
  length mask = length mag2 /\
  length m1 = np.sum_bool mask /\
  length m2 = np.sum_bool mask /\
  Forall in_range m1 /\
  Forall in_range m2 /\
  forall j : nat, mask !! j = Some true ->
    (exists x1 : float, mag1 !! j = Some x1 /\ in_range x1) /\
    (exists x2 : float, mag2 !! j = Some x2 /\ in_range x2) /\
    (forall (band : string) (lim : float),
       limiting_band self = Some band -> limiting_mag self = Some lim ->
       exists (name : string) (xl : float),
         translate self !! band = Some name /\
         get_quantities galaxy_catalog name (zlo_mock self) (zhi_mock self) !! j = Some xl /\
         PrimFloat.ltb xl lim = true).
Proof.
  intros [Hal2 Hallim] E mag1 mag2.
  apply quantity_filter_Some in E as (_ & Hmask & H1 & H2 & _).
  fold mag1 mag2 in Hmask, H1, H2.
  apply bool_index_Ok in H1 as ->.
  apply bool_index_Ok in H2 as ->.
  destruct (validity_mask_aligned self galaxy_catalog mag1 mag2 mask Hal2 Hallim Hmask)
    as [Hlen Hsel].
  split; [reflexivity |]. split; [reflexivity |].
  split; [exact Hlen |]. split; [unfold mag1, mag2 in *; congruence |].
  split; [apply length_compress; congruence |].
  split; [apply length_compress; unfold mag1, mag2 in *; congruence |].
  split; [| split; [| exact Hsel]].
  - apply Forall_compress. intros j x Hj Hx.
    destruct (Hsel j Hj) as [(x1 & Hx1 & Hr) _]. congruence.
  - apply Forall_compress. intros j x Hj Hx.
    destruct (Hsel j Hj) as (_ & (x2 & Hx2 & Hr) & _). congruence.
Qed.

(** The example catalog under the cut r < 2.5: of five galaxies the first two
    are retained. *)
Lemma quantity_filter_mask_witness :
  aligned Examples.limited_test Examples.catalog "SDSS_u" "SDSS_g" /\
  quantity_filter Examples.limited_test Examples.catalog "SDSS_u" "SDSS_g" "/out"
      Examples.no_outputs
    = (Examples.no_outputs,
       Ok (Some ([true; true; false; false; false], [1.5; 2]%float, [1; 1]%float))) /\
  length [1.5; 2]%float = np.sum_bool [true; true; false; false; false] /\
  length [1; 1]%float = np.sum_bool [true; true; false; false; false] /\
  Forall in_range [1.5; 2]%float /\
  Forall in_range [1; 1]%float.
Proof.
  assert (aligned Examples.limited_test Examples.catalog "SDSS_u" "SDSS_g") as Hal.
  { split; [reflexivity |].
    intros band name Hb Ht. vm_compute in Hb. injection Hb as <-.
    vm_compute in Ht. injection Ht as <-. reflexivity. }
  assert (quantity_filter Examples.limited_test Examples.catalog "SDSS_u" "SDSS_g" "/out"
            Examples.no_outputs
          = (Examples.no_outputs,
             Ok (Some ([true; true; false; false; false], [1.5; 2]%float, [1; 1]%float))))
    as Hrun by (vm_compute; reflexivity).
  destruct (quantity_filter_mask Examples.limited_test Examples.catalog
              "SDSS_u" "SDSS_g" "/out" Examples.no_outputs Examples.no_outputs
              [true; true; false; false; false] [1.5; 2]%float [1; 1]%float Hal Hrun)
    as (_ & _ & _ & _ & Hn1 & Hn2 & Hf1 & Hf2 & _).
  exact (conj Hal (conj Hrun (conj Hn1 (conj Hn2 (conj Hf1 Hf2))))).
Defined.

(** ** DistributionComparator: statistics and summary lines *)

Lemma size_dataset (x y : list float) :
  size ({[ "x" := x; "y" := y ]} : dataset) = 2%nat.
Proof.
  rewrite map_size_insert_None by (apply lookup_singleton_ne; discriminate).
  now rewrite map_size_singleton.
Qed.

Lemma append_file_twice (fn a b : string) (o : outputs) :
  bind (append_file fn a) (fun _ => append_file fn b) o
  = ({| files := <[fn := (default [] (files o !! fn) ++ [a; b])%list]> (files o);
        figures := figures o |}, Ok tt).
Proof.
  unfold bind, append_file. cbn [files figures].
  rewrite lookup_insert_eq, insert_insert_eq. simpl.
  now rewrite <- app_assoc.
Qed.

(** C1. Each reported statistic is the raw value of its distance function
    times [sqrt(len(d1))], and [d1] is a dictionary with the two keys 'x' and
    'y': the factor is sqrt(2) whatever the arrays hold.  On the example
    catalog the catalog arrays have 1999 entries, and the reported L2 is
    1 * sqrt(2), not 1 * sqrt(1999). *)
Theorem statistics_scaled_by_dictionary_size :
  (forall (C : Collaborators) (mbinctr mcdf obinctr ocdf : list float),
     let d1 : dataset := {[ "x" := mbinctr; "y" := mcdf ]} in
     let d2 : dataset := {[ "x" := obinctr; "y" := ocdf ]} in
     let scale := PrimFloat.sqrt (float_of_nat 2) in
     scaled_statistics mbinctr mcdf obinctr ocdf
     = ((PrimFloat.mul (L2Diff d1 d2).1 scale, (L2Diff d1 d2).2),
        (PrimFloat.mul (L1Diff d1 d2).1 scale, (L1Diff d1 d2).2),
        (PrimFloat.mul (KS_test d1 d2).1 scale, (KS_test d1 d2).2))) /\
  (exists (o' : outputs) (mbinctr mhist mcdf : list float),
     color_distribution Examples.test Examples.catalog "SDSS_u" "SDSS_g"
         cdf_bin_args "/out" Examples.no_outputs
       = (o', Ok (Some mbinctr, Some mhist)) /\
     build_cdf mhist = Ok mcdf /\
     length mbinctr = 1999%nat /\
     length mcdf = 1999%nat /\
     (@scaled_statistics Examples.collaborators mbinctr mcdf
        [0; 1; 2]%float [0.25; 0.75; 1]%float).1.1.1
       = PrimFloat.mul 1%float (PrimFloat.sqrt (float_of_nat 2)) /\
     (@scaled_statistics Examples.collaborators mbinctr mcdf
        [0; 1; 2]%float [0.25; 0.75; 1]%float).1.1.1
       <> PrimFloat.mul 1%float (PrimFloat.sqrt (float_of_nat (length mbinctr)))).
Proof.
  split.
  - intros C mbinctr mcdf obinctr ocdf d1 d2 scale.
    unfold scaled_statistics. fold d1 d2.
    unfold d1 at 4 5 6. rewrite size_dataset. fold scale.
    destruct (L2Diff d1 d2), (L1Diff d1 d2), (KS_test d1 d2). reflexivity.
  - eexists _, _, _, _.
    split; [vm_compute; reflexivity |].
    split; [vm_compute; reflexivity |].
    split; [vm_compute; reflexivity |].
    split; [vm_compute; reflexivity |].
    split; [vm_compute; reflexivity |].
    intros Eq.
    apply (f_equal (fun v => PrimFloat.ltb v 2%float)) in Eq.
    vm_compute in Eq. discriminate.
Qed.

(** C4. Lines 243-258 append three strings to the summary file, for L2Diff,
    L1Diff and K-S in this order, each a SUCCESS or a FAILED line of its
    statistic.  The L2Diff and K-S lines carry their own scaled values and so
    does the SUCCESS line of L1Diff; the FAILED line of L1Diff carries the
    scaled L2 value (line 253).  With L1 = 3 and L2 = 1, both failed, the
    L1Diff line reads 1.41421 where the L1 value prints as 4.24264. *)
Theorem write_summary_lines :
  (forall (C : Collaborators) (base_output_dir color : string)
          (L2 L1 KS : float) (L2_success L1_success KS_success : bool) (o : outputs),
     let filename := path_join base_output_dir summary_output_file in
     write_summary base_output_dir color
       ((L2, L2_success), (L1, L1_success), (KS, KS_success)) o
     = ({| files :=
             <[filename :=
                 (default [] (files o !! filename)
                  ++ [ if L2_success then success_line color "L2Diff" L2
                       else failed_line color "L2Diff" L2;
                       if L1_success then success_line color "L1Diff" L1
                       else failed_line color "L1Diff" L2;
                       if KS_success then success_line color "K-S" KS
                       else failed_line color "K-S" KS ])%list]> (files o);
           figures := figures o |}, Ok tt)) /\
  (let stats := @scaled_statistics Examples.collaborators
                  [0; 1; 2]%float [0.25; 0.75; 1]%float
                  [0; 1; 2]%float [0.25; 0.75; 1]%float in
   stats.1.2 = (PrimFloat.mul 3%float Examples.sqrt2, false) /\
   files (@write_summary Examples.collaborators "/out" "u-g" stats Examples.no_outputs).1
     !! "/out/summary.txt"
   = Some [ "u-g FAILED: L2Diff = 1.41421" +:+ newline;
            "u-g FAILED: L1Diff = 1.41421" +:+ newline;
            "u-g SUCCESS: K-S = 0.707107" +:+ newline ] /\
   @failed_line Examples.collaborators "u-g" "L1Diff" stats.1.2.1
   = "u-g FAILED: L1Diff = 4.24264" +:+ newline).
Proof.
  split.
  - intros C base_output_dir color L2 L1 KS s2 s1 sk o filename.
    unfold write_summary. fold filename.
    unfold bind at 1. unfold append_file at 1.
    rewrite append_file_twice. cbn [files figures].
    rewrite lookup_insert_eq, insert_insert_eq. simpl.
    now rewrite <- app_assoc.
  - vm_compute. repeat split; reflexivity.
Qed.

(** ** Results do not depend on the output files *)

Lemma same_result_ret {A : Type} (a : A) : same_result (ret a) (ret a).
Proof. intros o1 o2. reflexivity. Qed.

Lemma same_result_raise {A : Type} (e : exn) : same_result (@raise A e) (raise e).
Proof. intros o1 o2. reflexivity. Qed.

Lemma same_result_lift {A : Type} (r : result A) : same_result (lift r) (lift r).
Proof. intros o1 o2. reflexivity. Qed.

Lemma same_result_append (fn1 msg1 fn2 msg2 : string) :
  same_result (append_file fn1 msg1) (append_file fn2 msg2).
Proof. intros o1 o2. reflexivity. Qed.

Lemma same_result_savefig (fn : string) : same_result (savefig fn) (savefig fn).
Proof. intros o1 o2. reflexivity. Qed.

Lemma same_result_bind {A B : Type} (m1 m2 : M A) (k1 k2 : A -> M B) :
  same_result m1 m2 ->
  (forall a : A, same_result (k1 a) (k2 a)) ->
  same_result (bind m1 k1) (bind m2 k2).
Proof.
  intros Hm Hk o1 o2. unfold bind. specialize (Hm o1 o2).
  destruct (m1 o1) as [o1' [a1 | e1]], (m2 o2) as [o2' [a2 | e2]];
    cbn in Hm; try discriminate.
  - injection Hm as ->. apply Hk.
  - injection Hm as ->. reflexivity.
Qed.

Create HintDb same_result.

#[local] Hint Resolve same_result_ret same_result_raise same_result_lift
  same_result_append same_result_savefig : same_result.

Ltac same_result_step :=
  first
    [ apply same_result_bind; [| intros ?]
    | match goal with
      | |- same_result (match ?x with _ => _ end) (match ?x with _ => _ end) =>
          destruct x
      end
    | solve [auto with same_result] ].

Lemma same_result_quantity_filter (self : ColorDistributionTest)
    (galaxy_catalog : galaxy_catalog) (band1 band2 base_output_dir : string) :
  same_result (quantity_filter self galaxy_catalog band1 band2 base_output_dir)
              (quantity_filter self galaxy_catalog band1 band2 base_output_dir).
Proof. unfold quantity_filter. repeat same_result_step. Qed.

Lemma same_result_color_distribution (self : ColorDistributionTest)
    (galaxy_catalog : galaxy_catalog) (band1 band2 : string) (bin_args : bin_spec)
    (base_output_dir : string) :
  same_result
    (color_distribution self galaxy_catalog band1 band2 bin_args base_output_dir)
    (color_distribution self galaxy_catalog band1 band2 bin_args base_output_dir).
Proof.
  unfold color_distribution.
  apply same_result_bind; [apply same_result_quantity_filter | intros ?].
  repeat same_result_step.
Qed.

Lemma write_summary_Ok `{Collaborators} (base_output_dir color : string)
    (stats : (float * bool) * (float * bool) * (float * bool)) (o : outputs) :
  (write_summary base_output_dir color stats o).2 = Ok tt.
Proof. destruct stats as [[[? ?] [? ?]] [? ?]]. reflexivity. Qed.


Lemma cdf_filename_same (C1 C2 : Collaborators) (self : ColorDistributionTest)
    (color : string) :
  (forall (p : nat) (x : float), @format_f C1 p x = @format_f C2 p x) ->
  @cdf_filename C1 self color = @cdf_filename C2 self color.
Proof. intros Hfmt. unfold cdf_filename. now rewrite !Hfmt. Qed.

Lemma pdf_filename_same (C1 C2 : Collaborators) (self : ColorDistributionTest)
    (color : string) (bin_args : bin_spec) :
  (forall (p : nat) (x : float), @format_f C1 p x = @format_f C2 p x) ->
  @pdf_filename C1 self color bin_args = @pdf_filename C2 self color bin_args.
Proof.
  intros Hfmt. unfold pdf_filename. destruct bin_args as [[lo hi] num].
  now rewrite !Hfmt.
Qed.

Lemma same_result_load (C1 C2 : Collaborators) (self : ColorDistributionTest)
    (fn1 fn2 : string) :
  (forall path : string, @loadtxt C1 path = @loadtxt C2 path) ->
  fn1 = fn2 ->
  same_result (@load_validation_data C1 self fn1) (@load_validation_data C2 self fn2).
Proof.
  intros Hload ->. unfold load_validation_data. rewrite Hload.
  repeat same_result_step.
Qed.

Lemma same_result_write_summary (C1 C2 : Collaborators) (base_output_dir color : string)
    (stats1 stats2 : (float * bool) * (float * bool) * (float * bool)) :
  same_result (@write_summary C1 base_output_dir color stats1)
              (@write_summary C2 base_output_dir color stats2).
Proof.
  destruct stats1 as [[[? ?] [? ?]] [? ?]], stats2 as [[[? ?] [? ?]] [? ?]].
  intros o1 o2. reflexivity.
Qed.

Lemma same_result_pdf_pass (C1 C2 : Collaborators) (self : ColorDistributionTest)
    (galaxy_catalog : galaxy_catalog) (band1 band2 base_output_dir color : string)
    (index : nat) (v : loop_vars) :
  (forall path : string, @loadtxt C1 path = @loadtxt C2 path) ->
  (forall (p : nat) (x : float), @format_f C1 p x = @format_f C2 p x) ->
  same_result
    (@pdf_pass C1 self galaxy_catalog band1 band2 base_output_dir color index v)
    (@pdf_pass C2 self galaxy_catalog band1 band2 base_output_dir color index v).
Proof.
  intros Hload Hfmt. unfold pdf_pass.
  apply same_result_bind; [auto with same_result | intros bin_args].
  apply same_result_bind;
    [apply same_result_load; auto using pdf_filename_same | intros [obinctr ohist]].
  apply same_result_bind; [apply same_result_color_distribution | intros [mb mh]].
  repeat same_result_step.
Qed.

Lemma same_result_cdf_pass (C1 C2 : Collaborators) (self : ColorDistributionTest)
    (galaxy_catalog : galaxy_catalog) (band1 band2 base_output_dir color : string)
    (index : nat) (obinctr ocdf : list float) (v : loop_vars) :
  (forall path : string, @loadtxt C1 path = @loadtxt C2 path) ->
  (forall (p : nat) (x : float), @format_f C1 p x = @format_f C2 p x) ->
  same_result
    (@cdf_pass C1 self galaxy_catalog band1 band2 base_output_dir color index
       obinctr ocdf v)
    (@cdf_pass C2 self galaxy_catalog band1 band2 base_output_dir color index
       obinctr ocdf v).
Proof.
  intros Hload Hfmt. unfold cdf_pass.
  apply same_result_bind; [apply same_result_color_distribution | intros [mb mh]].
  destruct mb as [mbinctr |]; [| auto with same_result].
  apply same_result_bind; [repeat same_result_step | intros mhist].
  apply same_result_bind; [auto with same_result | intros mcdf].
  apply same_result_bind; [apply same_result_write_summary | intros _].
  destruct (plot_pdf_q self); [| auto with same_result].
  apply same_result_pdf_pass; assumption.
Qed.

(** Collaborators that read the same validation files and print redshift
    bounds alike; their distance functions and [%G] may differ. *)
Lemma same_result_loop_body (C1 C2 : Collaborators) (self : ColorDistributionTest)
    (galaxy_catalog : galaxy_catalog) (catalog_name base_output_dir : string)
    (v : loop_vars) (index : nat) :
  (forall path : string, @loadtxt C1 path = @loadtxt C2 path) ->
  (forall (p : nat) (x : float), @format_f C1 p x = @format_f C2 p x) ->
  same_result
    (@loop_body C1 self galaxy_catalog catalog_name base_output_dir v index)
    (@loop_body C2 self galaxy_catalog catalog_name base_output_dir v index).
Proof.
  intros Hload Hfmt. unfold loop_body.
  apply same_result_bind; [auto with same_result | intros color].
  apply same_result_bind; [auto with same_result | intros c0].
  apply same_result_bind; [auto with same_result | intros band1].
  apply same_result_bind; [auto with same_result | intros c2].
  apply same_result_bind; [auto with same_result | intros band2].
  apply same_result_bind;
    [apply same_result_load; auto using cdf_filename_same | intros [obinctr ohist]].
  apply same_result_bind; [auto with same_result | intros ocdf].
  same_result_step; [repeat same_result_step |].
  apply same_result_cdf_pass; assumption.
Qed.

Lemma same_result_color_loop (C1 C2 : Collaborators) (self : ColorDistributionTest)
    (galaxy_catalog : galaxy_catalog) (catalog_name base_output_dir : string)
    (indices : list nat) (v : loop_vars) :
  (forall path : string, @loadtxt C1 path = @loadtxt C2 path) ->
  (forall (p : nat) (x : float), @format_f C1 p x = @format_f C2 p x) ->
  same_result
    (@color_loop C1 self galaxy_catalog catalog_name base_output_dir indices v)
    (@color_loop C2 self galaxy_catalog catalog_name base_output_dir indices v).
Proof.
  intros Hload Hfmt. revert v.
  induction indices as [| index rest IH]; intros v; cbn [color_loop].
  - auto with same_result.
  - apply same_result_bind; [apply same_result_loop_body; assumption | intros [v' | r]].
    + apply IH.
    + auto with same_result.
Qed.

Lemma same_result_run (C1 C2 : Collaborators) (self : ColorDistributionTest)
    (galaxy_catalog : galaxy_catalog) (catalog_name base_output_dir : string) :
  (forall path : string, @loadtxt C1 path = @loadtxt C2 path) ->
  (forall (p : nat) (x : float), @format_f C1 p x = @format_f C2 p x) ->
  same_result
    (@run_validation_test C1 self galaxy_catalog catalog_name base_output_dir)
    (@run_validation_test C2 self galaxy_catalog catalog_name base_output_dir).
Proof.
  intros Hload Hfmt. unfold run_validation_test, plt_subplots.
  apply same_result_bind; [repeat same_result_step | intros _].
  apply same_result_bind; [repeat same_result_step | intros _].
  apply same_result_bind; [apply same_result_color_loop; assumption | intros [v | r]].
  - apply same_result_bind; [repeat same_result_step | intros _].
    apply same_result_bind; [repeat same_result_step | intros _].
    auto with same_result.
  - auto with same_result.
Qed.

(** ** The colour loop *)

Lemma load_reference `{Collaborators} (self : ColorDistributionTest) (color : string)
    (obinctr ohist : list float) (o : outputs) :
  reference_data self color obinctr ohist ->
  load_validation_data self (cdf_filename self color) o = (o, Ok (obinctr, ohist)).
Proof.
  unfold reference_data, load_validation_data, bind, lift. intros E.
  rewrite E. reflexivity.
Qed.

(** Lines 166-189: with the bands translated, the validation file read and
    its CDF built, the body is at the check of the declared quantities. *)
Lemma loop_body_at_check `{Collaborators} (self : ColorDistributionTest)
    (galaxy_catalog : galaxy_catalog) (catalog_name base_output_dir : string)
    (v : loop_vars) (index : nat) (o : outputs)
    (color band1 band2 : string) (obinctr ohist ocdf : list float) :
  color_bands self index color band1 band2 ->
  reference_data self color obinctr ohist ->
  build_cdf ohist = Ok ocdf ->
  loop_body self galaxy_catalog catalog_name base_output_dir v index o
  = (if negb (forallb (fun k => bool_decide (k ∈ quantities galaxy_catalog))
                [band1; band2])
     then bind (append_file (path_join base_output_dir log_file)
                  (missing_quantity_msg band1 band2))
               (fun _ => ret (Continue v))
     else cdf_pass self galaxy_catalog band1 band2 base_output_dir color index
            obinctr ocdf v) o.
Proof.
  intros (Hc & (c0 & Hc0 & Hb1) & (c2 & Hc2 & Hb2)) Href Hcdf.
  unfold loop_body.
  apply getitem_Ok in Hc.
  assert (dict_getitem (translate self) c0 = Ok band1) as Ht1
    by (unfold dict_getitem; now rewrite Hb1).
  assert (dict_getitem (translate self) c2 = Ok band2) as Ht2
    by (unfold dict_getitem; now rewrite Hb2).
  rewrite (bind_run _ _ o o color) by (unfold lift; now rewrite Hc).
  rewrite (bind_run _ _ o o c0) by (unfold lift; now rewrite Hc0).
  rewrite (bind_run _ _ o o band1) by (unfold lift; now rewrite Ht1).
  rewrite (bind_run _ _ o o c2) by (unfold lift; now rewrite Hc2).
  rewrite (bind_run _ _ o o band2) by (unfold lift; now rewrite Ht2).
  rewrite (bind_run _ _ o o (obinctr, ohist)) by (now apply load_reference).
  rewrite (bind_run _ _ o o ocdf) by (unfold lift; now rewrite Hcdf).
  reflexivity.
Qed.

Lemma color_loop_cons `{Collaborators} (self : ColorDistributionTest)
    (galaxy_catalog : galaxy_catalog) (catalog_name base_output_dir : string)
    (index : nat) (rest : list nat) (v v' : loop_vars) (o o' : outputs) :
  loop_body self galaxy_catalog catalog_name base_output_dir v index o
    = (o', Ok (Continue v')) ->
  color_loop self galaxy_catalog catalog_name base_output_dir (index :: rest) v o
  = color_loop self galaxy_catalog catalog_name base_output_dir rest v' o'.
Proof. intros E. cbn [color_loop]. unfold bind. now rewrite E. Qed.

(** C9. When the catalog does not declare both translated bands of a colour,
    the loop body appends the warning of line 191,
    "galaxy catalog does not have `band1` and/or `band2` quantity, skipping
    the rest of the validation test." and a newline, to the log file and
    leaves the loop variables and the summary untouched; the loop goes on
    with the next colour, and what the loop returns (hence the outcome of the
    run) is what the remaining colours alone give. *)
Theorem missing_band_skips_color `{Collaborators} (self : ColorDistributionTest)
    (galaxy_catalog : galaxy_catalog) (catalog_name base_output_dir : string)
    (v : loop_vars) (index : nat) (rest : list nat) (o : outputs)
    (color band1 band2 : string) (obinctr ohist ocdf : list float) :
  color_bands self index color band1 band2 ->
  reference_data self color obinctr ohist ->
  build_cdf ohist = Ok ocdf ->
  ~ (band1 ∈ quantities galaxy_catalog /\ band2 ∈ quantities galaxy_catalog) ->
  let warning :=
    "galaxy catalog does not have `" +:+ band1 +:+ "` and/or `" +:+ band2
      +:+ "` quantity, skipping the rest of the validation test."
      +:+ String "010"%char EmptyString in
  loop_body self galaxy_catalog catalog_name base_output_dir v index o
    = ({| files :=
            <[path_join base_output_dir "log.txt" :=
                (default [] (files o !! path_join base_output_dir "log.txt")
                 ++ [warning])%list]> (files o);
          figures := figures o |},
       Ok (Continue v)) /\
  loop_body self galaxy_catalog catalog_name base_output_dir v index o
    = (logged base_output_dir warning o, Ok (Continue v)) /\
  color_loop self galaxy_catalog catalog_name base_output_dir (index :: rest) v o
    = color_loop self galaxy_catalog catalog_name base_output_dir rest v
        (logged base_output_dir warning o) /\
  (color_loop self galaxy_catalog catalog_name base_output_dir (index :: rest) v o).2
    = (color_loop self galaxy_catalog catalog_name base_output_dir rest v o).2.
Proof.
  intros Hbands Href Hcdf Hmiss warning.
  assert (warning = missing_quantity_msg band1 band2) as -> by reflexivity.
  assert (loop_body self galaxy_catalog catalog_name base_output_dir v index o
          = (logged base_output_dir (missing_quantity_msg band1 band2) o,
             Ok (Continue v))) as Hbody.
  { rewrite (loop_body_at_check self galaxy_catalog catalog_name base_output_dir
               v index o color band1 band2 obinctr ohist ocdf Hbands Href Hcdf).
    cbn [forallb].
    destruct (bool_decide_reflect (band1 ∈ quantities galaxy_catalog)) as [H1 | H1];
      destruct (bool_decide_reflect (band2 ∈ quantities galaxy_catalog)) as [H2 | H2];
      cbn [andb negb]; try reflexivity.
    exfalso. apply Hmiss. auto. }
  split; [exact Hbody |].
  split; [exact Hbody |].
  rewrite (color_loop_cons self galaxy_catalog catalog_name base_output_dir
             index rest v v o _ Hbody).
  split; [reflexivity |].
  apply same_result_color_loop; reflexivity.
Qed.

(** The catalog without the u band: the colour u-g is skipped, the log holds
    the warning that names SDSS_u and SDSS_g, no summary line is written, and
    the loop goes on with g-r. *)
Lemma missing_band_skips_color_witness :
  let warning :=
    "galaxy catalog does not have `SDSS_u` and/or `SDSS_g` quantity, skipping the rest of the validation test."
      +:+ String "010"%char EmptyString in
  let body := @loop_body Examples.collaborators Examples.test Examples.catalog_without_u
                "mock" "/out" initial_vars 0 Examples.no_outputs in
  body.2 = Ok (Continue initial_vars) /\
  files body.1 !! "/out/log.txt" = Some [warning] /\
  files body.1 !! "/out/summary.txt" = None /\
  figures body.1 = [] /\
  @color_loop Examples.collaborators Examples.test Examples.catalog_without_u
      "mock" "/out" [0; 1]%nat initial_vars Examples.no_outputs
    = @color_loop Examples.collaborators Examples.test Examples.catalog_without_u
        "mock" "/out" [1%nat] initial_vars
        {| files := {[ "/out/log.txt" := [warning] ]}; figures := [] |} /\
  (@color_loop Examples.collaborators Examples.test Examples.catalog_without_u
      "mock" "/out" [0; 1]%nat initial_vars Examples.no_outputs).2
    = (@color_loop Examples.collaborators Examples.test Examples.catalog_without_u
        "mock" "/out" [1%nat] initial_vars Examples.no_outputs).2.
Proof.
  intros warning body.
  destruct (@missing_band_skips_color Examples.collaborators Examples.test
              Examples.catalog_without_u "mock" "/out" initial_vars 0%nat [1%nat]
              Examples.no_outputs "u-g" "SDSS_u" "SDSS_g"
              [0; 1; 2]%float [0.25; 0.5; 0.25]%float [0.25; 0.75; 1]%float)
    as (Hbody & _ & Hloop & Hres).
  - split; [reflexivity |].
    split; [exists "u" | exists "g"]; split; reflexivity.
  - reflexivity.
  - reflexivity.
  - intros [Hu _].
    apply (bool_decide_eq_true_2
             ("SDSS_u" ∈ quantities Examples.catalog_without_u)) in Hu.
    vm_compute in Hu. discriminate.
  - subst body. rewrite Hbody. cbn [fst snd files figures].
    split; [reflexivity |]. split; [reflexivity |]. split; [reflexivity |].
    split; [reflexivity |]. split; [| exact Hres].
    rewrite Hloop. reflexivity.
Defined.

Lemma min_subplots (n : nat) : Nat.min (2 * Nat.div2 (S n)) n = n.
Proof.
  assert (forall m, m <= 2 * Nat.div2 (S m) /\ S m <= 2 * Nat.div2 (S (S m)))%nat as Hm.
  { induction m as [| m [IH1 IH2]]; [cbn; lia |].
    split; [exact IH2 |].
    change (Nat.div2 (S (S (S m)))) with (S (Nat.div2 (S m))). lia. }
  destruct (Hm n). lia.
Qed.

Lemma loop_indices_seq (self : ColorDistributionTest) :
  loop_indices self = seq 0 (length (colors self)).
Proof. unfold loop_indices, nsubplots. now rewrite min_subplots. Qed.

Lemma plt_subplots_Ok (self : ColorDistributionTest) (o : outputs) :
  colors self <> [] -> plt_subplots (nsubplots self) o = (o, Ok tt).
Proof.
  intros Hne. unfold plt_subplots, nsubplots.
  destruct (colors self) as [| c [| c' t]]; [congruence | reflexivity | reflexivity].
Qed.

Lemma color_loop_app `{Collaborators} (self : ColorDistributionTest)
    (galaxy_catalog : galaxy_catalog) (catalog_name base_output_dir : string)
    (l1 l2 : list nat) (v v1 : loop_vars) (o o1 : outputs) :
  color_loop self galaxy_catalog catalog_name base_output_dir l1 v o
    = (o1, Ok (Continue v1)) ->
  color_loop self galaxy_catalog catalog_name base_output_dir (l1 ++ l2) v o
  = color_loop self galaxy_catalog catalog_name base_output_dir l2 v1 o1.
Proof.
  revert v o. induction l1 as [| i l1 IH]; intros v o E.
  - apply ret_Ok in E as [E ->]. now inversion E.
  - cbn [color_loop app] in *. unfold bind in *.
    destruct (loop_body self galaxy_catalog catalog_name base_output_dir v i o)
      as [o' [[v' | r] | e]].
    + apply IH. exact E.
    + apply ret_Ok in E as [E _]. discriminate.
    + discriminate.
Qed.

(** Lines 311-318 and 334-341: nothing retrieved, or nothing retained by a
    mask that fits the arrays, ends in the sentinel after one log entry. *)
Lemma quantity_filter_no_data (self : ColorDistributionTest)
    (galaxy_catalog : galaxy_catalog) (band1 band2 base_output_dir : string)
    (o : outputs) :
  aligned self galaxy_catalog band1 band2 ->
  let mag1 := get_quantities galaxy_catalog band1 (zlo_mock self) (zhi_mock self) in
  let mag2 := get_quantities galaxy_catalog band2 (zlo_mock self) (zhi_mock self) in
  (mag1 = [] \/
   exists mask : list bool,
     validity_mask self galaxy_catalog mag1 mag2 = Ok mask /\ np.sum_bool mask = 0%nat) ->
  quantity_filter self galaxy_catalog band1 band2 base_output_dir o
  = (logged base_output_dir (no_data_msg mag1) o, Ok None).
Proof.
  intros [Hal2 Hallim] mag1 mag2 Hno.
  unfold quantity_filter, no_data_msg. fold mag1 mag2.
  destruct (Nat.eqb_spec (length mag1) 0) as [Hz | Hnz]; [reflexivity |].
  destruct Hno as [Hnil | (mask & Hmask & Hsum)].
  { rewrite Hnil in Hnz. cbn in Hnz. congruence. }
  destruct (validity_mask_aligned self galaxy_catalog mag1 mag2 mask Hal2 Hallim Hmask)
    as [Hlen _].
  rewrite (bind_run _ _ o o mask) by (unfold lift; now rewrite Hmask).
  rewrite (bind_run _ _ o o (np.compress mask mag1))
    by (unfold lift; rewrite bool_index_aligned by congruence; reflexivity).
  rewrite (bind_run _ _ o o (np.compress mask mag2))
    by (unfold lift; rewrite bool_index_aligned
          by (unfold mag1, mag2 in *; congruence); reflexivity).
  rewrite Hsum. reflexivity.
Qed.

(** C3. When the mandatory CDF pass of a colour retrieves no galaxy, or its
    validity mask retains none, the loop body returns
    [TestResult('SKIPPED', '')] after one log entry: whatever colours follow,
    the loop stops there, and the run returns SKIPPED with the output files
    as the earlier colours and that log entry left them. *)
Theorem no_data_skips_run `{Collaborators} (self : ColorDistributionTest)
    (galaxy_catalog : galaxy_catalog) (catalog_name base_output_dir : string)
    (o o1 : outputs) (v1 : loop_vars) (index : nat)
    (color band1 band2 : string) (obinctr ohist ocdf : list float) :
  color_loop self galaxy_catalog catalog_name base_output_dir (seq 0 index)
      initial_vars o
    = (o1, Ok (Continue v1)) ->
  color_bands self index color band1 band2 ->
  reference_data self color obinctr ohist ->
  build_cdf ohist = Ok ocdf ->
  band1 ∈ quantities galaxy_catalog ->
  band2 ∈ quantities galaxy_catalog ->
  aligned self galaxy_catalog band1 band2 ->
  let mag1 := get_quantities galaxy_catalog band1 (zlo_mock self) (zhi_mock self) in
  let mag2 := get_quantities galaxy_catalog band2 (zlo_mock self) (zhi_mock self) in
  (mag1 = [] \/
   exists mask : list bool,
     validity_mask self galaxy_catalog mag1 mag2 = Ok mask /\ np.sum_bool mask = 0%nat) ->
  loop_body self galaxy_catalog catalog_name base_output_dir v1 index o1
    = (logged base_output_dir (no_data_msg mag1) o1, Ok (Return skipped)) /\
  (forall rest : list nat,
     color_loop self galaxy_catalog catalog_name base_output_dir
         (seq 0 index ++ index :: rest) initial_vars o
       = (logged base_output_dir (no_data_msg mag1) o1, Ok (Return skipped))) /\
  run_validation_test self galaxy_catalog catalog_name base_output_dir o
    = (logged base_output_dir (no_data_msg mag1) o1, Ok skipped).
Proof.
  intros Hpre Hbands Href Hcdf Hq1 Hq2 Hal mag1 mag2 Hno.
  assert (loop_body self galaxy_catalog catalog_name base_output_dir v1 index o1
          = (logged base_output_dir (no_data_msg mag1) o1, Ok (Return skipped)))
    as Hbody.
  { rewrite (loop_body_at_check self galaxy_catalog catalog_name base_output_dir
               v1 index o1 color band1 band2 obinctr ohist ocdf Hbands Href Hcdf).
    cbn [forallb]. rewrite !bool_decide_eq_true_2 by assumption. cbn [andb negb].
    unfold cdf_pass, color_distribution, bind.
    rewrite (quantity_filter_no_data self galaxy_catalog band1 band2 base_output_dir
               o1 Hal Hno).
    reflexivity. }
  assert (forall rest : list nat,
            color_loop self galaxy_catalog catalog_name base_output_dir
              (seq 0 index ++ index :: rest) initial_vars o
            = (logged base_output_dir (no_data_msg mag1) o1, Ok (Return skipped)))
    as Hloop.
  { intros rest.
    rewrite (color_loop_app self galaxy_catalog catalog_name base_output_dir
               (seq 0 index) (index :: rest) initial_vars v1 o o1 Hpre).
    cbn [color_loop]. unfold bind. rewrite Hbody. reflexivity. }
  split; [exact Hbody |]. split; [exact Hloop |].
  destruct Hbands as (Hc & _).
  assert (index < length (colors self))%nat as Hlt
    by (apply lookup_lt_is_Some; eauto).
  unfold run_validation_test.
  assert (colors self <> []) as Hne by (intros E; rewrite E in Hlt; cbn in Hlt; lia).
  rewrite !(bind_run _ _ o o tt) by (apply plt_subplots_Ok; exact Hne).
  rewrite loop_indices_seq.
  replace (length (colors self))
    with (index + S (length (colors self) - S index))%nat by lia.
  rewrite seq_app. cbn [seq]. fold initial_vars.
  unfold bind at 1. rewrite Hloop. reflexivity.
Qed.

(** The catalog whose r band holds only the sentinel 0: u-g is compared and
    summarised, g-r retains no galaxy, and the run is SKIPPED. *)
Lemma no_data_skips_run_witness :
  (@run_validation_test Examples.collaborators Examples.test Examples.dark_catalog
     "mock" "/out" Examples.no_outputs).2 = Ok skipped /\
  files (@run_validation_test Examples.collaborators Examples.test Examples.dark_catalog
           "mock" "/out" Examples.no_outputs).1 !! "/out/log.txt"
    = Some ["No object in the magnitude range!" +:+ newline] /\
  files (@run_validation_test Examples.collaborators Examples.test Examples.dark_catalog
           "mock" "/out" Examples.no_outputs).1 !! "/out/summary.txt"
    = Some [ "u-g FAILED: L2Diff = 1.41421" +:+ newline;
             "u-g FAILED: L1Diff = 1.41421" +:+ newline;
             "u-g SUCCESS: K-S = 0.707107" +:+ newline ].
Proof.
  pose proof
    (@no_data_skips_run Examples.collaborators Examples.test Examples.dark_catalog
       "mock" "/out" Examples.no_outputs
       (@color_loop Examples.collaborators Examples.test Examples.dark_catalog
          "mock" "/out" [0%nat] initial_vars Examples.no_outputs).1
       {| no_cdf_q := false; no_pdf_q := true |} 1%nat
       "g-r" "SDSS_g" "SDSS_r"
       [0; 1; 2]%float [0.25; 0.5; 0.25]%float [0.25; 0.75; 1]%float) as Hskip.
  destruct Hskip as (_ & _ & Hrun).
  - vm_compute. reflexivity.
  - split; [reflexivity |].
    split; [exists "g" | exists "r"]; split; reflexivity.
  - reflexivity.
  - reflexivity.
  - apply (bool_decide_unpack _). vm_compute. exact I.
  - apply (bool_decide_unpack _). vm_compute. exact I.
  - split; [reflexivity |]. intros band name Hb. discriminate.
  - right. exists [false; false; false; false; false].
    split; vm_compute; reflexivity.
  - rewrite Hrun. vm_compute. repeat split; reflexivity.
Defined.

(** ** The outcome of a run *)

Lemma color_bands_functional (self : ColorDistributionTest) (index : nat)
    (color color' band1 band1' band2 band2' : string) :
  color_bands self index color band1 band2 ->
  color_bands self index color' band1' band2' ->
  color' = color /\ band1' = band1 /\ band2' = band2.
Proof.
  intros (Hc & (c0 & Hc0 & Hb1) & (c2 & Hc2 & Hb2))
         (Hc' & (c0' & Hc0' & Hb1') & (c2' & Hc2' & Hb2')).
  assert (color' = color) as -> by congruence.
  assert (c0' = c0) as -> by congruence.
  assert (c2' = c2) as -> by congruence.
  repeat split; congruence.
Qed.

Lemma dict_getitem_Ok {V : Type} (d : gmap string V) (k : string) (v : V) :
  dict_getitem d k = Ok v -> d !! k = Some v.
Proof. unfold dict_getitem. destruct (d !! k); intros E; now inversion E. Qed.

Lemma load_validation_data_Ok `{Collaborators} (self : ColorDistributionTest)
    (filename : string) (o o' : outputs) (binctr hist : list float) :
  load_validation_data self filename o = (o', Ok (binctr, hist)) ->
  o' = o /\
  loadtxt (path_join (path_join (base_data_dir self) (_data_dir self)) filename)
  = Ok [binctr; hist].
Proof.
  unfold load_validation_data. intros E.
  apply bind_Ok in E as (rows & o1 & Hl & E). apply lift_Ok in Hl as [Hl ->].
  destruct rows as [| r1 [| r2 [| r3 t]]]; try (inversion E; fail).
  apply ret_Ok in E as [E ->]. inversion E; subst. auto.
Qed.

(** What a returning loop body went through before line 189. *)
Lemma loop_body_Ok `{Collaborators} (self : ColorDistributionTest)
    (galaxy_catalog : galaxy_catalog) (catalog_name base_output_dir : string)
    (v : loop_vars) (index : nat) (o o' : outputs) (c : control) :
  loop_body self galaxy_catalog catalog_name base_output_dir v index o = (o', Ok c) ->
  exists (color band1 band2 : string) (obinctr ohist ocdf : list float),
    color_bands self index color band1 band2 /\
    reference_data self color obinctr ohist /\
    build_cdf ohist = Ok ocdf.
Proof.
  unfold loop_body. intros E.
  apply bind_Ok in E as (color & o1 & Hc & E). apply lift_Ok in Hc as [Hc ->].
  apply bind_Ok in E as (c0 & o1 & Hc0 & E). apply lift_Ok in Hc0 as [Hc0 ->].
  apply bind_Ok in E as (band1 & o1 & Hb1 & E). apply lift_Ok in Hb1 as [Hb1 ->].
  apply bind_Ok in E as (c2 & o1 & Hc2 & E). apply lift_Ok in Hc2 as [Hc2 ->].
  apply bind_Ok in E as (band2 & o1 & Hb2 & E). apply lift_Ok in Hb2 as [Hb2 ->].
  apply bind_Ok in E as ([obinctr ohist] & o1 & Hl & E).
  apply load_validation_data_Ok in Hl as [-> Hl].
  apply bind_Ok in E as (ocdf & o1 & Hcdf & E). apply lift_Ok in Hcdf as [Hcdf ->].
  exists color, band1, band2, obinctr, ohist, ocdf.
  split; [| split; [exact Hl | exact Hcdf]].
  split; [now apply getitem_Ok |].
  split; [exists c0 | exists c2]; auto using dict_getitem_Ok.
Qed.

Lemma pdf_pass_Ok `{Collaborators} (self : ColorDistributionTest)
    (galaxy_catalog : galaxy_catalog) (band1 band2 base_output_dir color : string)
    (index : nat) (v : loop_vars) (o o' : outputs) (c : control) :
  pdf_pass self galaxy_catalog band1 band2 base_output_dir color index v o = (o', Ok c) ->
  c = Return skipped \/ c = Continue {| no_cdf_q := no_cdf_q v; no_pdf_q := false |}.
Proof.
  unfold pdf_pass. intros E.
  apply bind_Ok in E as (bin_args & o1 & _ & E).
  apply bind_Ok in E as ([obinctr ohist] & o2 & _ & E).
  apply bind_Ok in E as ([mb mh] & o3 & _ & E).
  destruct mb; apply ret_Ok in E as [-> _]; auto.
Qed.

(** Lines 199-283: a returning CDF pass either met the sentinel and returns
    SKIPPED, or got a catalog histogram and clears [no_cdf_q]. *)
Lemma cdf_pass_Ok `{Collaborators} (self : ColorDistributionTest)
    (galaxy_catalog : galaxy_catalog) (band1 band2 base_output_dir color : string)
    (index : nat) (obinctr ocdf : list float) (v : loop_vars)
    (o o' : outputs) (c : control) :
  cdf_pass self galaxy_catalog band1 band2 base_output_dir color index obinctr ocdf v o
    = (o', Ok c) ->
  c = Return skipped \/
  (exists (v' : loop_vars) (o1 : outputs) (mbinctr mhist : list float),
     c = Continue v' /\ no_cdf_q v' = false /\
     color_distribution self galaxy_catalog band1 band2 cdf_bin_args base_output_dir o
       = (o1, Ok (Some mbinctr, Some mhist))).
Proof.
  unfold cdf_pass. intros E.
  apply bind_Ok in E as ([mb mh] & o1 & Hcd & E).
  destruct mb as [mbinctr |]; [| apply ret_Ok in E as [-> _]; auto].
  apply bind_Ok in E as (mhist & o2 & Hmh & E).
  destruct mh as [h |]; [| inversion Hmh].
  apply ret_Ok in Hmh as [-> ->].
  apply bind_Ok in E as (mcdf & o2 & _ & E).
  apply bind_Ok in E as (u & o3 & _ & E).
  destruct (plot_pdf_q self).
  - apply pdf_pass_Ok in E as [-> | ->]; [auto |].
    right. exists {| no_cdf_q := false; no_pdf_q := false |}, o1, mbinctr, h. auto.
  - apply ret_Ok in E as [-> _].
    right. exists {| no_cdf_q := false; no_pdf_q := no_pdf_q v |}, o1, mbinctr, h. auto.
Qed.

(** One iteration: a colour without its bands leaves the variables alone; a
    colour with its bands either ends the run with SKIPPED or produces a
    catalog histogram and clears [no_cdf_q]. *)
Lemma loop_body_outcome `{Collaborators} (self : ColorDistributionTest)
    (galaxy_catalog : galaxy_catalog) (catalog_name base_output_dir : string)
    (v : loop_vars) (index : nat) (o o' : outputs) (c : control) :
  loop_body self galaxy_catalog catalog_name base_output_dir v index o = (o', Ok c) ->
  (c = Continue v /\
   ~ produces_histogram self galaxy_catalog base_output_dir index) \/
  c = Return skipped \/
  (exists v' : loop_vars,
     c = Continue v' /\ no_cdf_q v' = false /\
     produces_histogram self galaxy_catalog base_output_dir index).
Proof.
  intros E.
  destruct (loop_body_Ok self galaxy_catalog catalog_name base_output_dir v index o o' c E)
    as (color & band1 & band2 & obinctr & ohist & ocdf & Hbands & Href & Hcdf).
  rewrite (loop_body_at_check self galaxy_catalog catalog_name base_output_dir
             v index o color band1 band2 obinctr ohist ocdf Hbands Href Hcdf) in E.
  cbn [forallb] in E.
  destruct (bool_decide_reflect (band1 ∈ quantities galaxy_catalog)) as [H1 | H1];
    [destruct (bool_decide_reflect (band2 ∈ quantities galaxy_catalog)) as [H2 | H2] |];
    cbn [andb negb] in E.
  - right. apply cdf_pass_Ok in E as [-> | (v' & o1 & mb & mh & -> & Hv & Hcd)];
      [left; reflexivity |].
    right. exists v'. split; [reflexivity |]. split; [exact Hv |].
    exists color, band1, band2, o, o1, mb, mh. auto.
  - left. apply bind_Ok in E as (u & o1 & _ & E). apply ret_Ok in E as [-> _].
    split; [reflexivity |].
    intros (color' & b1' & b2' & oa & ob & mb & mh & Hbands' & Hq1 & Hq2 & _).
    destruct (color_bands_functional self index color color' band1 b1' band2 b2'
                Hbands Hbands') as (_ & -> & ->).
    contradiction.
  - left. apply bind_Ok in E as (u & o1 & _ & E). apply ret_Ok in E as [-> _].
    split; [reflexivity |].
    intros (color' & b1' & b2' & oa & ob & mb & mh & Hbands' & Hq1 & Hq2 & _).
    destruct (color_bands_functional self index color color' band1 b1' band2 b2'
                Hbands Hbands') as (_ & -> & ->).
    contradiction.
Qed.

(** The loop of line 164: it returns early only with SKIPPED, and it ends
    with [no_cdf_q] cleared exactly when it started so or one of the colours
    it visited produced a catalog histogram. *)
Lemma color_loop_outcome `{Collaborators} (self : ColorDistributionTest)
    (galaxy_catalog : galaxy_catalog) (catalog_name base_output_dir : string)
    (indices : list nat) (v : loop_vars) (o o' : outputs) (c : control) :
  color_loop self galaxy_catalog catalog_name base_output_dir indices v o = (o', Ok c) ->
  match c with
  | Return r => r = skipped
  | Continue v' =>
      no_cdf_q v' = false <->
      (no_cdf_q v = false \/
       exists index : nat,
         index ∈ indices /\
         produces_histogram self galaxy_catalog base_output_dir index)
  end.
Proof.
  revert v o. induction indices as [| index rest IH]; intros v o E.
  - apply ret_Ok in E as [-> _]. split; [auto |].
    intros [Hv | (index & Hin & _)]; [exact Hv |]. now apply elem_of_nil in Hin.
  - cbn [color_loop] in E. apply bind_Ok in E as (c1 & o1 & Hbody & E).
    apply loop_body_outcome in Hbody
      as [[-> Hnot] | [-> | (v1 & -> & Hv1 & Hprod)]].
    + apply IH in E. destruct c as [v' | r]; [| exact E].
      rewrite E. split.
      * intros [Hv | (i & Hin & Hp)]; [auto |]. right. exists i.
        split; [apply elem_of_cons; now right | exact Hp].
      * intros [Hv | (i & Hin & Hp)]; [auto |]. right. exists i.
        split; [| exact Hp].
        apply elem_of_cons in Hin as [-> | Hin]; [contradiction | exact Hin].
    + apply ret_Ok in E as [-> _]. reflexivity.
    + apply IH in E. destruct c as [v' | r]; [| exact E].
      rewrite E. split.
      * intros _. right. exists index.
        split; [apply elem_of_cons; now left | exact Hprod].
      * intros _. left. exact Hv1.
Qed.

Lemma produces_histogram_visited (self : ColorDistributionTest)
    (galaxy_catalog : galaxy_catalog) (base_output_dir : string) (index : nat) :
  produces_histogram self galaxy_catalog base_output_dir index ->
  index ∈ loop_indices self.
Proof.
  intros (color & b1 & b2 & o & o' & mb & mh & (Hc & _) & _).
  rewrite loop_indices_seq. apply elem_of_seq.
  assert (index < length (colors self))%nat by (apply lookup_lt_is_Some; eauto).
  lia.
Qed.

(** A run that returns PASSED or FAILED: PASSED when at least one configured
    colour produced a catalog histogram in its mandatory CDF pass and FAILED
    otherwise; with other distance functions and another [%G], started on any
    output files, the run returns the same result. *)
Lemma unskipped_outcome `{C : Collaborators} (self : ColorDistributionTest)
    (galaxy_catalog : galaxy_catalog) (catalog_name base_output_dir : string)
    (o o' : outputs) (r : TestResult) :
  run_validation_test self galaxy_catalog catalog_name base_output_dir o = (o', Ok r) ->
  result_status r <> SKIPPED ->
  (result_status r = PASSED <->
   exists index : nat, produces_histogram self galaxy_catalog base_output_dir index) /\
  (result_status r = FAILED <->
   ~ exists index : nat, produces_histogram self galaxy_catalog base_output_dir index) /\
  (forall (l2 l1 ks : dataset -> dataset -> float * bool) (g : float -> string)
          (o2 : outputs),
     (@run_validation_test
        {| L2Diff := l2; L1Diff := l1; KS_test := ks;
           loadtxt := @loadtxt C; format_f := @format_f C; format_G := g |}
        self galaxy_catalog catalog_name base_output_dir o2).2 = Ok r).
Proof.
  intros E Hns.
  assert (forall (l2 l1 ks : dataset -> dataset -> float * bool) (g : float -> string)
                 (o2 : outputs),
            (@run_validation_test
               {| L2Diff := l2; L1Diff := l1; KS_test := ks;
                  loadtxt := @loadtxt C; format_f := @format_f C; format_G := g |}
               self galaxy_catalog catalog_name base_output_dir o2).2 = Ok r) as Hind.
  { intros l2 l1 ks g o2.
    transitivity
      (run_validation_test self galaxy_catalog catalog_name base_output_dir o).2;
      [| now rewrite E].
    exact (same_result_run
             {| L2Diff := l2; L1Diff := l1; KS_test := ks;
                loadtxt := @loadtxt C; format_f := @format_f C; format_G := g |}
             C self galaxy_catalog catalog_name base_output_dir
             (fun _ => eq_refl) (fun _ _ => eq_refl) o2 o). }
  unfold run_validation_test in E.
  apply bind_Ok in E as (u1 & o1 & _ & E).
  apply bind_Ok in E as (u2 & o2 & _ & E).
  apply bind_Ok in E as (c & o3 & Hloop & E).
  apply color_loop_outcome in Hloop.
  destruct c as [v | r'].
  - apply bind_Ok in E as (u3 & o4 & _ & E).
    apply bind_Ok in E as (u4 & o5 & _ & E).
    apply ret_Ok in E as [-> _]. cbn [result_status] in *.
    assert (no_cdf_q v = false <->
            exists index : nat,
              produces_histogram self galaxy_catalog base_output_dir index) as Hiff.
    { rewrite Hloop. split.
      - intros [Hi | (i & _ & Hp)]; [discriminate | eauto].
      - intros (i & Hp). right. exists i.
        split; [now apply produces_histogram_visited in Hp | exact Hp]. }
    split; [| split; [| exact Hind]].
    + rewrite <- Hiff. destruct (no_cdf_q v); cbn; split; congruence.
    + rewrite <- Hiff. destruct (no_cdf_q v); cbn; split; congruence.
  - apply ret_Ok in E as [-> _]. subst r'. cbn in Hns. congruence.
Qed.

(** ** The scenarios of the specification, evaluated *)

(** Scenario A: the mask drops the galaxies with u = 50 and u = -1, the
    colours are 0.5, 1 and 1, and the histogram over [(-1, 4, 5)] sums to 1. *)
Example scenario_A :
  (quantity_filter Examples.test Examples.scenario_catalog "SDSS_u" "SDSS_g" "/out"
     Examples.no_outputs).2
    = Ok (Some ([true; true; true; false; false], [1; 2; 3]%float, [0.5; 1; 2]%float)) /\
  color_histogram [1; 2; 3]%float [0.5; 1; 2]%float (PrimFloat.opp 1%float, 4%float, 5%nat)
    = Ok ([-0.375; 0.875; 2.125; 3.375]%float, [0; 1; 0; 0]%float).
Proof. split; vm_compute; reflexivity. Qed.

(** Scenario B: nothing retrieved, the run is SKIPPED, one log entry and no
    summary line. *)
Example scenario_B :
  let run := @run_validation_test Examples.collaborators Examples.test
               Examples.empty_catalog "mock" "/out" Examples.no_outputs in
  run.2 = Ok skipped /\
  files run.1 !! "/out/log.txt" = Some ["No object in the redshift range!" +:+ newline] /\
  files run.1 !! "/out/summary.txt" = None.
Proof. vm_compute. repeat split; reflexivity. Qed.

(** Scenario D: the catalog lacks the u band; u-g is skipped with a warning,
    g-r is compared, and the run is PASSED. *)
Example scenario_D :
  let run := @run_validation_test Examples.collaborators Examples.test
               Examples.catalog_without_u "mock" "/out" Examples.no_outputs in
  run.2 = Ok {| result_status := PASSED; result_message := "" |} /\
  files run.1 !! "/out/log.txt"
    = Some [ "galaxy catalog does not have `SDSS_u` and/or `SDSS_g` quantity, skipping the rest of the validation test."
             +:+ newline ] /\
  files run.1 !! "/out/summary.txt"
    = Some [ "g-r FAILED: L2Diff = 1.41421" +:+ newline;
             "g-r FAILED: L1Diff = 1.41421" +:+ newline;
             "g-r SUCCESS: K-S = 0.707107" +:+ newline ] /\
  figures run.1 = ["/out/plot_cdf.png"].
Proof. vm_compute. repeat split; reflexivity. Qed.

(** ** Text files only grow, figure files are replaced *)

Lemma only_appends_refl (base_output_dir : string) (o : outputs) :
  only_appends base_output_dir o o.
Proof. split; [| split]; intros; reflexivity. Qed.

Lemma only_appends_trans (base_output_dir : string) (o1 o2 o3 : outputs) :
  only_appends base_output_dir o1 o2 ->
  only_appends base_output_dir o2 o3 ->
  only_appends base_output_dir o1 o3.
Proof.
  intros (Hf1 & Hg1 & Hu1) (Hf2 & Hg2 & Hu2). split; [| split].
  - intros path Hc Hp. etransitivity; [now apply Hf1 | now apply Hf2].
  - etransitivity; eassumption.
  - intros path Hl Hs Hc Hp. rewrite Hu2, Hu1 by assumption. reflexivity.
Qed.

Lemma appending_ret {A : Type} (base_output_dir : string) (a : A) :
  appending base_output_dir (ret a).
Proof. intros o. apply only_appends_refl. Qed.

Lemma appending_raise {A : Type} (base_output_dir : string) (e : exn) :
  appending base_output_dir (@raise A e).
Proof. intros o. apply only_appends_refl. Qed.

Lemma appending_lift {A : Type} (base_output_dir : string) (r : result A) :
  appending base_output_dir (lift r).
Proof. intros o. apply only_appends_refl. Qed.

Lemma appending_bind {A B : Type} (base_output_dir : string) (m : M A) (k : A -> M B) :
  appending base_output_dir m ->
  (forall a : A, appending base_output_dir (k a)) ->
  appending base_output_dir (bind m k).
Proof.
  intros Hm Hk o. unfold bind. specialize (Hm o).
  destruct (m o) as [o1 [a | e]]; cbn in *.
  - eapply only_appends_trans; [exact Hm | apply Hk].
  - exact Hm.
Qed.

Lemma appending_append_file (base_output_dir fn msg : string) :
  fn = path_join base_output_dir log_file \/
  fn = path_join base_output_dir summary_output_file ->
  appending base_output_dir (append_file fn msg).
Proof.
  intros Hfn o. unfold append_file. cbn [fst]. split; [| split]; cbn [files figures].
  - intros path _ _. destruct (decide (path = fn)) as [-> | Hne].
    + rewrite lookup_insert_eq. cbn. now apply prefix_app_r.
    + rewrite lookup_insert_ne by (intros E; apply Hne; now rewrite E). reflexivity.
  - reflexivity.
  - intros path Hl Hs _ _. apply lookup_insert_ne.
    destruct Hfn as [-> | ->]; intros E; [apply Hl | apply Hs]; symmetry; exact E.
Qed.

Lemma appending_savefig (base_output_dir fn : string) :
  fn = path_join base_output_dir plot_cdf_file \/
  fn = path_join base_output_dir plot_pdf_file ->
  appending base_output_dir (savefig fn).
Proof.
  intros Hfn o. unfold savefig. cbn [fst]. split; [| split]; cbn [files figures].
  - intros path Hc Hp. rewrite lookup_delete_ne; [reflexivity |].
    destruct Hfn as [-> | ->]; intros E; [apply Hc | apply Hp]; symmetry; exact E.
  - now apply prefix_app_r.
  - intros path _ _ Hc Hp. apply lookup_delete_ne.
    destruct Hfn as [-> | ->]; intros E; [apply Hc | apply Hp]; symmetry; exact E.
Qed.

Create HintDb appending.

#[local] Hint Resolve appending_ret appending_raise appending_lift : appending.
#[local] Hint Extern 1 (appending _ (append_file _ _)) =>
  apply appending_append_file; auto : appending.
#[local] Hint Extern 1 (appending _ (savefig _)) =>
  apply appending_savefig; auto : appending.

Ltac appending_step :=
  first
    [ apply appending_bind; [| intros ?]
    | match goal with
      | |- appending _ (match ?x with _ => _ end) => destruct x
      end
    | solve [auto with appending] ].

Lemma appending_color_distribution (self : ColorDistributionTest)
    (galaxy_catalog : galaxy_catalog) (band1 band2 : string) (bin_args : bin_spec)
    (base_output_dir : string) :
  appending base_output_dir
    (color_distribution self galaxy_catalog band1 band2 bin_args base_output_dir).
Proof. unfold color_distribution, quantity_filter. repeat appending_step. Qed.

Lemma appending_load `{Collaborators} (self : ColorDistributionTest)
    (base_output_dir filename : string) :
  appending base_output_dir (load_validation_data self filename).
Proof. unfold load_validation_data. repeat appending_step. Qed.

Lemma appending_write_summary `{Collaborators} (base_output_dir color : string)
    (stats : (float * bool) * (float * bool) * (float * bool)) :
  appending base_output_dir (write_summary base_output_dir color stats).
Proof.
  destruct stats as [[[? ?] [? ?]] [? ?]]. unfold write_summary.
  repeat appending_step.
Qed.

Lemma appending_loop_body `{Collaborators} (self : ColorDistributionTest)
    (galaxy_catalog : galaxy_catalog) (catalog_name base_output_dir : string)
    (v : loop_vars) (index : nat) :
  appending base_output_dir
    (loop_body self galaxy_catalog catalog_name base_output_dir v index).
Proof.
  unfold loop_body, cdf_pass, pdf_pass.
  repeat first
    [ apply appending_color_distribution
    | apply appending_load
    | apply appending_write_summary
    | appending_step ].
Qed.

Lemma appending_color_loop `{Collaborators} (self : ColorDistributionTest)
    (galaxy_catalog : galaxy_catalog) (catalog_name base_output_dir : string)
    (indices : list nat) (v : loop_vars) :
  appending base_output_dir
    (color_loop self galaxy_catalog catalog_name base_output_dir indices v).
Proof.
  revert v. induction indices as [| index rest IH]; intros v; cbn [color_loop].
  - auto with appending.
  - apply appending_bind; [apply appending_loop_body | intros [v' | r]].
    + apply IH.
    + auto with appending.
Qed.

(** X1. Whatever a run of [run_validation_test] returns or raises, it has
    only appended to the text files: every file other than plot_cdf.png and
    plot_pdf.png under [base_output_dir], which [savefig] replaces, holds
    what it held before, followed by what the run wrote; earlier figures
    stay listed; and no file other than log.txt, summary.txt and these two
    figure files is touched. *)
Theorem run_only_appends `{Collaborators} (self : ColorDistributionTest)
    (galaxy_catalog : galaxy_catalog) (catalog_name base_output_dir : string)
    (o : outputs) :
  only_appends base_output_dir o
    (run_validation_test self galaxy_catalog catalog_name base_output_dir o).1.
Proof.
  revert o. change (appending base_output_dir
    (run_validation_test self galaxy_catalog catalog_name base_output_dir)).
  unfold run_validation_test, plt_subplots.
  repeat first [ apply appending_color_loop | appending_step ].
Qed.

(** ** What one colour writes *)

Lemma string_app_inj (a x y : string) : a +:+ x = a +:+ y -> x = y.
Proof.
  induction a as [| c a IH]; cbn; intros E; [exact E |].
  injection E as E. auto.
Qed.

Lemma path_join_relative_inj (base_output_dir x y : string) :
  String.prefix "/" x = false -> String.prefix "/" y = false ->
  path_join base_output_dir x = path_join base_output_dir y -> x = y.
Proof.
  intros Hx Hy. unfold path_join. rewrite Hx, Hy.
  destruct (bool_decide (base_output_dir = "") || ends_with_sep base_output_dir);
    intros E.
  - now apply string_app_inj in E.
  - apply string_app_inj in E. now apply (string_app_inj "/") in E.
Qed.

Lemma log_summary_distinct (base_output_dir : string) :
  path_join base_output_dir log_file <> path_join base_output_dir summary_output_file.
Proof.
  intros E. apply path_join_relative_inj in E; [discriminate | reflexivity ..].
Qed.

Lemma summary_of_logged (base_output_dir msg : string) (o : outputs) :
  summary_of base_output_dir (logged base_output_dir msg o)
  = summary_of base_output_dir o.
Proof.
  unfold summary_of, logged. cbn [files].
  now rewrite lookup_insert_ne by apply log_summary_distinct.
Qed.

Lemma log_of_logged (base_output_dir msg : string) (o : outputs) :
  log_of base_output_dir (logged base_output_dir msg o)
  = (log_of base_output_dir o ++ [msg])%list.
Proof. unfold log_of, logged. cbn [files]. now rewrite lookup_insert_eq. Qed.

Lemma summary_of_summarised (base_output_dir : string) (lines : list string)
    (o : outputs) :
  summary_of base_output_dir (summarised base_output_dir lines o)
  = (summary_of base_output_dir o ++ lines)%list.
Proof. unfold summary_of, summarised. cbn [files]. now rewrite lookup_insert_eq. Qed.

Lemma log_of_summarised (base_output_dir : string) (lines : list string)
    (o : outputs) :
  log_of base_output_dir (summarised base_output_dir lines o)
  = log_of base_output_dir o.
Proof.
  unfold log_of, summarised. cbn [files].
  rewrite lookup_insert_ne; [reflexivity |].
  intros E. now apply (log_summary_distinct base_output_dir).
Qed.

(** Lines 311-318 and 334-341, read backwards: the sentinel comes with one
    log entry and means that nothing was retrieved or nothing retained. *)
Lemma quantity_filter_None (self : ColorDistributionTest)
    (galaxy_catalog : galaxy_catalog) (band1 band2 base_output_dir : string)
    (o o' : outputs) :
  quantity_filter self galaxy_catalog band1 band2 base_output_dir o = (o', Ok None) ->
  let mag1 := get_quantities galaxy_catalog band1 (zlo_mock self) (zhi_mock self) in
  let mag2 := get_quantities galaxy_catalog band2 (zlo_mock self) (zhi_mock self) in
  o' = logged base_output_dir (no_data_msg mag1) o /\
  (mag1 = [] \/
   exists mask : list bool,
     validity_mask self galaxy_catalog mag1 mag2 = Ok mask /\ np.sum_bool mask = 0%nat).
Proof.
  intros E mag1 mag2. unfold quantity_filter in E. fold mag1 mag2 in E.
  unfold no_data_msg.
  destruct (Nat.eqb_spec (length mag1) 0) as [Hz | Hnz].
  - inversion E. split; [reflexivity |]. left. now apply length_zero_iff_nil.
  - apply bind_Ok in E as (mk & o1 & Hm & E). apply lift_Ok in Hm as [Hm ->].
    apply bind_Ok in E as (a1 & o1 & H1 & E). apply lift_Ok in H1 as [H1 ->].
    apply bind_Ok in E as (a2 & o1 & H2 & E). apply lift_Ok in H2 as [H2 ->].
    destruct (Nat.eqb_spec (np.sum_bool mk) 0) as [Hs | Hs].
    + inversion E. split; [reflexivity |]. right. exists mk. auto.
    + apply ret_Ok in E as [E _]. discriminate.
Qed.

Lemma write_summary_run `{Collaborators} (base_output_dir color : string)
    (stats : (float * bool) * (float * bool) * (float * bool)) (o : outputs) :
  exists lines : list string,
    length lines = 3%nat /\
    write_summary base_output_dir color stats o
    = (summarised base_output_dir lines o, Ok tt).
Proof.
  destruct stats as [[[L2 s2] [L1 s1]] [KS sk]]. unfold write_summary.
  eexists [_; _; _]. split; [reflexivity |].
  unfold bind at 1. unfold append_file at 1.
  rewrite append_file_twice. unfold summarised. cbn [files figures].
  rewrite lookup_insert_eq, insert_insert_eq. simpl.
  now rewrite <- app_assoc.
Qed.

(** The no-data sentinel is decided by the catalog alone: a colour whose CDF
    pass got arrays gets arrays in its PDF pass. *)
Lemma color_distribution_arrays_again (self : ColorDistributionTest)
    (galaxy_catalog : galaxy_catalog) (band1 band2 : string) (b1 b2 : bin_spec)
    (base_output_dir : string) (o1 o1' o2 o2' : outputs)
    (mb mh : list float) (r : option (list float) * option (list float)) :
  color_distribution self galaxy_catalog band1 band2 b1 base_output_dir o1
    = (o1', Ok (Some mb, Some mh)) ->
  color_distribution self galaxy_catalog band1 band2 b2 base_output_dir o2
    = (o2', Ok r) ->
  o2' = o2 /\ exists mb' mh', r = (Some mb', Some mh').
Proof.
  intros E1 E2.
  apply color_distribution_Ok in E1 as [[_ E1] | (k1 & x1 & y1 & b & h & Hq1 & _ & _)];
    [discriminate |].
  apply color_distribution_Ok in E2 as [[Hq2 _] | (k2 & x2 & y2 & b' & h' & Hq2 & _ & ->)].
  - pose proof (same_result_quantity_filter self galaxy_catalog band1 band2
                  base_output_dir o1 o2) as Hs.
    rewrite Hq1, Hq2 in Hs. discriminate.
  - apply quantity_filter_Some in Hq2 as (-> & _). eauto.
Qed.

Lemma declares_color_bands (self : ColorDistributionTest)
    (galaxy_catalog : galaxy_catalog) (index : nat) (color band1 band2 : string) :
  color_bands self index color band1 band2 ->
  declares self galaxy_catalog index
  = bool_decide (band1 ∈ quantities galaxy_catalog)
    && bool_decide (band2 ∈ quantities galaxy_catalog).
Proof.
  intros (Hc & (c0 & Hc0 & Hb1) & (c2 & Hc2 & Hb2)).
  unfold declares. now rewrite Hc, Hc0, Hc2, Hb1, Hb2.
Qed.

(** Lines 260-283 after a CDF pass that got arrays: the PDF pass writes
    nothing and clears [no_pdf_q]; its SKIPPED exit is not taken. *)
Lemma pdf_pass_after_arrays `{Collaborators} (self : ColorDistributionTest)
    (galaxy_catalog : galaxy_catalog) (band1 band2 base_output_dir color : string)
    (index : nat) (v : loop_vars) (oa oa' o o' : outputs) (mb mh : list float)
    (c : control) :
  color_distribution self galaxy_catalog band1 band2 cdf_bin_args base_output_dir oa
    = (oa', Ok (Some mb, Some mh)) ->
  pdf_pass self galaxy_catalog band1 band2 base_output_dir color index v o = (o', Ok c) ->
  c = Continue {| no_cdf_q := no_cdf_q v; no_pdf_q := false |} /\ o' = o.
Proof.
  intros Hcdf E. unfold pdf_pass in E.
  apply bind_Ok in E as (bin_args & o1 & Hb & E). apply lift_Ok in Hb as [_ ->].
  apply bind_Ok in E as ([obinctr ohist] & o2 & Hl & E).
  apply load_validation_data_Ok in Hl as [-> _].
  apply bind_Ok in E as ([mb' mh'] & o3 & Hcd & E).
  destruct (color_distribution_arrays_again self galaxy_catalog band1 band2
              cdf_bin_args bin_args base_output_dir oa oa' o o3 mb mh (mb', mh')
              Hcdf Hcd) as (-> & x & y & Hr).
  injection Hr as -> ->. apply ret_Ok in E as [-> ->]. auto.
Qed.

(** Lines 199-283 for a returning CDF pass: either the sentinel, one log
    entry and SKIPPED, or three summary lines and the next colour. *)
Lemma cdf_pass_effect `{Collaborators} (self : ColorDistributionTest)
    (galaxy_catalog : galaxy_catalog) (band1 band2 base_output_dir color : string)
    (index : nat) (obinctr ocdf : list float) (v : loop_vars)
    (o o' : outputs) (c : control) :
  cdf_pass self galaxy_catalog band1 band2 base_output_dir color index obinctr ocdf v o
    = (o', Ok c) ->
  (c = Return skipped /\
   color_distribution self galaxy_catalog band1 band2 cdf_bin_args base_output_dir o
     = (o', Ok (None, None))) \/
  (exists (lines : list string) (mb mh : list float),
     length lines = 3%nat /\
     c = Continue {| no_cdf_q := false;
                     no_pdf_q := if plot_pdf_q self then false else no_pdf_q v |} /\
     o' = summarised base_output_dir lines o /\
     color_distribution self galaxy_catalog band1 band2 cdf_bin_args base_output_dir o
       = (o, Ok (Some mb, Some mh))).
Proof.
  unfold cdf_pass. intros E.
  apply bind_Ok in E as ([mb mh] & o1 & Hcd & E).
  destruct mb as [mbinctr |].
  - right.
    apply bind_Ok in E as (mhist & o2 & Hmh & E).
    destruct mh as [h |]; [| inversion Hmh].
    apply ret_Ok in Hmh as [-> ->].
    assert (o1 = o) as ->.
    { apply color_distribution_Ok in Hcd
        as [[_ Hcd] | (k & x & y & b & h' & Hq & _ & _)]; [discriminate |].
      now apply quantity_filter_Some in Hq as (-> & _). }
    apply bind_Ok in E as (mcdf & o2 & Hc & E). apply lift_Ok in Hc as [_ ->].
    apply bind_Ok in E as (u & o3 & Hw & E).
    destruct (write_summary_run base_output_dir color
                (scaled_statistics mbinctr mcdf obinctr ocdf) o) as (lines & Hlen & Hrun).
    rewrite Hrun in Hw. injection Hw as <- _.
    exists lines, mbinctr, h. split; [exact Hlen |].
    destruct (plot_pdf_q self).
    + destruct (pdf_pass_after_arrays self galaxy_catalog band1 band2 base_output_dir
                  color index _ o o _ o' mbinctr h c Hcd E) as [-> ->].
      auto.
    + apply ret_Ok in E as [-> ->]. auto.
  - left. apply ret_Ok in E as [-> ->].
    apply color_distribution_Ok in Hcd
      as [[Hq Hr] | (k & x & y & b & h' & _ & _ & Hr)]; [| discriminate].
    injection Hr as ->. split; [reflexivity |].
    unfold color_distribution, bind. now rewrite Hq.
Qed.

(** Lines 166-283 for a returning iteration, with what it wrote. *)
Lemma loop_body_effect `{Collaborators} (self : ColorDistributionTest)
    (galaxy_catalog : galaxy_catalog) (catalog_name base_output_dir : string)
    (v : loop_vars) (index : nat) (o o' : outputs) (c : control) :
  loop_body self galaxy_catalog catalog_name base_output_dir v index o = (o', Ok c) ->
  exists color band1 band2 : string,
    color_bands self index color band1 band2 /\
    ((declares self galaxy_catalog index = false /\
      c = Continue v /\
      o' = logged base_output_dir (missing_quantity_msg band1 band2) o) \/
     (declares self galaxy_catalog index = true /\
      c = Return skipped /\
      color_distribution self galaxy_catalog band1 band2 cdf_bin_args base_output_dir o
        = (o', Ok (None, None))) \/
     (declares self galaxy_catalog index = true /\
      exists lines : list string,
        length lines = 3%nat /\
        c = Continue {| no_cdf_q := false;
                        no_pdf_q := if plot_pdf_q self then false else no_pdf_q v |} /\
        o' = summarised base_output_dir lines o)).
Proof.
  intros E.
  destruct (loop_body_Ok self galaxy_catalog catalog_name base_output_dir v index o o' c E)
    as (color & band1 & band2 & obinctr & ohist & ocdf & Hbands & Href & Hcdf).
  exists color, band1, band2. split; [exact Hbands |].
  rewrite (loop_body_at_check self galaxy_catalog catalog_name base_output_dir
             v index o color band1 band2 obinctr ohist ocdf Hbands Href Hcdf) in E.
  rewrite (declares_color_bands self galaxy_catalog index color band1 band2 Hbands).
  cbn [forallb] in E. rewrite andb_true_r in E.
  destruct (bool_decide (band1 ∈ quantities galaxy_catalog)
            && bool_decide (band2 ∈ quantities galaxy_catalog)); cbn [negb] in E.
  - right.
    apply cdf_pass_effect in E as [[-> Hcd] | (lines & mb & mh & Hlen & -> & -> & _)].
    + left. auto.
    + right. split; [reflexivity |]. exists lines. auto.
  - left. inversion E. auto.
Qed.

Lemma color_distribution_sentinel_logged (self : ColorDistributionTest)
    (galaxy_catalog : galaxy_catalog) (band1 band2 : string) (bin_args : bin_spec)
    (base_output_dir : string) (o o' : outputs) :
  color_distribution self galaxy_catalog band1 band2 bin_args base_output_dir o
    = (o', Ok (None, None)) ->
  o' = logged base_output_dir
         (no_data_msg (get_quantities galaxy_catalog band1 (zlo_mock self) (zhi_mock self)))
         o.
Proof.
  intros E.
  apply color_distribution_Ok in E as [[Hq _] | (k & x & y & b & h & _ & _ & Hr)];
    [| discriminate].
  now apply quantity_filter_None in Hq as [-> _].
Qed.

(** The loop of line 164 with its books kept: three summary lines per colour
    with declared bands, one log entry per other colour, no figure. *)
Lemma color_loop_effect `{Collaborators} (self : ColorDistributionTest)
    (galaxy_catalog : galaxy_catalog) (catalog_name base_output_dir : string)
    (indices : list nat) (v : loop_vars) (o o' : outputs) (c : control) :
  color_loop self galaxy_catalog catalog_name base_output_dir indices v o = (o', Ok c) ->
  figures o' = figures o /\
  match c with
  | Return r => r = skipped
  | Continue v' =>
      let k := length (List.filter (declares self galaxy_catalog) indices) in
      length (summary_of base_output_dir o')
        = (length (summary_of base_output_dir o) + 3 * k)%nat /\
      length (log_of base_output_dir o')
        = (length (log_of base_output_dir o) + (length indices - k))%nat /\
      no_cdf_q v' = no_cdf_q v && (k =? 0)%nat /\
      no_pdf_q v' = (if plot_pdf_q self then no_pdf_q v && (k =? 0)%nat else no_pdf_q v)
  end.
Proof.
  revert v o. induction indices as [| index rest IH]; intros v o E.
  - apply ret_Ok in E as [-> ->]. split; [reflexivity |]. cbn.
    rewrite !andb_true_r. repeat split; try lia. now destruct (plot_pdf_q self).
  - cbn [color_loop] in E. apply bind_Ok in E as (c1 & o1 & Hbody & E).
    apply loop_body_effect in Hbody as (color & b1 & b2 & _ & Hcase).
    cbn [List.filter length].
    destruct Hcase as [(Hd & -> & ->) | [(Hd & -> & Hcd) | (Hd & lines & Hlen & -> & ->)]];
      rewrite Hd.
    + apply IH in E as [Hfig E]. split; [exact Hfig |].
      destruct c as [v' | r]; [| exact E].
      cbn zeta in *. destruct E as (Hs & Hl & Hc & Hp).
      rewrite summary_of_logged in Hs. rewrite log_of_logged, length_app in Hl.
      cbn [length] in *.
      pose proof (filter_length_le (declares self galaxy_catalog) rest).
      repeat split; [exact Hs | lia | exact Hc | exact Hp].
    + apply ret_Ok in E as [-> ->].
      apply color_distribution_sentinel_logged in Hcd as ->.
      split; reflexivity.
    + apply IH in E as [Hfig E]. split; [exact Hfig |].
      destruct c as [v' | r]; [| exact E].
      cbn zeta in *. destruct E as (Hs & Hl & Hc & Hp).
      rewrite summary_of_summarised, length_app, Hlen in Hs.
      rewrite log_of_summarised in Hl. cbn [length no_cdf_q no_pdf_q] in *.
      pose proof (filter_length_le (declares self galaxy_catalog) rest).
      split; [lia |]. split; [lia |]. split.
      * rewrite Hc. cbn. now rewrite andb_false_r.
      * rewrite Hp. cbn. destruct (plot_pdf_q self); [now rewrite andb_false_r |].
        reflexivity.
Qed.

(** ** What a run writes and saves *)

(** The figure files are neither the summary nor the log. *)
Lemma figure_text_distinct (base_output_dir : string) :
  path_join base_output_dir plot_cdf_file
    <> path_join base_output_dir summary_output_file /\
  path_join base_output_dir plot_cdf_file <> path_join base_output_dir log_file /\
  path_join base_output_dir plot_pdf_file
    <> path_join base_output_dir summary_output_file /\
  path_join base_output_dir plot_pdf_file <> path_join base_output_dir log_file.
Proof.
  repeat split; intros E; apply path_join_relative_inj in E;
    solve [discriminate | reflexivity].
Qed.

(** A returning run, split at the end of its loop (lines 285-295). *)
Lemma run_Ok `{Collaborators} (self : ColorDistributionTest)
    (galaxy_catalog : galaxy_catalog) (catalog_name base_output_dir : string)
    (o o' : outputs) (r : TestResult) :
  run_validation_test self galaxy_catalog catalog_name base_output_dir o = (o', Ok r) ->
  exists (o1 : outputs) (c : control),
    color_loop self galaxy_catalog catalog_name base_output_dir
      (seq 0 (length (colors self))) initial_vars o = (o1, Ok c) /\
    match c with
    | Return r' => r = r' /\ o' = o1
    | Continue v =>
        r = {| result_status := if negb (no_cdf_q v) then PASSED else FAILED;
               result_message := "" |} /\
        (summary_of base_output_dir o' = summary_of base_output_dir o1 /\
         log_of base_output_dir o' = log_of base_output_dir o1) /\
        figures o'
        = (figures o1
           ++ (if negb (no_cdf_q v)
               then [path_join base_output_dir plot_cdf_file] else [])
           ++ (if plot_pdf_q self && negb (no_pdf_q v)
               then [path_join base_output_dir plot_pdf_file] else []))%list
    end.
Proof.
  unfold run_validation_test, plt_subplots. intros E.
  apply bind_Ok in E as (u1 & o1 & H1 & E).
  apply bind_Ok in E as (u2 & o2 & H2 & E).
  destruct (nsubplots self =? 0)%nat; [inversion H1 |].
  apply ret_Ok in H1 as [_ ->]. apply ret_Ok in H2 as [_ ->].
  apply bind_Ok in E as (c & o3 & Hloop & E).
  rewrite loop_indices_seq in Hloop. fold initial_vars in Hloop.
  exists o3, c. split; [exact Hloop |].
  destruct c as [v | r'].
  - apply bind_Ok in E as (u3 & o4 & H3 & E).
    apply bind_Ok in E as (u4 & o5 & H4 & E).
    apply ret_Ok in E as [-> ->].
    split; [reflexivity |].
    pose proof (figure_text_distinct base_output_dir) as (Hcs & Hcl & Hps & Hpl).
    unfold summary_of, log_of.
    destruct (negb (no_cdf_q v)); inversion H3; subst o4;
      destruct (plot_pdf_q self && negb (no_pdf_q v)); inversion H4; subst;
      cbn [files figures];
      rewrite ?lookup_delete_ne by assumption;
      rewrite <- ?app_assoc, ?app_nil_r; auto.
  - apply ret_Ok in E as [-> ->]. auto.
Qed.

(** X2. A run that returns PASSED or FAILED has appended exactly three
    summary lines for each configured colour whose two bands the catalog
    declares and exactly one log entry for each other colour; it is PASSED
    exactly when at least one colour has its bands declared. *)
Theorem run_accounting `{Collaborators} (self : ColorDistributionTest)
    (galaxy_catalog : galaxy_catalog) (catalog_name base_output_dir : string)
    (o o' : outputs) (r : TestResult) :
  run_validation_test self galaxy_catalog catalog_name base_output_dir o = (o', Ok r) ->
  result_status r <> SKIPPED ->
  length (summary_of base_output_dir o')
    = (length (summary_of base_output_dir o)
       + 3 * declared_colors self galaxy_catalog)%nat /\
  length (log_of base_output_dir o')
    = (length (log_of base_output_dir o)
       + (length (colors self) - declared_colors self galaxy_catalog))%nat /\
  (result_status r = PASSED <-> (0 < declared_colors self galaxy_catalog)%nat).
Proof.
  intros E Hns. apply run_Ok in E as (o1 & c & Hloop & E).
  apply color_loop_effect in Hloop as [_ Hloop].
  destruct c as [v | r'].
  - destruct E as (-> & [Hsum Hlog] & _). cbn zeta in Hloop.
    destruct Hloop as (Hs & Hl & Hc & _).
    fold (declared_colors self galaxy_catalog) in Hs, Hl, Hc.
    rewrite length_seq in Hl.
    rewrite Hsum, Hlog.
    split; [exact Hs |]. split; [exact Hl |].
    cbn [result_status]. rewrite Hc. cbn.
    destruct (Nat.eqb_spec (declared_colors self galaxy_catalog) 0) as [-> | Hk];
      cbn; split; intros; try lia; congruence.
  - destruct E as [-> _]. subst r'. cbn in Hns. congruence.
Qed.

(** X3. The figures a returning run saves are decided by its outcome: a
    PASSED run saves the CDF figure, followed by the PDF figure when
    [plot_pdf_q] is set; a FAILED or SKIPPED run saves none. *)
Theorem run_saves_figures `{Collaborators} (self : ColorDistributionTest)
    (galaxy_catalog : galaxy_catalog) (catalog_name base_output_dir : string)
    (o o' : outputs) (r : TestResult) :
  run_validation_test self galaxy_catalog catalog_name base_output_dir o = (o', Ok r) ->
  figures o' = (figures o ++ saved_figures self base_output_dir (result_status r))%list.
Proof.
  intros E. apply run_Ok in E as (o1 & c & Hloop & E).
  apply color_loop_effect in Hloop as [Hfig Hloop].
  destruct c as [v | r'].
  - destruct E as (-> & _ & ->). cbn zeta in Hloop.
    destruct Hloop as (_ & _ & Hc & Hp). rewrite Hfig, Hc, Hp.
    unfold saved_figures. cbn.
    destruct (length (List.filter (declares self galaxy_catalog)
                        (seq 0 (length (colors self)))) =? 0)%nat;
      destruct (plot_pdf_q self); cbn; now rewrite ?app_nil_r.
  - destruct E as [-> ->]. subst r'. cbn. now rewrite app_nil_r.
Qed.

(** ** The outcome of a run without a no-data condition *)

Lemma color_loop_Return `{Collaborators} (self : ColorDistributionTest)
    (galaxy_catalog : galaxy_catalog) (catalog_name base_output_dir : string)
    (indices : list nat) (v : loop_vars) (o o' : outputs) (r : TestResult) :
  color_loop self galaxy_catalog catalog_name base_output_dir indices v o
    = (o', Ok (Return r)) ->
  exists (index : nat) (v1 : loop_vars) (o1 : outputs),
    index ∈ indices /\
    loop_body self galaxy_catalog catalog_name base_output_dir v1 index o1
      = (o', Ok (Return r)).
Proof.
  revert v o. induction indices as [| index rest IH]; intros v o E; cbn [color_loop] in E.
  - apply ret_Ok in E as [E _]. discriminate.
  - apply bind_Ok in E as (c & o1 & Hbody & E). destruct c as [v' | r'].
    + apply IH in E as (i & v1 & o2 & Hin & Hb).
      exists i, v1, o2. split; [apply elem_of_cons; now right | exact Hb].
    + apply ret_Ok in E as [E ->]. injection E as ->.
      exists index, v, o. split; [apply elem_of_cons; now left | exact Hbody].
Qed.

(** A returning run is SKIPPED only when some declared colour meets the
    no-data condition. *)
Lemma skipped_run_signals `{Collaborators} (self : ColorDistributionTest)
    (galaxy_catalog : galaxy_catalog) (catalog_name base_output_dir : string)
    (o o' : outputs) (r : TestResult) :
  run_validation_test self galaxy_catalog catalog_name base_output_dir o = (o', Ok r) ->
  result_status r = SKIPPED ->
  no_data_signalled self galaxy_catalog.
Proof.
  intros E Hs. apply run_Ok in E as (o1 & c & Hloop & E).
  destruct c as [v | r'].
  - destruct E as (-> & _). cbn in Hs. destruct (negb (no_cdf_q v)); discriminate.
  - destruct E as [<- ->].
    apply color_loop_Return in Hloop as (index & v1 & o2 & _ & Hbody).
    apply loop_body_effect in Hbody
      as (color & b1 & b2 & Hb
          & [(_ & Hc & _) | [(Hd & _ & Hcd) | (_ & lines & _ & Hc & _)]]);
      try discriminate.
    exists index, color, b1, b2.
    rewrite (declares_color_bands self galaxy_catalog index color b1 b2 Hb) in Hd.
    apply andb_true_iff in Hd as [H1 H2].
    apply bool_decide_eq_true_1 in H1. apply bool_decide_eq_true_1 in H2.
    apply color_distribution_Ok in Hcd
      as [[Hq _] | (mask & m1 & m2 & bc & h & _ & _ & Hr)]; [| discriminate].
    apply quantity_filter_None in Hq as [_ Hq].
    split; [exact Hb |]. split; [exact H1 |]. split; [exact H2 |]. exact Hq.
Qed.

(** C2. A run that returns, and in which no configured colour with declared
    bands meets the no-data condition, is not SKIPPED: it returns PASSED when
    at least one configured colour produced a catalog histogram in its
    mandatory CDF pass and FAILED otherwise; with other distance functions
    (other values, other success flags) and another [%G], started on any
    output files, the run returns the same result. *)
Theorem outcome_counts_histograms `{C : Collaborators} (self : ColorDistributionTest)
    (galaxy_catalog : galaxy_catalog) (catalog_name base_output_dir : string)
    (o o' : outputs) (r : TestResult) :
  run_validation_test self galaxy_catalog catalog_name base_output_dir o = (o', Ok r) ->
  ~ no_data_signalled self galaxy_catalog ->
  result_status r <> SKIPPED /\
  (result_status r = PASSED <->
   exists index : nat, produces_histogram self galaxy_catalog base_output_dir index) /\
  (result_status r = FAILED <->
   ~ exists index : nat, produces_histogram self galaxy_catalog base_output_dir index) /\
  (forall (l2 l1 ks : dataset -> dataset -> float * bool) (g : float -> string)
          (o2 : outputs),
     (@run_validation_test
        {| L2Diff := l2; L1Diff := l1; KS_test := ks;
           loadtxt := @loadtxt C; format_f := @format_f C; format_G := g |}
        self galaxy_catalog catalog_name base_output_dir o2).2 = Ok r).
Proof.
  intros E Hnone.
  assert (result_status r <> SKIPPED) as Hns.
  { intros Hs. apply Hnone.
    exact (skipped_run_signals self galaxy_catalog catalog_name base_output_dir
             o o' r E Hs). }
  split; [exact Hns |].
  exact (unskipped_outcome self galaxy_catalog catalog_name base_output_dir
           o o' r E Hns).
Qed.

(** On the example catalog no colour meets the no-data condition, both
    colours produce a histogram and the run is PASSED, also when every
    statistic succeeds; on the catalog that declares no band no colour
    produces a histogram and the run is FAILED. *)
Lemma outcome_counts_histograms_witness :
  let outcome (s : status) := Ok {| result_status := s; result_message := "" |} in
  ((@run_validation_test Examples.collaborators Examples.test Examples.catalog
      "mock" "/out" Examples.no_outputs).2 = outcome PASSED /\
   exists index : nat, produces_histogram Examples.test Examples.catalog "/out" index) /\
  ((@run_validation_test Examples.collaborators Examples.test
      Examples.undeclared_catalog "mock" "/out" Examples.no_outputs).2 = outcome FAILED /\
   ~ exists index : nat,
       produces_histogram Examples.test Examples.undeclared_catalog "/out" index) /\
  (@run_validation_test
     {| L2Diff := fun _ _ => (0%float, true); L1Diff := fun _ _ => (0%float, true);
        KS_test := fun _ _ => (0%float, true);
        loadtxt := @loadtxt Examples.collaborators;
        format_f := @format_f Examples.collaborators;
        format_G := fun _ => "0" |}
     Examples.test Examples.catalog "mock" "/out" Examples.no_outputs).2
  = outcome PASSED.
Proof.
  intros outcome.
  assert (@run_validation_test Examples.collaborators Examples.test Examples.catalog
            "mock" "/out" Examples.no_outputs
          = ((@run_validation_test Examples.collaborators Examples.test Examples.catalog
                "mock" "/out" Examples.no_outputs).1,
             Ok {| result_status := PASSED; result_message := "" |})) as Hrun
    by (vm_compute; reflexivity).
  assert (@run_validation_test Examples.collaborators Examples.test
            Examples.undeclared_catalog "mock" "/out" Examples.no_outputs
          = ((@run_validation_test Examples.collaborators Examples.test
                Examples.undeclared_catalog "mock" "/out" Examples.no_outputs).1,
             Ok {| result_status := FAILED; result_message := "" |})) as Hrun'
    by (vm_compute; reflexivity).
  assert (~ no_data_signalled Examples.test Examples.catalog) as Hnone.
  { intros (index & color & b1 & b2
            & (Hc & (c0 & Hc0 & Hb1) & (c2 & Hc2 & Hb2)) & _ & _ & Hnd).
    destruct index as [| [| n]]; vm_compute in Hc; [| | discriminate Hc];
      injection Hc as <-;
      vm_compute in Hc0; injection Hc0 as <-;
      vm_compute in Hc2; injection Hc2 as <-;
      vm_compute in Hb1; injection Hb1 as <-;
      vm_compute in Hb2; injection Hb2 as <-;
      (destruct Hnd as [Hnil | (mask & Hm & Hs)];
       [vm_compute in Hnil; discriminate Hnil |]);
      vm_compute in Hm; injection Hm as <-; vm_compute in Hs; discriminate Hs. }
  assert (~ no_data_signalled Examples.test Examples.undeclared_catalog) as Hnone'.
  { intros (index & color & b1 & b2 & _ & H1 & _).
    change (b1 ∈ (∅ : gset string)) in H1. now apply elem_of_empty in H1. }
  destruct (@outcome_counts_histograms Examples.collaborators Examples.test
              Examples.catalog "mock" "/out" Examples.no_outputs _ _ Hrun Hnone)
    as (_ & Hpass & _ & Hind).
  destruct (@outcome_counts_histograms Examples.collaborators Examples.test
              Examples.undeclared_catalog "mock" "/out" Examples.no_outputs _ _
              Hrun' Hnone')
    as (_ & _ & Hfail & _).
  split; [split; [rewrite Hrun; reflexivity | apply Hpass; reflexivity] |].
  split; [split; [rewrite Hrun'; reflexivity | apply Hfail; reflexivity] |].
  apply Hind.
Defined.

(** ** The sentinel and the early return *)

Lemma quantity_filter_Some_nonempty (self : ColorDistributionTest)
    (galaxy_catalog : galaxy_catalog) (band1 band2 base_output_dir : string)
    (o o' : outputs) (r : list bool * list float * list float) :
  quantity_filter self galaxy_catalog band1 band2 base_output_dir o = (o', Ok (Some r)) ->
  get_quantities galaxy_catalog band1 (zlo_mock self) (zhi_mock self) <> [].
Proof.
  unfold quantity_filter. intros E Hnil. rewrite Hnil in E. cbn in E.
  inversion E.
Qed.

(** X4. [color_distribution] writes to the log only with the sentinel: a
    call that returns [(None, None)] has appended exactly one log entry and
    nothing was retrieved for the first band or the mask retained nothing; a
    call that returns arrays has left the output files as they were, the
    first band has entries and the mask retains at least one. *)
Theorem color_distribution_effect (self : ColorDistributionTest)
    (galaxy_catalog : galaxy_catalog) (band1 band2 : string) (bin_args : bin_spec)
    (base_output_dir : string) (o o' : outputs)
    (r : option (list float) * option (list float)) :
  color_distribution self galaxy_catalog band1 band2 bin_args base_output_dir o = (o', Ok r) ->
  let mag1 := get_quantities galaxy_catalog band1 (zlo_mock self) (zhi_mock self) in
  let mag2 := get_quantities galaxy_catalog band2 (zlo_mock self) (zhi_mock self) in
  (r = (None, None) /\
   o' = logged base_output_dir (no_data_msg mag1) o /\
   (mag1 = [] \/
    exists mask : list bool,
      validity_mask self galaxy_catalog mag1 mag2 = Ok mask /\ np.sum_bool mask = 0%nat)) \/
  (exists (binctr hist : list float) (mask : list bool),
     r = (Some binctr, Some hist) /\
     o' = o /\
     mag1 <> [] /\
     validity_mask self galaxy_catalog mag1 mag2 = Ok mask /\
     np.sum_bool mask <> 0%nat).
Proof.
  intros E mag1 mag2.
  apply color_distribution_Ok in E as [[Hq ->] | (mask & x & y & b & h & Hq & _ & ->)].
  - left. split; [reflexivity |]. now apply quantity_filter_None in Hq.
  - right. exists b, h, mask. split; [reflexivity |].
    pose proof (quantity_filter_Some_nonempty _ _ _ _ _ _ _ _ Hq) as Hne.
    apply quantity_filter_Some in Hq as (-> & Hm & _ & _ & Hs). auto.
Qed.

(** X5. When an iteration of the colour loop returns from the method, it
    returns SKIPPED from the CDF pass (line 204), never from the PDF pass
    (line 271): no summary line was written for that colour, no figure was
    saved, exactly one no-data entry was logged, and the no-data condition
    holds for the colour's bands. *)
Theorem early_return_is_cdf_skip `{Collaborators} (self : ColorDistributionTest)
    (galaxy_catalog : galaxy_catalog) (catalog_name base_output_dir : string)
    (v : loop_vars) (index : nat) (o o' : outputs) (r : TestResult) :
  loop_body self galaxy_catalog catalog_name base_output_dir v index o
    = (o', Ok (Return r)) ->
  r = skipped /\
  summary_of base_output_dir o' = summary_of base_output_dir o /\
  figures o' = figures o /\
  exists color band1 band2 : string,
    color_bands self index color band1 band2 /\
    let mag1 := get_quantities galaxy_catalog band1 (zlo_mock self) (zhi_mock self) in
    let mag2 := get_quantities galaxy_catalog band2 (zlo_mock self) (zhi_mock self) in
    log_of base_output_dir o' = (log_of base_output_dir o ++ [no_data_msg mag1])%list /\
    (mag1 = [] \/
     exists mask : list bool,
       validity_mask self galaxy_catalog mag1 mag2 = Ok mask /\ np.sum_bool mask = 0%nat).
Proof.
  intros E.
  apply loop_body_effect in E as (color & b1 & b2 & Hbands & Hcase).
  destruct Hcase as [(_ & Hc & _) | [(_ & Hc & Hcd) | (_ & lines & _ & Hc & _)]];
    try discriminate.
  injection Hc as ->.
  apply color_distribution_Ok in Hcd as [[Hq _] | (k & x & y & b & h & _ & _ & Hr)];
    [| discriminate].
  apply quantity_filter_None in Hq as [-> Hno].
  split; [reflexivity |]. split; [apply summary_of_logged |]. split; [reflexivity |].
  exists color, b1, b2. split; [exact Hbands |]. cbn zeta.
  split; [apply log_of_logged | exact Hno].
Qed.

(** ** Failures before the check of the declared quantities *)

(** X6. A colour whose first or second band letter is missing from the
    translation table makes the loop body raise [KeyError] before anything is
    read or written, whatever the catalog holds; the loop stops there. *)
Theorem missing_translation_raises `{Collaborators} (self : ColorDistributionTest)
    (galaxy_catalog : galaxy_catalog) (catalog_name base_output_dir : string)
    (v : loop_vars) (index : nat) (rest : list nat) (o : outputs)
    (color c0 c2 : string) :
  colors self !! index = Some color ->
  str_getitem color 0 = Ok c0 ->
  str_getitem color 2 = Ok c2 ->
  translate self !! c0 = None \/ translate self !! c2 = None ->
  loop_body self galaxy_catalog catalog_name base_output_dir v index o
    = (o, Raise KeyError) /\
  color_loop self galaxy_catalog catalog_name base_output_dir (index :: rest) v o
    = (o, Raise KeyError).
Proof.
  intros Hc Hc0 Hc2 Hmiss.
  assert (loop_body self galaxy_catalog catalog_name base_output_dir v index o
          = (o, Raise KeyError)) as Hbody.
  { unfold loop_body. apply getitem_Ok in Hc.
    rewrite (bind_run _ _ o o color) by (unfold lift; now rewrite Hc).
    rewrite (bind_run _ _ o o c0) by (unfold lift; now rewrite Hc0).
    unfold bind at 1, lift at 1, dict_getitem at 1.
    destruct (translate self !! c0) as [band1 |] eqn:Hb1; [| reflexivity].
    rewrite (bind_run _ _ o o c2) by (unfold lift; now rewrite Hc2).
    unfold bind at 1, lift at 1, dict_getitem at 1.
    destruct Hmiss as [Hm | Hm]; [discriminate |]. now rewrite Hm. }
  split; [exact Hbody |]. cbn [color_loop]. unfold bind. now rewrite Hbody.
Qed.


(** X7. The validation file of a colour is read before the catalog is asked
    anything: when [np.loadtxt] raises, or returns three rows or more of two
    columns or more ([ValueError] on unpacking), the loop body raises that
    exception and writes nothing, also for a colour whose bands the catalog
    does not declare; the loop stops there. *)
Theorem unreadable_reference_raises `{Collaborators} (self : ColorDistributionTest)
    (galaxy_catalog : galaxy_catalog) (catalog_name base_output_dir : string)
    (v : loop_vars) (index : nat) (rest : list nat) (o : outputs)
    (color band1 band2 : string) (e : exn) :
  color_bands self index color band1 band2 ->
  unreadable_reference
    (loadtxt (path_join (path_join (base_data_dir self) (_data_dir self))
                (cdf_filename self color))) e ->
  loop_body self galaxy_catalog catalog_name base_output_dir v index o = (o, Raise e) /\
  color_loop self galaxy_catalog catalog_name base_output_dir (index :: rest) v o
    = (o, Raise e).
Proof.
  intros (Hc & (c0 & Hc0 & Hb1) & (c2 & Hc2 & Hb2)) Hfail.
  assert (loop_body self galaxy_catalog catalog_name base_output_dir v index o
          = (o, Raise e)) as Hbody.
  { unfold loop_body. apply getitem_Ok in Hc.
    assert (dict_getitem (translate self) c0 = Ok band1) as Ht1
      by (unfold dict_getitem; now rewrite Hb1).
    assert (dict_getitem (translate self) c2 = Ok band2) as Ht2
      by (unfold dict_getitem; now rewrite Hb2).
    rewrite (bind_run _ _ o o color) by (unfold lift; now rewrite Hc).
    rewrite (bind_run _ _ o o c0) by (unfold lift; now rewrite Hc0).
    rewrite (bind_run _ _ o o band1) by (unfold lift; now rewrite Ht1).
    rewrite (bind_run _ _ o o c2) by (unfold lift; now rewrite Hc2).
    rewrite (bind_run _ _ o o band2) by (unfold lift; now rewrite Ht2).
    unfold load_validation_data, bind, lift.
    destruct Hfail as [-> | (table & columns & -> & Hrows & _ & _ & ->)];
      [reflexivity |].
    destruct table as [| r1 [| r2 [| r3 t]]]; cbn in Hrows; try lia.
    reflexivity. }
  split; [exact Hbody |]. cbn [color_loop]. unfold bind. now rewrite Hbody.
Qed.

(** The missing validation files: the colour u-g raises [IOError] although
    the catalog does not declare the u band; the files of three rows raise
    [ValueError]. *)
Lemma unreadable_reference_raises_witness :
  (@loop_body Examples.missing_reference Examples.test Examples.catalog_without_u
     "mock" "/out" initial_vars 0 Examples.no_outputs
   = (Examples.no_outputs, Raise IOError) /\
   @color_loop Examples.missing_reference Examples.test Examples.catalog_without_u
     "mock" "/out" [0; 1]%nat initial_vars Examples.no_outputs
   = (Examples.no_outputs, Raise IOError)) /\
  (@loop_body Examples.long_reference Examples.test Examples.catalog_without_u
     "mock" "/out" initial_vars 0 Examples.no_outputs
   = (Examples.no_outputs, Raise ValueError) /\
   @color_loop Examples.long_reference Examples.test Examples.catalog_without_u
     "mock" "/out" [0; 1]%nat initial_vars Examples.no_outputs
   = (Examples.no_outputs, Raise ValueError)).
Proof.
  split.
  - apply (@unreadable_reference_raises Examples.missing_reference Examples.test
             Examples.catalog_without_u "mock" "/out" initial_vars 0%nat [1%nat]
             Examples.no_outputs "u-g" "SDSS_u" "SDSS_g" IOError).
    + split; [reflexivity |].
      split; [exists "u" | exists "g"]; split; reflexivity.
    + left. reflexivity.
  - apply (@unreadable_reference_raises Examples.long_reference Examples.test
             Examples.catalog_without_u "mock" "/out" initial_vars 0%nat [1%nat]
             Examples.no_outputs "u-g" "SDSS_u" "SDSS_g" ValueError).
    + split; [reflexivity |].
      split; [exists "u" | exists "g"]; split; reflexivity.
    + right. exists [[0; 0.25]; [1; 0.5]; [2; 0.25]]%float, 2%nat.
      split; [reflexivity |]. split; [cbn; lia |]. split; [lia |].
      split; [| reflexivity]. repeat constructor.
Defined.

(** The translation table without g: the colour u-g raises [KeyError]. *)
Lemma missing_translation_raises_witness :
  @loop_body Examples.collaborators Examples.test_without_g Examples.catalog
     "mock" "/out" initial_vars 0 Examples.no_outputs
    = (Examples.no_outputs, Raise KeyError) /\
  @color_loop Examples.collaborators Examples.test_without_g Examples.catalog
     "mock" "/out" [0; 1]%nat initial_vars Examples.no_outputs
    = (Examples.no_outputs, Raise KeyError).
Proof.
  apply (@missing_translation_raises Examples.collaborators Examples.test_without_g
           Examples.catalog "mock" "/out" initial_vars 0%nat [1%nat]
           Examples.no_outputs "u-g" "u" "g").
  - reflexivity.
  - reflexivity.
  - reflexivity.
  - right. vm_compute. reflexivity.
Defined.

(** ** Bin centers and the closed form of the CDF *)

Lemma lookup_map {A B : Type} (f : A -> B) (l : list A) (i : nat) :
  map f l !! i = f <$> (l !! i).
Proof.
  revert i. induction l as [| x l IH]; intros [| i]; cbn; auto.
Qed.

(** X8. Each bin center returned by the histogram builder is the midpoint
    [(bins[i+1] + bins[i]) / 2] of two consecutive edges of
    [np.linspace(lo, hi, num)] (line 349). *)
Theorem bin_centers_are_midpoints (mag1 mag2 : list float) (lo hi : float) (num : nat)
    (binctr hist : list float) (i : nat) :
  color_histogram mag1 mag2 (lo, hi, num) = Ok (binctr, hist) ->
  (i < num - 1)%nat ->
  exists e0 e1 : float,
    np.linspace lo hi num !! i = Some e0 /\
    np.linspace lo hi num !! S i = Some e1 /\
    binctr !! i = Some (PrimFloat.div (PrimFloat.add e1 e0) 2%float).
Proof.
  unfold color_histogram. intros E Hi.
  apply rbind_Ok in E as (color & _ & E).
  apply rbind_Ok in E as (counts & _ & E).
  rewrite broadcast_aligned in E
    by (rewrite length_drop, length_take, !length_linspace; lia).
  cbn [rbind] in E. injection E as <- _.
  destruct (lookup_lt_is_Some_2 (np.linspace lo hi num) i) as [e0 He0];
    [rewrite length_linspace; lia |].
  destruct (lookup_lt_is_Some_2 (np.linspace lo hi num) (S i)) as [e1 He1];
    [rewrite length_linspace; lia |].
  exists e0, e1. split; [exact He0 |]. split; [exact He1 |].
  rewrite lookup_map, lookup_zip_with, lookup_drop, lookup_take_lt
    by (rewrite length_linspace; lia).
  cbn [Nat.add]. rewrite He1, He0. reflexivity.
Qed.

(** The four centers over the five edges of [(-1, 4, 5)]. *)
Lemma bin_centers_are_midpoints_witness :
  exists e0 e1 : float,
    np.linspace (PrimFloat.opp 1%float) 4%float 5 !! 3%nat = Some e0 /\
    np.linspace (PrimFloat.opp 1%float) 4%float 5 !! 4%nat = Some e1 /\
    [-0.375; 0.875; 2.125; 3.375]%float !! 3%nat
      = Some (PrimFloat.div (PrimFloat.add e1 e0) 2%float).
Proof.
  apply (bin_centers_are_midpoints [1; 2; 3]%float [0.5; 1; 2]%float
           (PrimFloat.opp 1%float) 4%float 5%nat
           [-0.375; 0.875; 2.125; 3.375]%float [0; 1; 0; 0]%float 3%nat).
  - vm_compute. reflexivity.
  - cbn. lia.
Defined.

(** X9. The constructed CDF in closed form: for a histogram [h0, t...] entry
    [i] is [h0] plus the first [i] entries of [t], added from the left in
    binary64, so the last entry is the left-to-right sum of the histogram. *)
Theorem build_cdf_closed_form (h0 : float) (t : list float) :
  exists cdf : list float,
    build_cdf (h0 :: t) = Ok cdf /\
    (forall i : nat, (i <= length t)%nat ->
       cdf !! i = Some (fold_left PrimFloat.add (take i t) h0)) /\
    last cdf = Some (fold_left PrimFloat.add t h0).
Proof.
  unfold build_cdf.
  cbn [np.getitem lookup list_lookup rbind].
  rewrite setitem_Ok by (rewrite length_zeros; cbn; lia). cbn [rbind].
  destruct (cdf_loop_upto (h0 :: t) (length (h0 :: t) - 1)
              (<[0%nat := h0]> (np.zeros (length (h0 :: t))))) as (cdf & Hrun & Hinv).
  - cbn. lia.
  - split; [| split].
    + rewrite length_insert. apply length_zeros.
    + reflexivity.
    + intros i Hi. lia.
  - exists cdf. split; [exact Hrun |].
    destruct Hinv as (Hlen & H0 & Hrec).
    assert (forall i : nat, (i <= length t)%nat ->
              cdf !! i = Some (fold_left PrimFloat.add (take i t) h0)) as Hclosed.
    { induction i as [| i IH]; intros Hi.
      - rewrite H0. reflexivity.
      - destruct (Hrec (S i)) as (p & x & Hp & Hx & Hc); [cbn; lia |].
        replace (S i - 1)%nat with i in Hp by lia.
        rewrite IH in Hp by lia. injection Hp as <-.
        cbn in Hx. rewrite (take_S_r t i x Hx), fold_left_app. exact Hc. }
    split; [exact Hclosed |].
    rewrite last_lookup, Hlen. cbn [length Nat.pred].
    rewrite Hclosed by lia. now rewrite firstn_all.
Qed.

(** ** The accounting on the example catalogs *)

(** The catalog without the u band: one colour compared, one skipped. *)
Lemma run_accounting_witness :
  let run := @run_validation_test Examples.collaborators Examples.test
               Examples.catalog_without_u "mock" "/out" Examples.no_outputs in
  length (summary_of "/out" run.1)
    = (length (summary_of "/out" Examples.no_outputs)
       + 3 * declared_colors Examples.test Examples.catalog_without_u)%nat /\
  length (log_of "/out" run.1)
    = (length (log_of "/out" Examples.no_outputs)
       + (length (colors Examples.test)
          - declared_colors Examples.test Examples.catalog_without_u))%nat /\
  (PASSED = PASSED <-> (0 < declared_colors Examples.test Examples.catalog_without_u)%nat).
Proof.
  apply (@run_accounting Examples.collaborators Examples.test
           Examples.catalog_without_u "mock" "/out" Examples.no_outputs
           (@run_validation_test Examples.collaborators Examples.test
              Examples.catalog_without_u "mock" "/out" Examples.no_outputs).1
           {| result_status := PASSED; result_message := "" |}).
  - vm_compute. reflexivity.
  - discriminate.
Defined.

(** The example catalog: the run is PASSED and saves the CDF figure. *)
Lemma run_saves_figures_witness :
  figures (@run_validation_test Examples.collaborators Examples.test
             Examples.catalog "mock" "/out" Examples.old_outputs).1
  = (figures Examples.old_outputs ++ saved_figures Examples.test "/out" PASSED)%list.
Proof.
  apply (@run_saves_figures Examples.collaborators Examples.test
           Examples.catalog "mock" "/out" Examples.old_outputs
           (@run_validation_test Examples.collaborators Examples.test
              Examples.catalog "mock" "/out" Examples.old_outputs).1
           {| result_status := PASSED; result_message := "" |}).
  vm_compute. reflexivity.
Defined.

(** The colour g-r of the catalog whose r band holds only 0: the sentinel
    and one log entry. *)
Lemma color_distribution_effect_witness :
  color_distribution Examples.test Examples.dark_catalog "SDSS_g" "SDSS_r"
      cdf_bin_args "/out" Examples.no_outputs
    = (logged "/out" ("No object in the magnitude range!" +:+ newline)
         Examples.no_outputs,
       Ok (None, None)) /\
  exists mask : list bool,
    validity_mask Examples.test Examples.dark_catalog
      [1; 1; 2; 0.5; 0.25]%float [0; 0; 0; 0; 0]%float = Ok mask /\
    np.sum_bool mask = 0%nat.
Proof.
  assert (color_distribution Examples.test Examples.dark_catalog "SDSS_g" "SDSS_r"
            cdf_bin_args "/out" Examples.no_outputs
          = (logged "/out" ("No object in the magnitude range!" +:+ newline)
               Examples.no_outputs,
             Ok (None, None))) as Hrun by (vm_compute; reflexivity).
  split; [exact Hrun |].
  destruct (color_distribution_effect Examples.test Examples.dark_catalog
              "SDSS_g" "SDSS_r" cdf_bin_args "/out" Examples.no_outputs _ _ Hrun)
    as [(_ & _ & [Hnil | Hmask]) | (b & h & mask & Hr & _)].
  - discriminate.
  - exact Hmask.
  - discriminate.
Defined.

(** The same colour in the loop: the body returns SKIPPED, the summary is
    as the colour u-g left it. *)
Lemma early_return_is_cdf_skip_witness :
  let o := (@color_loop Examples.collaborators Examples.test Examples.dark_catalog
              "mock" "/out" [0%nat] initial_vars Examples.no_outputs).1 in
  let o' := (@loop_body Examples.collaborators Examples.test Examples.dark_catalog
               "mock" "/out" initial_vars 1 o).1 in
  summary_of "/out" o' = summary_of "/out" o /\ figures o' = figures o.
Proof.
  cbn zeta.
  destruct (@early_return_is_cdf_skip Examples.collaborators Examples.test
              Examples.dark_catalog "mock" "/out" initial_vars 1%nat
              (@color_loop Examples.collaborators Examples.test Examples.dark_catalog
                 "mock" "/out" [0%nat] initial_vars Examples.no_outputs).1
              (@loop_body Examples.collaborators Examples.test Examples.dark_catalog
                 "mock" "/out" initial_vars 1
                 (@color_loop Examples.collaborators Examples.test
                    Examples.dark_catalog "mock" "/out" [0%nat] initial_vars
                    Examples.no_outputs).1).1
              skipped) as (_ & Hs & Hf & _).
  - vm_compute. reflexivity.
  - split; [exact Hs | exact Hf].
Defined.

(** ** The constructor *)

Lemma bad_color_false (color : string) :
  bad_color color = false <-> well_formed_color color.
Proof.
  unfold bad_color, well_formed_color.
  rewrite orb_false_iff, !negb_false_iff, Nat.eqb_eq, bool_decide_eq_true.
  reflexivity.
Qed.

Lemma check_colors_Ok (colors : list string) :
  check_colors colors = Ok tt <-> Forall well_formed_color colors.
Proof.
  induction colors as [| color rest IH]; cbn.
  - split; [constructor | reflexivity].
  - destruct (bad_color color) eqn:Hbad.
    + split; [discriminate |]. intros Hall. apply Forall_cons in Hall as [Hc _].
      apply bad_color_false in Hc. congruence.
    + rewrite IH, Forall_cons. apply bad_color_false in Hbad. tauto.
Qed.

Lemma check_colors_Raise (colors : list string) (e : exn) :
  check_colors colors = Raise e -> e = ValueError.
Proof.
  induction colors as [| color rest IH]; cbn; [discriminate |].
  destruct (bad_color color); [intros E; now inversion E | exact IH].
Qed.

Lemma check_bins_Ok (color_bin_args : list color_bin) (bins : list bin_spec) :
  check_bins color_bin_args = Ok bins ->
  length bins = length color_bin_args /\
  Forall (fun t => tuple_len t = 3%nat) color_bin_args.
Proof.
  revert bins. induction color_bin_args as [| t rest IH]; intros bins E.
  - inversion E. split; [reflexivity | constructor].
  - cbn in E. destruct t; cbn in E; try discriminate.
    apply rbind_Ok in E as (bs & Hbs & E). injection E as <-.
    apply IH in Hbs as [Hlen Hall]. cbn. split; [now rewrite Hlen |].
    constructor; [reflexivity | exact Hall].
Qed.

Lemma check_bins_valid (color_bin_args : list color_bin) :
  Forall (fun t => tuple_len t = 3%nat) color_bin_args ->
  exists bins : list bin_spec, check_bins color_bin_args = Ok bins.
Proof.
  induction 1 as [| t rest Ht _ [bins IH]]; [exists []; reflexivity |].
  destruct t; cbn in Ht; try discriminate.
  exists ((lo, hi, num) :: bins). cbn. now rewrite IH.
Qed.

Lemma check_bins_Raise (color_bin_args : list color_bin) (e : exn) :
  check_bins color_bin_args = Raise e -> e = ValueError.
Proof.
  induction color_bin_args as [| t rest IH]; cbn; [discriminate |].
  destruct (negb (tuple_len t =? 3)%nat); [intros E; now inversion E |].
  destruct t; try (intros E; now inversion E).
  destruct (check_bins rest); cbn; [discriminate |].
  intros E. injection E as <-. now apply IH.
Qed.

(** What a successful constructor call went through. *)
Lemma init_Ok (super_init : kwargs -> result string) (test_q pdf_q : bool)
    (kw : kwargs) (self : ColorDistributionTest) :
  init super_init test_q pdf_q kw = Ok self ->
  super_init kw = Ok (base_data_dir self) /\
  kw_data_dir kw = Some (_data_dir self) /\
  kw_data_name kw = Some (_data_name self) /\
  kw_colors kw = Some (colors self) /\
  check_colors (colors self) = Ok tt /\
  match kw_color_bin_args kw with
  | Some tuples =>
      length tuples = length (colors self) /\
      check_bins tuples = Ok (color_bin_args self)
  | None => pdf_q = false /\ color_bin_args self = []
  end /\
  limiting_band self = kw_limiting_band kw /\
  limiting_mag self = kw_limiting_mag kw /\
  kw_zlo kw = Some (zlo_obs self) /\
  kw_zhi kw = Some (zhi_obs self) /\
  zlo_mock self = (if test_q then 0%float else zlo_obs self) /\
  zhi_mock self = (if test_q then 1%float else zhi_obs self) /\
  kw_translate kw = Some (translate self) /\
  plot_pdf_q self = pdf_q.
Proof.
  unfold init. intros E.
  apply rbind_Ok in E as (base & Hbase & E).
  apply rbind_Ok in E as (data_dir & Hdir & E).
  apply rbind_Ok in E as (data_name & Hname & E).
  apply rbind_Ok in E as (cs & Hcs & E).
  apply rbind_Ok in E as ([] & Hcheck & E).
  apply rbind_Ok in E as (bins & Hbins & E).
  apply rbind_Ok in E as ([[[zm zM] zo] zO] & Hz & E).
  apply rbind_Ok in E as (tr & Htr & E).
  injection E as <-. cbn.
  destruct (kw_data_dir kw); [| discriminate]. injection Hdir as ->.
  destruct (kw_data_name kw); [| discriminate]. injection Hname as ->.
  destruct (kw_colors kw); [| discriminate]. injection Hcs as ->.
  destruct (kw_translate kw); [| discriminate]. injection Htr as ->.
  assert (kw_zlo kw = Some zo /\ kw_zhi kw = Some zO /\
          zm = (if test_q then 0%float else zo) /\
          zM = (if test_q then 1%float else zO)) as (Hzlo & Hzhi & -> & ->).
  { destruct test_q, (kw_zlo kw), (kw_zhi kw); cbn in Hz; try discriminate;
      injection Hz as <- <- <- <-; auto. }
  repeat (split; [first [reflexivity | assumption] |]).
  split; [| repeat (split; [first [reflexivity | assumption] |]); reflexivity].
  destruct (kw_color_bin_args kw) as [cba |].
  - destruct (Nat.eqb_spec (length cba) (length cs)); cbn in Hbins; [| discriminate].
    auto.
  - destruct pdf_q; [discriminate |]. injection Hbins as <-. auto.
Qed.

(** X10. The constructor succeeds exactly on valid keyword arguments: the
    base class accepts them, [data_dir], [data_name], [zlo], [zhi] and
    [translate] are given, [colors] is given and every colour has three
    characters with '-' in the middle, and [color_bin_args] is one triple per
    colour when given and is given when [plot_pdf_q] is set; [test_q] has
    no say in it. *)
Theorem init_succeeds_iff (super_init : kwargs -> result string) (test_q pdf_q : bool)
    (kw : kwargs) :
  (exists self : ColorDistributionTest, init super_init test_q pdf_q kw = Ok self)
  <-> valid_kwargs super_init pdf_q kw.
Proof.
  split.
  - intros [self E]. apply init_Ok in E
      as (Hb & Hd & Hn & Hc & Hck & Hbins & _ & _ & Hzl & Hzh & _ & _ & Ht & _).
    unfold valid_kwargs. rewrite Hd, Hn, Hzl, Hzh, Ht.
    split; [eauto |]. do 2 (split; [eauto |]).
    split; [| repeat split; eauto].
    exists (colors self). split; [exact Hc |].
    split; [now apply check_colors_Ok |].
    destruct (kw_color_bin_args kw) as [tuples |].
    + destruct Hbins as [Hlen Hbins]. split; [exact Hlen |].
      now apply check_bins_Ok in Hbins.
    + tauto.
  - intros ([base Hb] & [dd Hd] & [dn Hn] & (cs & Hc & Hwf & Hbins)
            & [zl Hzl] & [zh Hzh] & [tr Ht]).
    unfold init. rewrite Hb, Hd, Hn, Hc, Hzl, Hzh, Ht. cbn [rbind kw_getitem kw_required].
    apply check_colors_Ok in Hwf. rewrite Hwf. cbn [rbind].
    destruct (kw_color_bin_args kw) as [tuples |].
    + destruct Hbins as [Hlen Hall]. rewrite Hlen, Nat.eqb_refl. cbn [negb].
      destruct (check_bins_valid tuples Hall) as [bins ->].
      destruct test_q; cbn; eauto.
    + rewrite Hbins. destruct test_q; cbn; eauto.
Qed.

Lemma string_get_lt (s : string) (i : nat) :
  (i < String.length s)%nat -> exists c : ascii, String.get i s = Some c.
Proof.
  revert i. induction s as [| a s IH]; intros i Hi; cbn in Hi; [lia |].
  destruct i as [| i]; cbn; [eauto |]. apply IH. lia.
Qed.

(** X11. On a test the constructor built, the indexing of the colour loop
    cannot fail: every colour has a character at positions 0 and 2 (lines
    167-168), and when [plot_pdf_q] is set there is a bin triple for every
    colour index (line 264). *)
Theorem constructed_test_indexing (super_init : kwargs -> result string)
    (test_q pdf_q : bool) (kw : kwargs) (self : ColorDistributionTest) (index : nat) :
  init super_init test_q pdf_q kw = Ok self ->
  (index < length (colors self))%nat ->
  exists color c0 c2 : string,
    colors self !! index = Some color /\
    str_getitem color 0 = Ok c0 /\
    str_getitem color 2 = Ok c2 /\
    (plot_pdf_q self = true ->
     exists bin_args : bin_spec, np.getitem (color_bin_args self) index = Ok bin_args).
Proof.
  intros E Hi. apply init_Ok in E
    as (_ & _ & _ & _ & Hck & Hbins & _ & _ & _ & _ & _ & _ & _ & Hpdf).
  destruct (lookup_lt_is_Some_2 (colors self) index Hi) as [color Hcolor].
  apply check_colors_Ok in Hck.
  rewrite Forall_lookup in Hck. destruct (Hck index color Hcolor) as [Hlen _].
  destruct (string_get_lt color 0) as [a0 H0]; [lia |].
  destruct (string_get_lt color 2) as [a2 H2]; [lia |].
  exists color, (String a0 EmptyString), (String a2 EmptyString).
  split; [exact Hcolor |]. unfold str_getitem. rewrite H0, H2.
  split; [reflexivity |]. split; [reflexivity |].
  intros Hq. rewrite Hpdf in Hq.
  destruct (kw_color_bin_args kw) as [tuples |];
    [| destruct Hbins as [Hf _]; congruence].
  destruct Hbins as [Hlen' Hbins]. apply check_bins_Ok in Hbins as [Hlb _].
  destruct (lookup_lt_is_Some_2 (color_bin_args self) index) as [b Hb]; [lia |].
  exists b. now apply getitem_Ok.
Qed.

(** X12. The redshift windows of a constructed test: the observational
    window is the given [zlo], [zhi]; the mock window is [0, 1] in test mode
    and the given window otherwise, whatever [plot_pdf_q] is; the limiting
    band and magnitude are taken over as given, each on its own. *)
Theorem init_redshift_windows (super_init : kwargs -> result string)
    (test_q pdf_q : bool) (kw : kwargs) (self : ColorDistributionTest) :
  init super_init test_q pdf_q kw = Ok self ->
  kw_zlo kw = Some (zlo_obs self) /\
  kw_zhi kw = Some (zhi_obs self) /\
  (test_q = true -> zlo_mock self = 0%float /\ zhi_mock self = 1%float) /\
  (test_q = false -> zlo_mock self = zlo_obs self /\ zhi_mock self = zhi_obs self) /\
  limiting_band self = kw_limiting_band kw /\
  limiting_mag self = kw_limiting_mag kw.
Proof.
  intros E. apply init_Ok in E
    as (_ & _ & _ & _ & _ & _ & Hlb & Hlm & Hzl & Hzh & Hml & Hmh & _ & _).
  rewrite Hml, Hmh.
  split; [exact Hzl |]. split; [exact Hzh |].
  split; [intros ->; split; reflexivity |].
  split; [intros ->; split; reflexivity |].
  split; assumption.
Qed.

(** X13. With keyword arguments that pass every earlier check of the
    constructor (the base class accepts them, [data_dir] and [data_name] are
    given, the colours are given and well formed, the bin tuples are one
    triple per colour or are not needed), a missing [zlo] or [zhi] raises
    [KeyError] in test mode and [ValueError] otherwise, whether or not a
    translation table is given. *)
Theorem missing_redshift_bound_raises (super_init : kwargs -> result string)
    (test_q pdf_q : bool) (kw : kwargs) (base : string) (names : list string) :
  super_init kw = Ok base ->
  is_Some (kw_data_dir kw) ->
  is_Some (kw_data_name kw) ->
  kw_colors kw = Some names ->
  Forall well_formed_color names ->
  match kw_color_bin_args kw with
  | Some tuples =>
      length tuples = length names /\ Forall (fun t => tuple_len t = 3%nat) tuples
  | None => pdf_q = false
  end ->
  kw_zlo kw = None \/ kw_zhi kw = None ->
  init super_init test_q pdf_q kw = Raise (if test_q then KeyError else ValueError).
Proof.
  intros Hbase [dir Hdir] [name Hname] Hcolors Hwf Hbins Hz.
  unfold init. rewrite Hbase, Hdir, Hname, Hcolors. cbn [rbind kw_getitem kw_required].
  apply check_colors_Ok in Hwf. rewrite Hwf. cbn [rbind].
  assert (exists bins : list bin_spec,
            match kw_color_bin_args kw with
            | Some color_bin_args =>
                if negb (length color_bin_args =? length names)%nat
                then Raise ValueError
                else check_bins color_bin_args
            | None => if pdf_q then Raise ValueError else Ok []
            end = Ok bins) as [bins ->].
  { destruct (kw_color_bin_args kw) as [tuples |].
    - destruct Hbins as [Hlen Hall]. rewrite Hlen, Nat.eqb_refl. cbn [negb].
      now apply check_bins_valid.
    - rewrite Hbins. eauto. }
  cbn [rbind].
  destruct test_q; destruct Hz as [-> | ->]; cbn [rbind kw_getitem kw_required];
    try reflexivity; destruct (kw_zlo kw); reflexivity.
Qed.

(** The example keyword arguments in test mode with PDFs. *)
Lemma constructed_test_indexing_witness :
  init Examples.base_init true true Examples.keywords = Ok Examples.constructed /\
  exists color c0 c2 : string,
    colors Examples.constructed !! 1%nat = Some color /\
    str_getitem color 0 = Ok c0 /\
    str_getitem color 2 = Ok c2 /\
    (plot_pdf_q Examples.constructed = true ->
     exists bin_args : bin_spec,
       np.getitem (color_bin_args Examples.constructed) 1 = Ok bin_args).
Proof.
  split; [vm_compute; reflexivity |].
  apply (constructed_test_indexing Examples.base_init true true Examples.keywords
           Examples.constructed 1%nat).
  - vm_compute. reflexivity.
  - cbn. lia.
Defined.

Lemma init_redshift_windows_witness :
  kw_zlo Examples.keywords = Some (zlo_obs Examples.constructed) /\
  kw_zhi Examples.keywords = Some (zhi_obs Examples.constructed) /\
  (true = true ->
   zlo_mock Examples.constructed = 0%float /\ zhi_mock Examples.constructed = 1%float) /\
  (true = false ->
   zlo_mock Examples.constructed = zlo_obs Examples.constructed /\
   zhi_mock Examples.constructed = zhi_obs Examples.constructed) /\
  limiting_band Examples.constructed = kw_limiting_band Examples.keywords /\
  limiting_mag Examples.constructed = kw_limiting_mag Examples.keywords.
Proof.
  apply (init_redshift_windows Examples.base_init true true Examples.keywords
           Examples.constructed).
  vm_compute. reflexivity.
Defined.

(** Without [zlo], test mode raises [KeyError] and the normal mode
    [ValueError]. *)
Lemma missing_redshift_bound_raises_witness :
  init Examples.base_init true true Examples.keywords_without_zlo = Raise KeyError /\
  init Examples.base_init false true Examples.keywords_without_zlo = Raise ValueError.
Proof.
  assert (Forall well_formed_color ["u-g"; "g-r"]) as Hwf
    by (repeat constructor).
  split.
  - apply (missing_redshift_bound_raises Examples.base_init true true
             Examples.keywords_without_zlo "/data" ["u-g"; "g-r"]);
      try reflexivity; try (eexists; reflexivity); try exact Hwf.
    + split; [reflexivity | repeat constructor].
    + left. reflexivity.
  - apply (missing_redshift_bound_raises Examples.base_init false true
             Examples.keywords_without_zlo "/data" ["u-g"; "g-r"]);
      try reflexivity; try (eexists; reflexivity); try exact Hwf.
    + split; [reflexivity | repeat constructor].
    + left. reflexivity.
Defined.

(** ** ListAvailableQuantities *)

Lemma ascii_compare_trans_le (x y z : ascii) :
  Ascii.compare x y <> Gt -> Ascii.compare y z <> Gt -> Ascii.compare x z <> Gt.
Proof.
  unfold Ascii.compare. rewrite !N.compare_gt_iff. lia.
Qed.

Lemma string_compare_trans_le (a b c : string) :
  String.compare a b <> Gt -> String.compare b c <> Gt -> String.compare a c <> Gt.
Proof.
  revert b c. induction a as [| x a IH]; intros [| y b] [| z c]; cbn;
    try congruence.
  destruct (Ascii.compare x y) eqn:Exy; [| | congruence];
    destruct (Ascii.compare y z) eqn:Eyz; try congruence.
  - apply Ascii.compare_eq_iff in Exy as ->. rewrite Eyz. apply IH.
  - apply Ascii.compare_eq_iff in Exy as ->. now rewrite Eyz.
  - apply Ascii.compare_eq_iff in Eyz as <-. now rewrite Exy.
  - intros _ _.
    assert (Ascii.compare x z = Lt) as ->; [| discriminate].
    unfold Ascii.compare in *. rewrite N.compare_lt_iff in *. lia.
Qed.

#[local] Instance str_le_total : Total str_le.
Proof. intros a b. apply String.leb_total. Qed.

#[local] Instance str_le_trans : Transitive str_le.
Proof.
  intros a b c. unfold str_le, String.leb. intros Hab Hbc.
  pose proof (string_compare_trans_le a b c) as Ht.
  destruct (String.compare a b), (String.compare b c), (String.compare a c);
    try reflexivity; try discriminate; exfalso; apply Ht; congruence.
Qed.

#[local] Instance str_le_antisym : AntiSymm eq str_le.
Proof. intros a b. apply String.leb_antisym. Qed.

Lemma write_quantities_run (filename : string) (quantities content : list string)
    (o : outputs) :
  files o !! filename = Some content ->
  ListAvailableQuantities.write_quantities filename quantities o
  = ({| files := <[filename :=
                     (content ++ flat_map (fun q => [q; newline]) quantities)%list]>
                  (files o);
        figures := figures o |}, Ok tt).
Proof.
  revert content o. induction quantities as [| q rest IH]; intros content o Hc.
  - cbn. rewrite app_nil_r, insert_id by exact Hc. now destruct o.
  - cbn [ListAvailableQuantities.write_quantities flat_map].
    unfold bind at 1, append_file at 1. unfold bind at 1, append_file at 1.
    cbn [files figures]. rewrite lookup_insert_eq, insert_insert_eq, Hc.
    cbn [default].
    rewrite (IH ((content ++ [q]) ++ [newline])%list)
      by (cbn [files]; apply lookup_insert_eq).
    cbn [files figures app]. rewrite insert_insert_eq, <- !app_assoc.
    reflexivity.
Qed.

Lemma save_quantities_run (catalog_name : string) (quantities : list string)
    (filename : string) (o : outputs) :
  ListAvailableQuantities._save_quantities catalog_name quantities filename o
  = ({| files := <[filename :=
                     quantity_lines catalog_name (merge_sort str_le quantities)]>
                  (files o);
        figures := figures o |}, Ok tt).
Proof.
  unfold ListAvailableQuantities._save_quantities, quantity_lines.
  unfold bind at 1, ListAvailableQuantities.open_w at 1.
  unfold bind at 1, append_file at 1. cbn [files figures].
  rewrite lookup_insert_eq, insert_insert_eq. cbn [default app].
  rewrite (write_quantities_run _ _ ["# " +:+ catalog_name +:+ newline])
    by (cbn; apply lookup_insert_eq).
  cbn [files figures app]. now rewrite insert_insert_eq.
Qed.

(** X14. [_save_quantities] replaces the file: whatever it held, it now
    holds the header line followed by the given quantities, each followed by
    a newline, in ascending order and each as often as it was given; no other
    file changes. *)
Theorem save_quantities_overwrites (catalog_name : string) (quantities : list string)
    (filename : string) (o : outputs) :
  exists sorted : list string,
    ListAvailableQuantities._save_quantities catalog_name quantities filename o
    = ({| files := <[filename := quantity_lines catalog_name sorted]> (files o);
          figures := figures o |}, Ok tt) /\
    Sorted str_le sorted /\
    sorted ≡ₚ quantities.
Proof.
  exists (merge_sort str_le quantities).
  split; [apply save_quantities_run |].
  split; [apply Sorted_merge_sort; apply _ | apply merge_sort_Permutation].
Qed.

(** X15. The file written does not depend on the order in which the reader
    lists its quantities: two listings that are rearrangements of one
    another give the same file. *)
Theorem save_quantities_order_independent (catalog_name : string)
    (quantities1 quantities2 : list string) (filename : string) (o : outputs) :
  quantities1 ≡ₚ quantities2 ->
  ListAvailableQuantities._save_quantities catalog_name quantities1 filename o
  = ListAvailableQuantities._save_quantities catalog_name quantities2 filename o.
Proof.
  intros Hperm. rewrite !save_quantities_run.
  replace (merge_sort str_le quantities1) with (merge_sort str_le quantities2);
    [reflexivity |].
  apply (Sorted_unique str_le).
  - apply Sorted_merge_sort; apply _.
  - apply Sorted_merge_sort; apply _.
  - now rewrite !merge_sort_Permutation.
Qed.

Lemma save_quantities_order_independent_witness :
  ListAvailableQuantities._save_quantities "mock"
    ["stellar_mass"; "SDSS_u"; "redshift"] "/out/quantities.txt" Examples.old_outputs
  = ListAvailableQuantities._save_quantities "mock"
      ["redshift"; "stellar_mass"; "SDSS_u"] "/out/quantities.txt" Examples.old_outputs.
Proof.
  apply (save_quantities_order_independent "mock"
           ["stellar_mass"; "SDSS_u"; "redshift"]
           ["redshift"; "stellar_mass"; "SDSS_u"]
           "/out/quantities.txt" Examples.old_outputs).
  change ([ "stellar_mass"; "SDSS_u"; "redshift" ]
          ≡ₚ ["redshift"] ++ ["stellar_mass"; "SDSS_u"]).
  change (["stellar_mass"; "SDSS_u"] ++ ["redshift"]
          ≡ₚ ["redshift"] ++ ["stellar_mass"; "SDSS_u"]).
  apply Permutation_app_comm.
Defined.

(** X16. [ListAvailableQuantities.run_validation_test] always returns score
    0 with [passed=True]; it replaces quantities.txt and
    native_quantities.txt under [base_output_dir] and touches nothing else,
    and running it again on its own output changes nothing. *)
Theorem list_quantities_run (galaxy_catalog : ListAvailableQuantities.reader)
    (catalog_name base_output_dir : string) (o : outputs) :
  let run := ListAvailableQuantities.run_validation_test galaxy_catalog catalog_name
               base_output_dir in
  let all := path_join base_output_dir "quantities.txt" in
  let native := path_join base_output_dir "native_quantities.txt" in
  (run o).2
    = Ok {| ListAvailableQuantities.score := 0; ListAvailableQuantities.passed := true |} /\
  files (run o).1 !! all
    = Some (quantity_lines catalog_name
              (merge_sort str_le
                 (ListAvailableQuantities.list_all_quantities galaxy_catalog))) /\
  files (run o).1 !! native
    = Some (quantity_lines catalog_name
              (merge_sort str_le
                 (ListAvailableQuantities.list_all_native_quantities galaxy_catalog))) /\
  (forall path : string,
     path <> all -> path <> native -> files (run o).1 !! path = files o !! path) /\
  figures (run o).1 = figures o /\
  run (run o).1 = run o.
Proof.
  intros run all native.
  assert (all <> native) as Hne.
  { intros E. apply path_join_relative_inj in E; [discriminate | reflexivity ..]. }
  assert (forall o0 : outputs,
            run o0
            = ({| files :=
                    <[native :=
                        quantity_lines catalog_name
                          (merge_sort str_le
                             (ListAvailableQuantities.list_all_native_quantities
                                galaxy_catalog))]>
                      (<[all :=
                           quantity_lines catalog_name
                             (merge_sort str_le
                                (ListAvailableQuantities.list_all_quantities
                                   galaxy_catalog))]>
                         (files o0));
                  figures := figures o0 |},
               Ok {| ListAvailableQuantities.score := 0;
                     ListAvailableQuantities.passed := true |})) as Hrun.
  { intros o0. unfold run, ListAvailableQuantities.run_validation_test.
    unfold bind at 1. rewrite save_quantities_run.
    unfold bind at 1. rewrite save_quantities_run. reflexivity. }
  rewrite !Hrun. cbn [fst snd files figures].
  split; [reflexivity |].
  split; [rewrite lookup_insert_ne by congruence; apply lookup_insert_eq |].
  split; [apply lookup_insert_eq |].
  split; [intros path Ha Hn; rewrite !lookup_insert_ne by congruence; reflexivity |].
  split; [reflexivity |].
  f_equal. f_equal.
  rewrite (insert_insert_ne _ all native) by exact Hne.
  now rewrite !insert_insert_eq.
Qed.

(** ** Completeness of the mask and the indices of the loop *)

Lemma lookup_greater_intro (a : list float) (c x : float) (j : nat) :
  a !! j = Some x -> PrimFloat.ltb c x = true -> np.greater a c !! j = Some true.
Proof.
  intros Ha Hx. unfold np.greater. rewrite lookup_map, Ha. cbn. now rewrite Hx.
Qed.

Lemma lookup_less_intro (a : list float) (c x : float) (j : nat) :
  a !! j = Some x -> PrimFloat.ltb x c = true -> np.less a c !! j = Some true.
Proof.
  intros Ha Hx. unfold np.less. rewrite lookup_map, Ha. cbn. now rewrite Hx.
Qed.

Lemma lookup_and_intro (m1 m2 : list bool) (j : nat) :
  m1 !! j = Some true -> m2 !! j = Some true ->
  zip_with andb m1 m2 !! j = Some true.
Proof.
  intros H1 H2. apply lookup_zip_with_Some. exists true, true. auto.
Qed.

(** X17. The mask keeps every valid galaxy: on aligned arrays, a galaxy
    whose two magnitudes lie strictly between 0 and 50, and whose limiting
    magnitude is below the limit when a limiting band is configured, is at a
    true position of the mask of lines 325 and 330. *)
Theorem valid_galaxies_are_retained (self : ColorDistributionTest)
    (galaxy_catalog : galaxy_catalog) (band1 band2 : string) (mask : list bool)
    (j : nat) (x1 x2 : float) :
  aligned self galaxy_catalog band1 band2 ->
  let mag1 := get_quantities galaxy_catalog band1 (zlo_mock self) (zhi_mock self) in
  let mag2 := get_quantities galaxy_catalog band2 (zlo_mock self) (zhi_mock self) in
  validity_mask self galaxy_catalog mag1 mag2 = Ok mask ->
  mag1 !! j = Some x1 ->
  mag2 !! j = Some x2 ->
  in_range x1 ->
  in_range x2 ->
  (forall (band name : string) (lim : float),
     limiting_band self = Some band ->
     translate self !! band = Some name ->
     limiting_mag self = Some lim ->
     exists xl : float,
       get_quantities galaxy_catalog name (zlo_mock self) (zhi_mock self) !! j = Some xl /\
       PrimFloat.ltb xl lim = true) ->
  mask !! j = Some true.
Proof.
  intros [Hal2 Hallim] mag1 mag2 Hmask H1 H2 [Hg1 Hl1] [Hg2 Hl2] Hlim.
  fold mag1 in Hal2, Hallim. fold mag2 in Hal2.
  unfold validity_mask in Hmask.
  destruct (limiting_band self) as [band |] eqn:Hband.
  - unfold dict_getitem in Hmask.
    destruct (translate self !! band) as [name |] eqn:Hname; [| discriminate].
    cbn [rbind] in Hmask. specialize (Hallim band name eq_refl Hname).
    destruct (limiting_mag self) as [lim |] eqn:Hmag; [| discriminate].
    destruct (Hlim band name lim eq_refl Hname eq_refl) as (xl & Hxl & Hlt).
    revert Hmask. do 4 and_step. intros E. injection E as <-.
    repeat apply lookup_and_intro;
      eauto using lookup_greater_intro, lookup_less_intro.
  - revert Hmask. do 3 and_step. intros E. injection E as <-.
    repeat apply lookup_and_intro;
      eauto using lookup_greater_intro, lookup_less_intro.
Qed.

(** The first galaxy of the example catalog under the cut r < 2.5. *)
Lemma valid_galaxies_are_retained_witness :
  [true; true; false; false; false] !! 0%nat = Some true.
Proof.
  apply (valid_galaxies_are_retained Examples.limited_test Examples.catalog
           "SDSS_u" "SDSS_g" [true; true; false; false; false] 0%nat
           1.5%float 1%float).
  - split; [reflexivity |].
    intros band name Hb Ht. vm_compute in Hb. injection Hb as <-.
    vm_compute in Ht. injection Ht as <-. reflexivity.
  - vm_compute. reflexivity.
  - reflexivity.
  - reflexivity.
  - split; reflexivity.
  - split; reflexivity.
  - intros band name lim Hb Ht Hl. vm_compute in Hb. injection Hb as <-.
    vm_compute in Ht. injection Ht as <-. vm_compute in Hl. injection Hl as <-.
    exists 0.5%float. split; reflexivity.
Defined.

(** X18. The colour loop visits every configured colour exactly once, in
    order: the [2 * nsubplots] axes that [zip] pairs with the indices never
    run out before the colours do. *)
Theorem every_color_visited (self : ColorDistributionTest) :
  loop_indices self = seq 0 (length (colors self)) /\
  NoDup (loop_indices self) /\
  forall index : nat,
    index ∈ loop_indices self <-> is_Some (colors self !! index).
Proof.
  rewrite loop_indices_seq. split; [reflexivity |]. split; [apply NoDup_seq |].
  intros index. rewrite elem_of_seq, lookup_lt_is_Some. lia.
Qed.
